(** * Work Hours Tracker: a shallow embedding of [Time_Tracker/Work_Hours.py]

    The development follows the source file top to bottom: the timer
    handlers ([start_timer], [pause_timer], [resume_timer], [stop_timer]),
    the persistence layer ([load_records], [save_records],
    [save_time_record]), the edit window ([iso_to_display],
    [save_changes], [delete_selected_record]) and the export
    ([export_data_to_excel]).

    Conventions.
    - Python [float] is IEEE binary64: Rocq's primitive [float].
    - Python [int] is [Z].
    - Python [str] is [string]; the characters are code points below 256.
    - Values read from and written to the JSON file are [json] trees; a
      [dict] keeps its insertion order, so it is an association list.
    - [time.time()], [datetime.now()] and the answers typed into dialogs are
      arguments of the handlers.
    - A handler either returns, having shown some message boxes, or raises;
      in both cases the application object may have been mutated, so both
      carry the resulting state.
    - The widgets (labels, list boxes) and the writing of the workbook to
      its file are not part of the model: the export produces the rows of
      the sheet, as the cells take them. *)

Set Warnings "-register-all".
From Stdlib Require Import ZArith List String Ascii Bool Lia.
From Stdlib Require Import PrimFloat FloatOps SpecFloat FloatAxioms Uint63.
Import ListNotations.

Local Open Scope string_scope.
Local Open Scope list_scope.
Local Open Scope Z_scope.

(** ** Python values *)

Inductive json : Type :=
| JNull
| JBool (b : bool)
| JInt (z : Z)
| JFloat (f : float)
| JStr (s : string)
| JList (l : list json)
| JDict (d : list (string * json)).

Definition dict : Type := list (string * json).

(** [d[k]] and [d.get(k, default)]. *)
Fixpoint dict_lookup (k : string) (d : dict) : option json :=
  match d with
  | [] => None
  | (k', v) :: d' => if String.eqb k k' then Some v else dict_lookup k d'
  end.

Definition dict_get (k : string) (default : json) (d : dict) : json :=
  match dict_lookup k d with
  | Some v => v
  | None => default
  end.

(** [d[k] = v]: an existing key keeps its position, a new key goes last. *)
Fixpoint dict_set (k : string) (v : json) (d : dict) : dict :=
  match d with
  | [] => [(k, v)]
  | (k', v') :: d' =>
      if String.eqb k k' then (k', v) :: d' else (k', v') :: dict_set k v d'
  end.

(** Exceptions the handlers can raise; [IllegalCharacterError] is the
    worksheet's. *)
Inductive exn : Type :=
| ValueError (msg : string)
| JSONDecodeError
| KeyError (key : string)
| TypeError
| AttributeError
| IndexError
| OverflowError
| OSError
| IllegalCharacterError.

Inductive result (A : Type) : Type :=
| Ok (a : A)
| Raise (e : exn).
Arguments Ok {A} a.
Arguments Raise {A} e.

Definition bind {A B : Type} (r : result A) (k : A -> result B) : result B :=
  match r with
  | Ok a => k a
  | Raise e => Raise e
  end.

Notation "x <- r ;; k" := (bind r (fun x => k))
  (at level 61, r at next level, right associativity).

(** Message boxes. *)
Inductive dialog : Type :=
| showwarning (title message : string)
| showerror (title message : string)
| showinfo (title message : string).

(** ["".join(chunks)]. *)
Fixpoint joined (chunks : list string) : string :=
  match chunks with
  | [] => ""
  | c :: cs => (c ++ joined cs)%string
  end.

(** ** Decimal rendering of integers *)

Fixpoint digits_fuel (fuel : nat) (n : Z) (acc : string) : string :=
  match fuel with
  | O => acc
  | S fuel' =>
      let acc' := String (ascii_of_nat (Z.to_nat (48 + n mod 10))) acc in
      if n / 10 =? 0 then acc' else digits_fuel fuel' (n / 10) acc'
  end.

(** [str(n)] for [0 <= n]. *)
Definition str_of_nonneg (n : Z) : string :=
  digits_fuel (S (Z.to_nat (Z.log2 n))) n "".

Fixpoint zeros (k : nat) : string :=
  match k with
  | O => ""
  | S k' => String "0" (zeros k')
  end.

(** ["%0<width>d" % n] for [0 <= n]. *)
Definition zfill (width : nat) (n : Z) : string :=
  let s := str_of_nonneg n in
  (zeros (width - String.length s) ++ s)%string.

(** ** [datetime.date] and [datetime.datetime] (naive) *)

Record date : Type := mkDate { d_year : Z; d_month : Z; d_day : Z }.

Record datetime : Type := mkDatetime {
  year : Z; month : Z; day : Z;
  hour : Z; minute : Z; second : Z; microsecond : Z
}.

Definition date_of (dt : datetime) : date :=
  mkDate (year dt) (month dt) (day dt).

Definition is_leap (y : Z) : bool :=
  (y mod 4 =? 0) && (negb (y mod 100 =? 0) || (y mod 400 =? 0)).

Definition days_in_month (y m : Z) : Z :=
  if m =? 2 then (if is_leap y then 29 else 28)
  else if (m =? 4) || (m =? 6) || (m =? 9) || (m =? 11) then 30
  else 31.

(** The checks of the [datetime] constructor. *)
Definition valid_date (y m d : Z) : bool :=
  (1 <=? y) && (y <=? 9999) && (1 <=? m) && (m <=? 12) &&
  (1 <=? d) && (d <=? days_in_month y m).

Definition valid_time (h mi s us : Z) : bool :=
  (0 <=? h) && (h <=? 23) && (0 <=? mi) && (mi <=? 59) &&
  (0 <=? s) && (s <=? 59) && (0 <=? us) && (us <=? 999999).

Definition valid_datetime (dt : datetime) : bool :=
  valid_date (year dt) (month dt) (day dt) &&
  valid_time (hour dt) (minute dt) (second dt) (microsecond dt).

(** Comparison of dates and of naive datetimes is the comparison of their
    field tuples. *)
Fixpoint lex_compare (a b : list Z) : comparison :=
  match a, b with
  | x :: a', y :: b' =>
      match x ?= y with
      | Eq => lex_compare a' b'
      | c => c
      end
  | [], [] => Eq
  | [], _ :: _ => Lt
  | _ :: _, [] => Gt
  end.

Definition date_fields (d : date) : list Z := [d_year d; d_month d; d_day d].

Definition datetime_fields (dt : datetime) : list Z :=
  [year dt; month dt; day dt; hour dt; minute dt; second dt; microsecond dt].

Definition date_le (a b : date) : bool :=
  match lex_compare (date_fields a) (date_fields b) with
  | Gt => false
  | _ => true
  end.

Definition date_lt (a b : date) : bool :=
  match lex_compare (date_fields a) (date_fields b) with
  | Lt => true
  | _ => false
  end.

Definition datetime_lt (a b : datetime) : bool :=
  match lex_compare (datetime_fields a) (datetime_fields b) with
  | Lt => true
  | _ => false
  end.

(** Proleptic Gregorian ordinal, as [date.toordinal]. *)
Definition days_before_year (y : Z) : Z :=
  let y1 := y - 1 in
  y1 * 365 + y1 / 4 - y1 / 100 + y1 / 400.

Fixpoint days_before_month_fuel (fuel : nat) (y m : Z) : Z :=
  match fuel with
  | O => 0
  | S fuel' =>
      if m <=? 1 then 0
      else days_in_month y (m - 1) + days_before_month_fuel fuel' y (m - 1)
  end.

Definition days_before_month (y m : Z) : Z := days_before_month_fuel 12 y m.

Definition toordinal (y m d : Z) : Z :=
  days_before_year y + days_before_month y m + d.

(** [(a - b)] as a [timedelta], kept as its total number of microseconds,
    and [timedelta.total_seconds()]. *)
Definition microseconds_of (dt : datetime) : Z :=
  ((toordinal (year dt) (month dt) (day dt) * 86400
    + hour dt * 3600 + minute dt * 60 + second dt) * 1000000)
  + microsecond dt.

Definition datetime_sub (a b : datetime) : Z :=
  microseconds_of a - microseconds_of b.

(** [datetime.isoformat()]: the fraction is printed only when it is not 0. *)
Definition isoformat (dt : datetime) : string :=
  (zfill 4 (year dt) ++ "-" ++ zfill 2 (month dt) ++ "-" ++ zfill 2 (day dt)
   ++ "T" ++ zfill 2 (hour dt) ++ ":" ++ zfill 2 (minute dt) ++ ":"
   ++ zfill 2 (second dt)
   ++ (if Z.eqb (microsecond dt) 0 then "" else "." ++ zfill 6 (microsecond dt)))%string.

Example isoformat_ex :
  isoformat (mkDatetime 2025 1 5 14 30 0 0) = "2025-01-05T14:30:00"
  /\ isoformat (mkDatetime 987 12 31 23 59 59 4500) = "0987-12-31T23:59:59.004500".
Proof. split; reflexivity. Qed.

(** ** Python numbers *)

(** [float(z)]: the nearest binary64, ties to even; a magnitude beyond the
    range raises [OverflowError]. *)
Definition float_of_Z (z : Z) : result float :=
  match binary_normalize prec emax z 0 false with
  | S754_infinity _ => Raise OverflowError
  | sf => Ok (SF2Prim sf)
  end.

(** The binary64 nearest to the exact quotient [n / d] ([d > 0]), ties to
    even; infinite when the quotient is beyond the range. The quotient is
    taken with at least two bits more than the format keeps, and the
    remainder decides the rounding. *)
Definition ratio_to_float (n d : Z) : float :=
  let a := Z.abs n in
  let k := Z.max 0 (55 + Z.log2 d - Z.log2 a) in
  let q := (a * 2 ^ k) / d in
  let r := (a * 2 ^ k) mod d in
  let l := if r =? 0 then loc_Exact else loc_Inexact (2 * r ?= d) in
  if a =? 0 then zero
  else SF2Prim (binary_round_aux prec emax (n <? 0) q (- k) l).

(** [n / d] on integers. *)
Definition int_truediv (n d : Z) : result float :=
  let f := ratio_to_float n d in
  if is_infinity f then Raise OverflowError else Ok f.

(** [timedelta.total_seconds()] of a difference of [us] microseconds. *)
Definition timedelta_total_seconds (us : Z) : float :=
  ratio_to_float us 1000000.

Inductive number : Type :=
| PInt (z : Z)
| PFloat (f : float).

(** The values [+] accepts next to a number: [bool] is a subclass of
    [int]. *)
Definition number_of_json (v : json) : option number :=
  match v with
  | JInt z => Some (PInt z)
  | JBool b => Some (PInt (if b then 1 else 0))
  | JFloat f => Some (PFloat f)
  | _ => None
  end.

Definition json_of_number (n : number) : json :=
  match n with
  | PInt z => JInt z
  | PFloat f => JFloat f
  end.

Definition py_add (a b : number) : result number :=
  match a, b with
  | PInt x, PInt y => Ok (PInt (x + y))
  | PInt x, PFloat g => f <- float_of_Z x ;; Ok (PFloat (f + g)%float)
  | PFloat f, PInt y => g <- float_of_Z y ;; Ok (PFloat (f + g)%float)
  | PFloat f, PFloat g => Ok (PFloat (f + g)%float)
  end.

(** [sum(values)] from the start value [acc] (Python starts from the
    integer 0), adding left to right. *)
Fixpoint py_sum_from (acc : number) (values : list json) : result number :=
  match values with
  | [] => Ok acc
  | v :: rest =>
      match number_of_json v with
      | None => Raise TypeError
      | Some n => acc' <- py_add acc n ;; py_sum_from acc' rest
      end
  end.

Definition py_sum (values : list json) : result number :=
  py_sum_from (PInt 0) values.

(** [x / 3600]. *)
Definition div_3600 (x : number) : result float :=
  match x with
  | PInt z => int_truediv z 3600
  | PFloat f => Ok (f / 3600)%float
  end.

(** Nearest integer to [num / den] ([den > 0], [num >= 0]), ties to even. *)
Definition round_half_even (num den : Z) : Z :=
  let q := num / den in
  let r := num mod den in
  match 2 * r ?= den with
  | Lt => q
  | Gt => q + 1
  | Eq => if Z.even q then q else q + 1
  end.

(** The hundredths shown for the magnitude [m * 2^e]. *)
Definition hundredths (m : positive) (e : Z) : Z :=
  if 0 <=? e then 100 * Z.pos m * 2 ^ e
  else round_half_even (100 * Z.pos m) (2 ^ (- e)).

Definition fixed2 (n : Z) : string :=
  (str_of_nonneg (n / 100) ++ "." ++ zfill 2 (n mod 100))%string.

(** [f"{x:.2f}"]: the exact binary value of [x] rounded to two decimals. *)
Definition format_2f (x : float) : string :=
  match Prim2SF x with
  | S754_nan => "nan"
  | S754_infinity s => if s then "-inf" else "inf"
  | S754_zero s => if s then "-0.00" else "0.00"
  | S754_finite s m e =>
      ((if s then "-" else "") ++ fixed2 (hundredths m e))%string
  end.

(** ** [datetime.strptime]

    [strptime] turns the format into a regular expression, matches it at
    the start of the text, refuses text left over, and builds the value
    from the named groups. The matcher below is a backtracking one with
    the alternatives tried in order, as [re.match]. *)

Inductive re : Type :=
| Eps
| Cls (p : ascii -> bool)
| Cat (a b : re)
| Alt (a b : re)
| Plus (p : ascii -> bool)
| Grp (name : string) (r : re).

Definition captures : Type := list (string * string).

(** [p+], longest first. *)
Fixpoint plus_match {A : Type} (p : ascii -> bool) (s : string)
    (k : string -> option A) : option A :=
  match s with
  | EmptyString => None
  | String c s' =>
      if p c then
        match plus_match p s' k with
        | Some x => Some x
        | None => k s'
        end
      else None
  end.

Definition consumed (s rest : string) : string :=
  substring 0 (String.length s - String.length rest) s.

Fixpoint re_match {A : Type} (r : re) (s : string) (caps : captures)
    (k : string -> captures -> option A) : option A :=
  match r with
  | Eps => k s caps
  | Cls p =>
      match s with
      | String c s' => if p c then k s' caps else None
      | EmptyString => None
      end
  | Cat a b => re_match a s caps (fun s' caps' => re_match b s' caps' k)
  | Alt a b =>
      match re_match a s caps k with
      | Some x => Some x
      | None => re_match b s caps k
      end
  | Plus p => plus_match p s (fun s' => k s' caps)
  | Grp name r' =>
      re_match r' s caps (fun s' caps' => k s' ((name, consumed s s') :: caps'))
  end.

Definition code (c : ascii) : Z := Z.of_nat (nat_of_ascii c).

Definition in_range (lo hi : ascii) : ascii -> bool :=
  fun c => (code lo <=? code c) && (code c <=? code hi).

Definition lit (a : ascii) : re := Cls (Ascii.eqb a).

(** [\d] and [\s] on code points below 256. *)
Definition digit : ascii -> bool := in_range "0" "9".

Definition space (c : ascii) : bool :=
  let n := code c in
  ((9 <=? n) && (n <=? 13)) || ((28 <=? n) && (n <=? 32))
  || (n =? 133) || (n =? 160).

Definition opt (r : re) : re := Alt r Eps.

Definition alts (rs : list re) : re :=
  match rs with
  | [] => Cls (fun _ => false)
  | r :: rs' => fold_left Alt rs' r
  end.

Definition re_Y : re :=
  Grp "Y" (Cat (Cls digit) (Cat (Cls digit) (Cat (Cls digit) (Cls digit)))).
Definition re_m : re :=
  Grp "m" (alts [Cat (lit "1") (Cls (in_range "0" "2"));
                 Cat (lit "0") (Cls (in_range "1" "9"));
                 Cls (in_range "1" "9")]).
Definition re_d : re :=
  Grp "d" (alts [Cat (lit "3") (Cls (in_range "0" "1"));
                 Cat (Cls (in_range "1" "2")) (Cls digit);
                 Cat (lit "0") (Cls (in_range "1" "9"));
                 Cls (in_range "1" "9");
                 Cat (lit " ") (Cls (in_range "1" "9"))]).
Definition re_H : re :=
  Grp "H" (alts [Cat (lit "2") (Cls (in_range "0" "3"));
                 Cat (Cls (in_range "0" "1")) (Cls digit);
                 Cls digit]).
Definition re_M : re :=
  Grp "M" (alts [Cat (Cls (in_range "0" "5")) (Cls digit); Cls digit]).
Definition re_S : re :=
  Grp "S" (alts [Cat (lit "6") (Cls (in_range "0" "1"));
                 Cat (Cls (in_range "0" "5")) (Cls digit);
                 Cls digit]).

(** The patterns of ["%Y-%m-%d"] and ["%Y-%m-%d %H:%M:%S"]. *)
Definition re_date : re :=
  Cat re_Y (Cat (lit "-") (Cat re_m (Cat (lit "-") re_d))).

Definition re_datetime : re :=
  Cat re_date
    (Cat (Plus space)
       (Cat re_H (Cat (lit ":") (Cat re_M (Cat (lit ":") re_S))))).

Fixpoint capture (name : string) (caps : captures) : string :=
  match caps with
  | [] => ""
  | (n, v) :: caps' => if String.eqb n name then v else capture name caps'
  end.

(** [int(text)] on a group matched by the patterns above: digits, or one
    space and a digit. *)
Fixpoint int_of_digits (acc : Z) (s : string) : Z :=
  match s with
  | EmptyString => acc
  | String c s' =>
      if digit c then int_of_digits (10 * acc + (code c - 48)) s'
      else int_of_digits acc s'
  end.

Definition group_int (name : string) (caps : captures) : Z :=
  int_of_digits 0 (capture name caps).

(** The match and the leftover check; [None] is [ValueError]. *)
Definition strptime_match (r : re) (text : string) : option captures :=
  match re_match r text [] (fun rest caps => Some (rest, caps)) with
  | Some (EmptyString, caps) => Some caps
  | _ => None
  end.

(** [datetime.strptime(text, "%Y-%m-%d %H:%M:%S")]. *)
Definition strptime_datetime (text : string) : option datetime :=
  match strptime_match re_datetime text with
  | None => None
  | Some caps =>
      let dt := mkDatetime (group_int "Y" caps) (group_int "m" caps)
                  (group_int "d" caps) (group_int "H" caps)
                  (group_int "M" caps) (group_int "S" caps) 0 in
      if valid_datetime dt then Some dt else None
  end.

(** [datetime.strptime(text, "%Y-%m-%d").date()]. *)
Definition strptime_date (text : string) : option date :=
  match strptime_match re_date text with
  | None => None
  | Some caps =>
      let y := group_int "Y" caps in
      let m := group_int "m" caps in
      let d := group_int "d" caps in
      if valid_date y m d then Some (mkDate y m d) else None
  end.


(** ** The [json] module

    An executable rendering of [json.dump(value, f, indent=4)] and
    [json.load(f)], on texts and strings of code points below 256. The
    handlers below do not depend on it: they take the two functions as
    parameters. It is used to run the program on concrete files, and to
    show that a saved file loads back. *)

Module Json.

(** *** [float.__repr__]: the shortest decimal that reads back as the same
    float. *)

(** The sign of [d * 10^k - v * 2^u]. *)
Definition cmp_dec_bin (d k v u : Z) : comparison :=
  (d * 10 ^ (Z.max k 0) * 2 ^ (Z.max (- u) 0))
  ?= (v * 2 ^ (Z.max u 0) * 10 ^ (Z.max (- k) 0)).

(** [floor (v * 2^u / 10^k)]. *)
Definition floor_dec (v u k : Z) : Z :=
  (v * 2 ^ (Z.max u 0) * 10 ^ (Z.max (- k) 0))
  / (2 ^ (Z.max (- u) 0) * 10 ^ (Z.max k 0)).

(** The largest [p] with [10^p <= v * 2^u], searched upwards from an
    underestimate. *)
Fixpoint log10_from (fuel : nat) (p v u : Z) : Z :=
  match fuel with
  | O => p
  | S fuel' =>
      match cmp_dec_bin 1 (p + 1) v u with
      | Gt => p
      | _ => log10_from fuel' (p + 1) v u
      end
  end.

Definition floor_log10 (v u : Z) : Z :=
  log10_from 4 ((Z.log2 v + u) * 30103 / 100000 - 1) v u.

(** The float is [x * 2^u], and the decimals that read back as it lie
    between [lo * 2^u] and [hi * 2^u], bounds included when [closed]. *)
Definition within (closed : bool) (lo hi u d k : Z) : bool :=
  match cmp_dec_bin d k lo u, cmp_dec_bin d k hi u with
  | Gt, Lt => true
  | Eq, (Lt | Eq) => closed
  | Gt, Eq => closed
  | _, _ => false
  end.

(** The decimal [d * 10^k] of [n] digits chosen for the float, if one of
    the two decimals around it reads back as it. *)
Definition candidate (closed : bool) (lo x hi u : Z) (n : Z) : option (Z * Z) :=
  let k := floor_log10 x u + 1 - n in
  let d0 := floor_dec x u k in
  let d1 := d0 + 1 in
  let in0 := within closed lo hi u d0 k in
  let in1 := within closed lo hi u d1 k in
  match in0, in1 with
  | true, false => Some (d0, k)
  | false, true => Some (d1, k)
  | false, false => None
  | true, true =>
      match cmp_dec_bin (d0 + d1) k (2 * x) u with
      | Gt => Some (d0, k)
      | Lt => Some (d1, k)
      | Eq => Some (if Z.even d0 then d0 else d1, k)
      end
  end.

Fixpoint shortest_from (fuel : nat) (closed : bool) (lo x hi u n : Z)
    : Z * Z :=
  match fuel with
  | O => (floor_dec x u 0, 0)
  | S fuel' =>
      match candidate closed lo x hi u n with
      | Some dk => dk
      | None => shortest_from fuel' closed lo x hi u (n + 1)
      end
  end.

Fixpoint strip_zeros (fuel : nat) (d k : Z) : Z * Z :=
  match fuel with
  | O => (d, k)
  | S fuel' =>
      if (d mod 10 =? 0) && negb (d =? 0) then strip_zeros fuel' (d / 10) (k + 1)
      else (d, k)
  end.

(** The digits and the position of the decimal point of the magnitude
    [m * 2^e]: the value is [0.digits * 10^decpt]. *)
Definition shortest_digits (m : positive) (e : Z) : string * Z :=
  let x := 4 * Z.pos m in
  let boundary := (Z.pos m =? 2 ^ 52) && (- 1074 <? e) in
  let lo := if boundary then x - 1 else x - 2 in
  let hi := x + 2 in
  let '(d, k) := shortest_from 17 (Z.even (Z.pos m)) lo x hi (e - 2) 1 in
  let '(d', k') := strip_zeros 20 d k in
  let ds := str_of_nonneg d' in
  (ds, Z.of_nat (String.length ds) + k').

Definition exponent_text (e : Z) : string :=
  let sign := if e <? 0 then "-" else "+" in
  (sign ++ zfill 2 (Z.abs e))%string.

Definition repr_finite (ds : string) (decpt : Z) : string :=
  let nd := Z.of_nat (String.length ds) in
  let lead := Z.to_nat decpt in
  let fixed := (- 4 <? decpt) && (decpt <=? 16) in
  let small := decpt <=? 0 in
  let whole := nd <=? decpt in
  let one_digit := nd <=? 1 in
  (if fixed then
     if small then "0." ++ zeros (Z.to_nat (- decpt)) ++ ds
     else if whole then ds ++ zeros (Z.to_nat (decpt - nd)) ++ ".0"
     else substring 0 lead ds ++ "." ++ substring lead (Z.to_nat (nd - decpt)) ds
   else
     substring 0 1 ds
     ++ (if one_digit then "" else "." ++ substring 1 (Z.to_nat (nd - 1)) ds)
     ++ "e" ++ exponent_text (decpt - 1))%string.

(** The text [json] writes for a float. *)
Definition floatstr (x : float) : string :=
  match Prim2SF x with
  | S754_nan => "NaN"
  | S754_infinity s => if s then "-Infinity" else "Infinity"
  | S754_zero s => if s then "-0.0" else "0.0"
  | S754_finite s m e =>
      let '(ds, decpt) := shortest_digits m e in
      ((if s then "-" else "") ++ repr_finite ds decpt)%string
  end.

(** *** Encoding *)

Definition hex_digit (n : Z) : ascii :=
  ascii_of_nat (Z.to_nat (if n <? 10 then 48 + n else 87 + n)).

(** One character of a string literal, as [ensure_ascii] writes it. *)
Definition escape_char (c : ascii) : string :=
  let n := code c in
  if n =? 34 then "\" ++ String c ""
  else if n =? 92 then "\\"
  else if n =? 10 then "\n"
  else if n =? 13 then "\r"
  else if n =? 9 then "\t"
  else if n =? 8 then "\b"
  else if n =? 12 then "\f"
  else if (n <? 32) || (126 <? n) then
    "\u00" ++ String (hex_digit (n / 16)) (String (hex_digit (n mod 16)) "")
  else String c "".

Fixpoint escape (s : string) : string :=
  match s with
  | EmptyString => ""
  | String c s' => (escape_char c ++ escape s')%string
  end.

Definition quote : string := String (ascii_of_nat 34) "".

Definition encode_string (s : string) : string :=
  (quote ++ escape s ++ quote)%string.

Definition intstr (z : Z) : string :=
  if z <? 0 then ("-" ++ str_of_nonneg (- z))%string else str_of_nonneg z.

(** The text of a value written in one piece. *)
Definition scalar (v : json) : option string :=
  match v with
  | JNull => Some "null"
  | JBool b => Some (if b then "true" else "false")
  | JInt z => Some (intstr z)
  | JFloat f => Some (floatstr f)
  | JStr s => Some (encode_string s)
  | JList _ | JDict _ => None
  end.

Fixpoint spaces (k : nat) : string :=
  match k with
  | O => ""
  | S k' => String " " (spaces k')
  end.

Definition newline_indent (level : nat) : string :=
  String (ascii_of_nat 10) (spaces (4 * level)).

(** The chunks of [json.dump(value, f, indent=4)], at nesting [level]. *)
Fixpoint iterencode_at (level : nat) (v : json) : list string :=
  match v with
  | JList [] => ["[]"]
  | JList l =>
      (fix items (buf : string) (l : list json) : list string :=
         match l with
         | [] => []
         | x :: l' =>
             match scalar x with
             | Some text => [(buf ++ text)%string]
             | None => buf :: iterencode_at (S level) x
             end
             ++ items ("," ++ newline_indent (S level))%string l'
         end) ("[" ++ newline_indent (S level))%string l
      ++ [newline_indent level; "]"]
  | JDict [] => ["{}"]
  | JDict d =>
      "{" :: newline_indent (S level)
      :: (fix items (first : bool) (d : list (string * json)) : list string :=
            match d with
            | [] => []
            | (key, x) :: d' =>
                (if first then [] else [("," ++ newline_indent (S level))%string])
                ++ [encode_string key; ": "]
                ++ match scalar x with
                   | Some text => [text]
                   | None => iterencode_at (S level) x
                   end
                ++ items false d'
            end) true d
      ++ [newline_indent level; "}"]
  | _ =>
      match scalar v with
      | Some text => [text]
      | None => []
      end
  end.

Definition iterencode (v : json) : list string := iterencode_at 0 v.

Definition dumps (v : json) : string := joined (iterencode v).

(** *** Decoding *)

Definition ws (c : ascii) : bool :=
  let n := code c in
  (n =? 32) || (n =? 9) || (n =? 10) || (n =? 13).

Fixpoint skip_ws (s : string) : string :=
  match s with
  | String c s' => if ws c then skip_ws s' else s
  | EmptyString => s
  end.

(** [s] without the prefix [p], when it starts with it. *)
Fixpoint after (p s : string) : option string :=
  match p, s with
  | EmptyString, _ => Some s
  | String a p', String b s' => if Ascii.eqb a b then after p' s' else None
  | String _ _, EmptyString => None
  end.

(** The number pattern of the scanner. *)
Definition re_number : re :=
  Cat (Grp "int"
         (Cat (opt (lit "-"))
            (Alt (lit "0") (Cat (Cls (in_range "1" "9")) (opt (Plus digit))))))
    (Cat (opt (Grp "frac" (Cat (lit ".") (Plus digit))))
       (opt (Grp "exp"
               (Cat (Cls (fun c => Ascii.eqb c "e" || Ascii.eqb c "E"))
                  (Cat (opt (Cls (fun c => Ascii.eqb c "+" || Ascii.eqb c "-")))
                     (Plus digit)))))).

Definition has_minus (s : string) : bool :=
  match index 0 "-" s with
  | Some _ => true
  | None => false
  end.

(** [float(text)] for a decimal literal: the digits [d], scaled by the
    power of ten [e]. *)
Definition float_of_decimal (neg : bool) (d e : Z) : float :=
  if d =? 0 then (if neg then neg_zero else zero)
  else
    let n := if neg then - d else d in
    if 0 <=? e then ratio_to_float (n * 10 ^ e) 1
    else ratio_to_float n (10 ^ (- e)).

Definition number_of_groups (caps : captures) : json :=
  let int_text := capture "int" caps in
  let frac_text := capture "frac" caps in
  let exp_text := capture "exp" caps in
  let neg := has_minus int_text in
  match frac_text, exp_text with
  | EmptyString, EmptyString =>
      JInt (if neg then - int_of_digits 0 int_text else int_of_digits 0 int_text)
  | _, _ =>
      let d := int_of_digits (int_of_digits 0 int_text) frac_text in
      let e10 := int_of_digits 0 exp_text in
      let e := (if has_minus exp_text then - e10 else e10)
               - Z.of_nat (String.length frac_text - 1) in
      JFloat (float_of_decimal neg d e)
  end.

Definition scan_number (s : string) : option (json * string) :=
  re_match re_number s []
    (fun rest caps => Some (number_of_groups caps, rest)).

Definition hex_value (c : ascii) : option Z :=
  let n := code c in
  if (48 <=? n) && (n <=? 57) then Some (n - 48)
  else if (97 <=? n) && (n <=? 102) then Some (n - 87)
  else if (65 <=? n) && (n <=? 70) then Some (n - 55)
  else None.

(** The four hex digits after a backslash and [u]. The strings of the
    model hold code points below 256 only: an escape of a higher code
    point, which [json] reads (and writes, for a comment with such a
    character), has no value here and stops the scanner. The texts of the
    concrete runs below hold no such escape. *)
Definition scan_unicode (s : string) : option (ascii * string) :=
  match s with
  | String a (String b (String c (String d rest))) =>
      match hex_value a, hex_value b, hex_value c, hex_value d with
      | Some 0, Some 0, Some x, Some y =>
          Some (ascii_of_nat (Z.to_nat (16 * x + y)), rest)
      | _, _, _, _ => None
      end
  | _ => None
  end.

(** The body of a string literal, after the opening quote. *)
Fixpoint scan_string (fuel : nat) (s : string) : option (string * string) :=
  match fuel with
  | O => None
  | S fuel' =>
      match s with
      | EmptyString => None
      | String c s' =>
          let n := code c in
          if n =? 34 then Some ("", s')
          else if n <? 32 then None
          else if n =? 92 then
            match s' with
            | EmptyString => None
            | String e s'' =>
                let m := code e in
                let plain (x : Z) :=
                  match scan_string fuel' s'' with
                  | Some (text, rest) =>
                      Some (String (ascii_of_nat (Z.to_nat x)) text, rest)
                  | None => None
                  end in
                if m =? 34 then plain 34
                else if m =? 92 then plain 92
                else if m =? 47 then plain 47
                else if m =? 98 then plain 8
                else if m =? 102 then plain 12
                else if m =? 110 then plain 10
                else if m =? 114 then plain 13
                else if m =? 116 then plain 9
                else if m =? 117 then
                  match scan_unicode s'' with
                  | Some (u, rest) =>
                      match scan_string fuel' rest with
                      | Some (text, rest') => Some (String u text, rest')
                      | None => None
                      end
                  | None => None
                  end
                else None
            end
          else
            match scan_string fuel' s' with
            | Some (text, rest) => Some (String c text, rest)
            | None => None
            end
      end
  end.

Definition string_body (s : string) : option (string * string) :=
  scan_string (S (String.length s)) s.

(** [dict(pairs)]: a repeated key keeps its first position and its last
    value. *)
Definition dict_of_pairs (pairs : list (string * json)) : dict :=
  fold_left (fun d kv => dict_set (fst kv) (snd kv) d) pairs [].

(** The first character of a text, as its code, and the rest. *)
Definition uncons (s : string) : option (Z * string) :=
  match s with
  | EmptyString => None
  | String c s' => Some (code c, s')
  end.

(** The literals tried before a number, and after it. *)
Definition scan_keyword (s : string) : option (json * string) :=
  match after "null" s with
  | Some rest => Some (JNull, rest)
  | None =>
      match after "true" s with
      | Some rest => Some (JBool true, rest)
      | None =>
          match after "false" s with
          | Some rest => Some (JBool false, rest)
          | None => None
          end
      end
  end.

Definition scan_constant (s : string) : option (json * string) :=
  match after "NaN" s with
  | Some rest => Some (JFloat nan, rest)
  | None =>
      match after "Infinity" s with
      | Some rest => Some (JFloat infinity, rest)
      | None =>
          match after "-Infinity" s with
          | Some rest => Some (JFloat neg_infinity, rest)
          | None => None
          end
      end
  end.

Definition scan_atom (s : string) : option (json * string) :=
  match scan_keyword s with
  | Some r => Some r
  | None =>
      match scan_number s with
      | Some r => Some r
      | None => scan_constant s
      end
  end.

(** The scanner: [scan_once] reads one value at the start of the text;
    [scan_items] is inside an array, before a value; [scan_members] is
    inside an object, before a key. *)
Fixpoint scan_once (fuel : nat) (s : string) : option (json * string) :=
  match fuel with
  | O => None
  | S fuel' =>
      match uncons s with
      | None => None
      | Some (n, s') =>
          if n =? 34 then
            match string_body s' with
            | Some (text, rest) => Some (JStr text, rest)
            | None => None
            end
          else if n =? 123 then
            match uncons (skip_ws s') with
            | None => None
            | Some (m, rest) =>
                if m =? 125 then Some (JDict [], rest)
                else
                  match scan_members fuel' (skip_ws s') [] with
                  | Some (pairs, rest') =>
                      Some (JDict (dict_of_pairs pairs), rest')
                  | None => None
                  end
            end
          else if n =? 91 then
            match uncons (skip_ws s') with
            | None => None
            | Some (m, rest) =>
                if m =? 93 then Some (JList [], rest)
                else
                  match scan_items fuel' (skip_ws s') [] with
                  | Some (items, rest') => Some (JList items, rest')
                  | None => None
                  end
            end
          else scan_atom s
      end
  end
with scan_items (fuel : nat) (s : string) (acc : list json)
    : option (list json * string) :=
  match fuel with
  | O => None
  | S fuel' =>
      match scan_once fuel' s with
      | None => None
      | Some (v, rest) =>
          match uncons (skip_ws rest) with
          | None => None
          | Some (m, rest') =>
              if m =? 93 then Some (acc ++ [v], rest')
              else if m =? 44 then
                scan_items fuel' (skip_ws rest') (acc ++ [v])
              else None
          end
      end
  end
with scan_members (fuel : nat) (s : string) (acc : list (string * json))
    : option (list (string * json) * string) :=
  match fuel with
  | O => None
  | S fuel' =>
      match uncons s with
      | None => None
      | Some (q, s') =>
          if q =? 34 then
            match string_body s' with
            | None => None
            | Some (key, rest) =>
                match uncons (skip_ws rest) with
                | None => None
                | Some (c, rest') =>
                    if c =? 58 then
                      match scan_once fuel' (skip_ws rest') with
                      | None => None
                      | Some (v, rest'') =>
                          match uncons (skip_ws rest'') with
                          | None => None
                          | Some (m, rest3) =>
                              if m =? 125 then Some (acc ++ [(key, v)], rest3)
                              else if m =? 44 then
                                scan_members fuel' (skip_ws rest3)
                                  (acc ++ [(key, v)])
                              else None
                          end
                      end
                    else None
                end
            end
          else None
      end
  end.

(** [json.loads(text)]: one value, with white space around it and nothing
    else. *)
Definition loads (text : string) : option json :=
  match scan_once (S (String.length text)) (skip_ws text) with
  | Some (v, rest) =>
      match skip_ws rest with
      | EmptyString => Some v
      | _ => None
      end
  | None => None
  end.

End Json.

(** ** [repr]

    The text [repr] gives for a value read from JSON; the worksheet quotes
    it when it refuses a value. A string is put between apostrophes, or
    between double quotes when it holds an apostrophe and no double
    quote. *)

Definition printable (n : Z) : bool :=
  ((32 <=? n) && (n <=? 126)) || ((161 <=? n) && negb (n =? 173)).

Definition hex2 (n : Z) : string :=
  String (Json.hex_digit (n / 16)) (String (Json.hex_digit (n mod 16)) "").

Definition repr_char (q : Z) (c : ascii) : string :=
  let n := code c in
  if (n =? q) || (n =? 92) then String "\" (String c "")
  else if n =? 9 then "\t"
  else if n =? 10 then "\n"
  else if n =? 13 then "\r"
  else if printable n then String c ""
  else ("\x" ++ hex2 n)%string.

Fixpoint any_char (p : ascii -> bool) (s : string) : bool :=
  match s with
  | EmptyString => false
  | String c s' => p c || any_char p s'
  end.

Fixpoint repr_chars (q : Z) (s : string) : string :=
  match s with
  | EmptyString => ""
  | String c s' => (repr_char q c ++ repr_chars q s')%string
  end.

Definition repr_str (s : string) : string :=
  let apostrophe := any_char (fun c => code c =? 39) s in
  let double := any_char (fun c => code c =? 34) s in
  let q := if apostrophe && negb double then 34 else 39 in
  let mark := String (ascii_of_nat (Z.to_nat q)) "" in
  (mark ++ repr_chars q s ++ mark)%string.

Definition repr_float (f : float) : string :=
  match Prim2SF f with
  | S754_nan => "nan"
  | S754_infinity s => if s then "-inf" else "inf"
  | _ => Json.floatstr f
  end.

Fixpoint py_repr (v : json) : string :=
  match v with
  | JNull => "None"
  | JBool b => if b then "True" else "False"
  | JInt z => Json.intstr z
  | JFloat f => repr_float f
  | JStr s => repr_str s
  | JList l =>
      ("["
       ++ (fix items (first : bool) (l : list json) : string :=
             match l with
             | [] => ""
             | x :: l' =>
                 (if first then "" else ", ") ++ py_repr x ++ items false l'
             end) true l
       ++ "]")%string
  | JDict d =>
      ("{"
       ++ (fix items (first : bool) (d : list (string * json)) : string :=
             match d with
             | [] => ""
             | (key, x) :: d' =>
                 (if first then "" else ", ") ++ repr_str key ++ ": "
                 ++ py_repr x ++ items false d'
             end) true d
       ++ "}")%string
  end.

(** A text written with apostrophes for its double quotes. *)
Fixpoint quoted (s : string) : string :=
  match s with
  | EmptyString => EmptyString
  | String c s' =>
      String (if code c =? 39 then ascii_of_nat 34 else c) (quoted s')
  end.

(** ** [datetime.fromisoformat]

    The handlers take the function as a parameter. The instance below is
    for the concrete runs. It reads the texts [isoformat] writes for a
    naive datetime, and the shorter forms of the same grammar:
    [YYYY-MM-DD[*HH[:MM[:SS[.fff[fff]]]]]], where [*] is any character.
    [datetime.fromisoformat] reads more than that: times with a UTC
    offset, the basic format without separators, week dates, fractions of
    other lengths. On those this instance gives [None]; the runs use it
    only on texts of the grammar above and on texts that are no ISO 8601
    time at all. *)

Definition two_digits (name : string) : re := Grp name (Cat (Cls digit) (Cls digit)).

Definition three_digits : re := Cat (Cls digit) (Cat (Cls digit) (Cls digit)).

Definition re_iso : re :=
  Cat (Grp "Y" (Cat (Cls digit) (Cat (Cls digit) (Cat (Cls digit) (Cls digit)))))
    (Cat (lit "-") (Cat (two_digits "m") (Cat (lit "-") (Cat (two_digits "d")
       (opt (Cat (Cls (fun _ => true)) (Cat (two_digits "H")
          (opt (Cat (lit ":") (Cat (two_digits "M")
             (opt (Cat (lit ":") (Cat (two_digits "S")
                (opt (Cat (lit ".")
                   (Grp "f" (Cat three_digits (opt three_digits)))))))))))))))))).

Definition fromisoformat_naive (text : string) : option datetime :=
  match strptime_match re_iso text with
  | None => None
  | Some caps =>
      let f := capture "f" caps in
      let us := if Nat.eqb (String.length f) 3 then 1000 * int_of_digits 0 f
                else int_of_digits 0 f in
      let dt := mkDatetime (group_int "Y" caps) (group_int "m" caps)
                  (group_int "d" caps) (group_int "H" caps)
                  (group_int "M" caps) (group_int "S" caps) us in
      if valid_datetime dt then Some dt else None
  end.
(** ** The application object

    The four timer attributes of [TimeTrackerApp], the text of [DATA_FILE]
    ([None] when [os.path.exists] is false), and the edit window's records.
    The edit window holds a list of dict objects and the Save button of an
    edit dialog holds one of these objects; the objects are kept by
    identity in [record_objects], and [edit_window_records] lists
    references to them. *)

Record app : Type := mkApp {
  timer_running : bool;
  start_time : option float;
  start_time_dt : option datetime;
  elapsed_time : float;
  data_file : option string;
  record_objects : list dict;
  edit_window_records : list nat
}.

Definition set_timer (running : bool) (t : option float)
    (dt : option datetime) (elapsed : float) (st : app) : app :=
  mkApp running t dt elapsed
    (data_file st) (record_objects st) (edit_window_records st).

Definition set_data_file (f : option string) (st : app) : app :=
  mkApp (timer_running st) (start_time st) (start_time_dt st)
    (elapsed_time st) f (record_objects st) (edit_window_records st).

Definition set_record_objects (objs : list dict) (st : app) : app :=
  mkApp (timer_running st) (start_time st) (start_time_dt st)
    (elapsed_time st) (data_file st) objs (edit_window_records st).

Definition set_edit_window_records (refs : list nat) (st : app) : app :=
  mkApp (timer_running st) (start_time st) (start_time_dt st)
    (elapsed_time st) (data_file st) (record_objects st) refs.

(** [__init__], over whatever the file system holds. *)
Definition init (file : option string) : app :=
  mkApp false None None 0%float file [] [].

(** What a handler leaves behind. *)
Inductive outcome : Type :=
| Returned (st : app) (shown : list dialog)
| Raised (e : exn) (st : app).

Definition state_of (o : outcome) : app :=
  match o with
  | Returned st _ => st
  | Raised _ st => st
  end.

(** ** Timer logic *)

Definition start_timer (now_dt : datetime) (now : float) (st : app) : outcome :=
  if timer_running st then
    Returned st [showwarning "Warning" "Timer is already running!"]
  else
    Returned (set_timer true (Some now) (Some now_dt) 0%float st) [].

Definition pause_timer (now : float) (st : app) : outcome :=
  if negb (timer_running st) then
    Returned st [showwarning "Warning" "No timer is running to pause."]
  else
    match start_time st with
    | None => Raised TypeError st
    | Some t0 =>
        Returned (set_timer false (start_time st) (start_time_dt st)
                    (elapsed_time st + (now - t0))%float st) []
    end.

Definition resume_timer (now : float) (st : app) : outcome :=
  if timer_running st then
    Returned st [showwarning "Warning" "Timer is already running!"]
  else
    Returned (set_timer true (Some now) (start_time_dt st)
                (elapsed_time st) st) [].

(** [update_timer]: the seconds on display. *)
Definition current_elapsed (now : float) (st : app) : result float :=
  if timer_running st then
    match start_time st with
    | None => Raise TypeError
    | Some t0 => Ok (elapsed_time st + (now - t0))%float
    end
  else Ok (elapsed_time st).

(** ** Writing the data file

    [open(DATA_FILE, "w")] empties the file, then [json.dump] writes the
    text chunk by chunk. *)

Inductive file_op : Type :=
| Truncate
| Write (chunk : string).

Definition apply_op (f : option string) (op : file_op) : option string :=
  match op with
  | Truncate => Some ""
  | Write chunk =>
      match f with
      | Some text => Some (text ++ chunk)%string
      | None => Some chunk
      end
  end.

Definition run_ops (ops : list file_op) (f : option string) : option string :=
  fold_left apply_op ops f.

Section Library.

(** The library functions whose results the program only passes on:
    [json.load] on the text of a file ([None] is [JSONDecodeError]), the
    chunks [json.dump(value, f, indent=4)] writes, and
    [datetime.fromisoformat] on a string ([None] is [ValueError]). *)
Variable json_load : string -> option json.
Variable json_iterencode : json -> list string.
Variable fromisoformat : string -> option datetime.

(** ** Data persistence *)

Definition load_records (st : app) : result json :=
  match data_file st with
  | Some text =>
      match json_load text with
      | Some v => Ok v
      | None => Raise JSONDecodeError
      end
  | None => Ok (JList [])
  end.

Definition save_records_ops (records : json) : list file_op :=
  Truncate :: map Write (json_iterencode records).

Definition save_records (records : json) (st : app) : app :=
  set_data_file (run_ops (save_records_ops records) (data_file st)) st.

Definition new_record (start_iso end_iso : string) (elapsed_seconds : float)
    (comment : string) : json :=
  JDict [("start_time", JStr start_iso); ("end_time", JStr end_iso);
         ("elapsed", JFloat elapsed_seconds); ("comment", JStr comment)].

Definition save_time_record (start_time_dt : option datetime)
    (end_time_dt : datetime) (elapsed_seconds : float) (comment : string)
    (st : app) : outcome :=
  match load_records st with
  | Raise e => Raised e st
  | Ok records =>
      match start_time_dt with
      | None => Raised AttributeError st
      | Some start_dt =>
          match records with
          | JList l =>
              Returned
                (save_records
                   (JList (l ++ [new_record (isoformat start_dt)
                                   (isoformat end_time_dt)
                                   elapsed_seconds comment])) st) []
          | _ => Raised AttributeError st
          end
      end
  end.

(** [save_time_record] on a file system that may refuse the write.
    [open] and the writes can raise [OSError]; [disk] says what happens:
    [None] when the write goes through, as in [save_time_record] above;
    [Some None] when [open] fails, the file being as it was;
    [Some (Some n)] when [open] has emptied the file and a write, or the
    closing of the file, fails after [n] characters of the new text have
    reached it. *)
Definition save_records_refused (reached : option nat) (records : json)
    (st : app) : outcome :=
  Raised OSError
    (match reached with
     | None => st
     | Some n =>
         set_data_file
           (Some (substring 0 n (joined (json_iterencode records)))) st
     end).

Definition save_time_record_on (disk : option (option nat))
    (start_time_dt : option datetime) (end_time_dt : datetime)
    (elapsed_seconds : float) (comment : string) (st : app) : outcome :=
  match load_records st with
  | Raise e => Raised e st
  | Ok records =>
      match start_time_dt with
      | None => Raised AttributeError st
      | Some start_dt =>
          match records with
          | JList l =>
              let added :=
                JList (l ++ [new_record (isoformat start_dt)
                               (isoformat end_time_dt)
                               elapsed_seconds comment]) in
              match disk with
              | None => Returned (save_records added st) []
              | Some reached => save_records_refused reached added st
              end
          | _ => Raised AttributeError st
          end
      end
  end.

(** [stop_timer]; [answer] is what [askstring] returned. *)
Definition stop_timer (now : float) (answer : option string)
    (end_time_dt : datetime) (st : app) : outcome :=
  if negb (timer_running st) && (elapsed_time st =? 0)%float then
    Returned st
      [showwarning "Warning" "No active or paused session to stop."]
  else
    let finalized :=
      if timer_running st then
        match start_time st with
        | None => Raise TypeError
        | Some t0 =>
            Ok (set_timer false (start_time st) (start_time_dt st)
                  (elapsed_time st + (now - t0))%float st)
        end
      else Ok st in
    match finalized with
    | Raise e => Raised e st
    | Ok st1 =>
        let comment := match answer with Some c => c | None => "" end in
        match save_time_record (start_time_dt st1) end_time_dt
                (elapsed_time st1) comment st1 with
        | Raised e st2 => Raised e st2
        | Returned st2 _ =>
            Returned (set_timer (timer_running st2) None None 0%float st2)
              [showinfo "Session Recorded"
                 "Your work session has been saved."]
        end
    end.

(** ** Showing a stored time

    [dt.strftime("%Y-%m-%d %H:%M:%S")]. The C library writes the year:
    some write it with four digits, some without leading zeros;
    [padded_year] says which. *)

Definition strftime_display (padded_year : bool) (dt : datetime) : string :=
  ((if padded_year then zfill 4 (year dt) else str_of_nonneg (year dt))
   ++ "-" ++ zfill 2 (month dt) ++ "-" ++ zfill 2 (day dt) ++ " "
   ++ zfill 2 (hour dt) ++ ":" ++ zfill 2 (minute dt) ++ ":"
   ++ zfill 2 (second dt))%string.

(** [iso_to_display]: a value that is not a string, or does not parse, is
    returned as it is. *)
Definition iso_to_display (padded_year : bool) (iso_str : json) : json :=
  match iso_str with
  | JStr s =>
      match fromisoformat s with
      | Some dt => JStr (strftime_display padded_year dt)
      | None => iso_str
      end
  | _ => iso_str
  end.

(** ** Editing

    [save_changes], the Save button of the dialog opened on the dict object
    [record]; the three texts are what the entry fields hold. *)

Definition update_object (record : nat) (f : dict -> dict)
    (objs : list dict) : list dict :=
  map (fun p => if Nat.eqb (fst p) record then f (snd p) else snd p)
    (combine (seq 0 (List.length objs)) objs).

Definition listed_records (st : app) : json :=
  JList (map (fun r => JDict (nth r (record_objects st) []))
           (edit_window_records st)).

Definition edited (start_iso end_iso : string) (elapsed : float)
    (comment : string) (d : dict) : dict :=
  dict_set "comment" (JStr comment)
    (dict_set "elapsed" (JFloat elapsed)
       (dict_set "end_time" (JStr end_iso)
          (dict_set "start_time" (JStr start_iso) d))).

Definition save_changes (record : nat) (new_start new_end new_comment : string)
    (st : app) : outcome :=
  match strptime_datetime new_start, strptime_datetime new_end with
  | Some dt_start, Some dt_end =>
      if datetime_lt dt_end dt_start then
        Returned st
          [showerror "Error" "End time cannot be before start time."]
      else
        let elapsed := timedelta_total_seconds (datetime_sub dt_end dt_start) in
        let st1 :=
          set_record_objects
            (update_object record
               (edited (isoformat dt_start) (isoformat dt_end) elapsed
                  new_comment)
               (record_objects st)) st in
        Returned (save_records (listed_records st1) st1)
          [showinfo "Success" "Record updated."]
  | _, _ =>
      Returned st
        [showerror "Error"
           "Invalid date/time. Use YYYY-MM-DD HH:MM:SS format."]
  end.

(** [delete_selected_record] once the user has confirmed. *)
Fixpoint remove_at {A : Type} (i : nat) (l : list A) : list A :=
  match i, l with
  | _, [] => []
  | O, _ :: l' => l'
  | S i', x :: l' => x :: remove_at i' l'
  end.

Definition delete_selected_record (index : nat) (st : app) : outcome :=
  if Nat.ltb index (List.length (edit_window_records st)) then
    let st1 :=
      set_edit_window_records (remove_at index (edit_window_records st)) st in
    Returned (save_records (listed_records st1) st1)
      [showinfo "Deleted" "Record deleted successfully."]
  else Raised IndexError st.

(** ** Export *)

(** [for r in records]: the items of a list, the keys of a dict, the
    characters of a string. *)
Fixpoint chars (s : string) : list json :=
  match s with
  | EmptyString => []
  | String c s' => JStr (String c EmptyString) :: chars s'
  end.

Definition py_iter (v : json) : result (list json) :=
  match v with
  | JList l => Ok l
  | JDict d => Ok (map (fun kv => JStr (fst kv)) d)
  | JStr s => Ok (chars s)
  | _ => Raise TypeError
  end.

(** One pass of the filter loop on [r]: [Ok true] appends it, [Ok false]
    goes on without it ([continue], or the test fails). *)
Definition selects (start_date end_date : date) (r : json) : result bool :=
  match r with
  | JDict d =>
      match dict_lookup "start_time" d with
      | None => Ok false
      | Some (JStr s) =>
          match fromisoformat s with
          | None => Ok false
          | Some dt =>
              Ok (date_le start_date (date_of dt)
                  && date_le (date_of dt) end_date)
          end
      | Some _ => Raise TypeError
      end
  | _ => Raise TypeError
  end.

(** The filter loop, [filtered] being the list built so far. *)
Fixpoint filter_loop (start_date end_date : date) (records : list json)
    (filtered : list json) : result (list json) :=
  match records with
  | [] => Ok filtered
  | r :: rest =>
      keep <- selects start_date end_date r ;;
      filter_loop start_date end_date rest
        (if keep then filtered ++ [r] else filtered)
  end.

Definition headers : list json :=
  [JStr "Start Time"; JStr "End Time"; JStr "Elapsed (seconds)"; JStr "Comment"].

(** [ws.append(row)] makes one cell per item, from left to right. A cell
    takes a number, a bool, [None] (it stays empty) and a string; a string
    is cut to 32767 characters, and refused if it then holds a control
    character other than tab, line feed and carriage return. A list or a
    dict is refused with the [ValueError] that quotes it. *)
Definition illegal_character (c : ascii) : bool :=
  let n := code c in
  (n <=? 8) || ((11 <=? n) && (n <=? 12)) || ((14 <=? n) && (n <=? 31)).

Definition longest_text : nat := Z.to_nat 32767.

Definition cell_value (v : json) : result json :=
  match v with
  | JList _ | JDict _ =>
      Raise (ValueError ("Cannot convert " ++ py_repr v ++ " to Excel"))
  | JStr s =>
      let text := substring 0 longest_text s in
      if any_char illegal_character text then Raise IllegalCharacterError
      else Ok (JStr text)
  | _ => Ok v
  end.

Fixpoint append_row (row : list json) : result (list json) :=
  match row with
  | [] => Ok []
  | v :: rest =>
      c <- cell_value v ;;
      cells <- append_row rest ;;
      Ok (c :: cells)
  end.

(** The row of one record: the list is built with [rec.get], then
    appended. *)
Definition record_row (rec : json) : result (list json) :=
  match rec with
  | JDict d =>
      append_row
        [dict_get "start_time" (JStr "") d; dict_get "end_time" (JStr "") d;
         dict_get "elapsed" (JStr "") d; dict_get "comment" (JStr "") d]
  | _ => Raise AttributeError
  end.

Fixpoint record_rows (recs : list json) : result (list (list json)) :=
  match recs with
  | [] => Ok []
  | rec :: rest =>
      row <- record_row rec ;;
      rows <- record_rows rest ;;
      Ok (row :: rows)
  end.

(** [rec["elapsed"] for rec in filtered]. *)
Definition elapsed_of (rec : json) : result json :=
  match rec with
  | JDict d =>
      match dict_lookup "elapsed" d with
      | Some v => Ok v
      | None => Raise (KeyError "elapsed")
      end
  | _ => Raise TypeError
  end.

(** [sum(rec["elapsed"] for rec in filtered)]: the generator is consumed
    as the sum proceeds. The sum starts from the integer 0 and adds from
    left to right, each float addition rounded to binary64, as CPython
    does up to version 3.11 (later versions carry a correction term along
    a sum of floats, which can change the last bit of the total). *)
Fixpoint sum_elapsed (acc : number) (recs : list json) : result number :=
  match recs with
  | [] => Ok acc
  | rec :: rest =>
      v <- elapsed_of rec ;;
      match number_of_json v with
      | None => Raise TypeError
      | Some n => acc' <- py_add acc n ;; sum_elapsed acc' rest
      end
  end.

Definition blank_row : list json := repeat (JStr "") (List.length headers).

(** The rows appended to the sheet, from the header to the two totals.
    The header, the blank row and the two total rows hold short texts and
    a number, which the cells take as they are. *)
Definition sheet_rows (filtered : list json) : result (list (list json)) :=
  rows <- record_rows filtered ;;
  total_seconds <- sum_elapsed (PInt 0) filtered ;;
  total_hours <- div_3600 total_seconds ;;
  Ok (headers :: rows
      ++ [blank_row;
          [JStr ""; JStr ""; json_of_number total_seconds; JStr "TOTAL SECONDS"];
          [JStr ""; JStr ""; JStr (format_2f total_hours); JStr "TOTAL HOURS"]]).

(** The body of [export_data_to_excel] after [load_records]. *)
Definition export_rows (records : json) (start_date_str end_date_str : string)
    : result (list (list json)) :=
  match strptime_date start_date_str, strptime_date end_date_str with
  | Some start_date, Some end_date =>
      items <- py_iter records ;;
      filtered <- filter_loop start_date end_date items [] ;;
      match filtered with
      | [] =>
          Raise (ValueError "No records found in the specified date range.")
      | _ => sheet_rows filtered
      end
  | _, _ => Raise (ValueError "Dates must be in YYYY-MM-DD format.")
  end.

Definition export_data_to_excel (start_date_str end_date_str : string)
    (st : app) : result (list (list json)) :=
  records <- load_records st ;;
  export_rows records start_date_str end_date_str.

End Library.

(** * Properties *)

(** ** The vocabulary of the specification

    The specification names the timer's states and the failures; the
    program has two flags and message texts. [Running], [Paused] and
    [Idle] read the flags as the specification's data model does
    ([running], and whether the session's start timestamp is set);
    [error_of_message] reads the texts. *)

Inductive error : Type :=
| AlreadyRunning
| NotRunning
| NoActiveSession
| CorruptStorage
| IndexOutOfRange
| InvalidFormat
| EndBeforeStart
| InvalidDateRange
| NoRecordsInRange.

Definition error_of_message (msg : string) : option error :=
  if String.eqb msg "Timer is already running!" then Some AlreadyRunning
  else if String.eqb msg "No timer is running to pause." then Some NotRunning
  else if String.eqb msg "No active or paused session to stop." then
    Some NoActiveSession
  else if String.eqb msg "Invalid date/time. Use YYYY-MM-DD HH:MM:SS format."
  then Some InvalidFormat
  else if String.eqb msg "End time cannot be before start time." then
    Some EndBeforeStart
  else if String.eqb msg "Dates must be in YYYY-MM-DD format." then
    Some InvalidFormat
  else if String.eqb msg "No records found in the specified date range." then
    Some NoRecordsInRange
  else None.

Definition error_of_exn (e : exn) : option error :=
  match e with
  | ValueError msg => error_of_message msg
  | JSONDecodeError => Some CorruptStorage
  | IndexError => Some IndexOutOfRange
  | _ => None
  end.

(** The failure a handler reported, if it reported one. *)
Definition signalled (o : outcome) : option error :=
  match o with
  | Returned _ [showwarning _ msg] => error_of_message msg
  | Returned _ [showerror _ msg] => error_of_message msg
  | Returned _ _ => None
  | Raised e _ => error_of_exn e
  end.

Definition raised {A : Type} (r : result A) : option error :=
  match r with
  | Ok _ => None
  | Raise e => error_of_exn e
  end.

Definition Running (st : app) : Prop := timer_running st = true.

Definition Paused (st : app) : Prop :=
  timer_running st = false /\ start_time_dt st <> None.

Definition Idle (st : app) : Prop :=
  timer_running st = false /\ start_time_dt st = None.

(** The timer attributes as [__init__] and a completed [stop_timer] leave
    them. *)
Definition cleared (st : app) : Prop :=
  timer_running st = false /\ start_time st = None
  /\ start_time_dt st = None /\ elapsed_time st = 0%float.

(** ** Timer *)

(** C1, as the code has it. [start_timer] is refused exactly when the
    timer is running: it then warns that the timer is already running and
    leaves every attribute as it was. When the timer is not running, in
    particular when a session is paused, the call is accepted. *)
Theorem start_timer_refused_iff_running :
  forall (now_dt : datetime) (now : float) (st : app),
    (timer_running st = true ->
       start_timer now_dt now st
       = Returned st [showwarning "Warning" "Timer is already running!"]
       /\ signalled (start_timer now_dt now st) = Some AlreadyRunning)
    /\ (timer_running st = false ->
       start_timer now_dt now st
       = Returned (set_timer true (Some now) (Some now_dt) 0%float st) []
       /\ signalled (start_timer now_dt now st) = None).
Proof.
  intros now_dt now st. unfold start_timer.
  split; intros H; rewrite H; split; reflexivity.
Qed.

Definition noon : datetime := mkDatetime 2025 1 1 12 0 0 0.
Definition one_pm : datetime := mkDatetime 2025 1 1 13 0 0 0.

(** A paused session: started at noon, paused 90 seconds later. *)
Definition paused_session : app :=
  state_of (pause_timer 1090%float
              (state_of (start_timer noon 1000%float (init None)))).

Lemma start_timer_refused_iff_running_witness :
  (timer_running paused_session = false ->
     start_timer one_pm 5000%float paused_session
     = Returned (set_timer true (Some 5000%float) (Some one_pm) 0%float
                   paused_session) []
     /\ signalled (start_timer one_pm 5000%float paused_session) = None)
  /\ timer_running paused_session = false.
Proof.
  split.
  - exact (proj2 (start_timer_refused_iff_running one_pm 5000%float
                    paused_session)).
  - reflexivity.
Defined.

(** C1 as stated fails on a paused timer: [start_timer] reports nothing
    and replaces the session (its start and its 90 accumulated seconds). *)
Lemma start_timer_while_paused_restarts :
  Paused paused_session
  /\ elapsed_time paused_session = 90%float
  /\ signalled (start_timer one_pm 5000%float paused_session) = None
  /\ state_of (start_timer one_pm 5000%float paused_session)
     = mkApp true (Some 5000%float) (Some one_pm) 0%float None [] []
  /\ state_of (start_timer one_pm 5000%float paused_session) <> paused_session.
Proof.
  repeat split; try reflexivity; try discriminate.
Qed.

(** C2, the part the code keeps: [resume_timer] on a running timer warns
    and changes nothing. *)
Lemma resume_timer_while_running :
  forall (now : float) (st : app),
    timer_running st = true ->
    resume_timer now st
    = Returned st [showwarning "Warning" "Timer is already running!"].
Proof.
  intros now st H. unfold resume_timer. rewrite H. reflexivity.
Qed.

(** C2 at the failing input: on the timer [__init__] builds, where no
    session was ever started, [resume_timer] reports nothing and sets the
    timer running, with no session start. *)
Theorem resume_timer_from_idle_runs :
  forall (file : option string) (now : float),
    Idle (init file)
    /\ resume_timer now (init file)
       = Returned (mkApp true (Some now) None 0%float file [] []) []
    /\ signalled (resume_timer now (init file)) = None.
Proof.
  intros file now. repeat split.
Qed.

(** ** Storage *)

Lemma append_empty_r : forall s : string, (s ++ "")%string = s.
Proof.
  induction s as [|c s IH]; simpl; [reflexivity | now rewrite IH].
Qed.

Lemma append_assoc : forall a b c : string,
  ((a ++ b) ++ c)%string = (a ++ (b ++ c))%string.
Proof.
  induction a as [|x a IH]; intros b c; simpl; [reflexivity | now rewrite IH].
Qed.

Lemma joined_app : forall xs ys : list string,
  joined (xs ++ ys) = (joined xs ++ joined ys)%string.
Proof.
  induction xs as [|x xs IH]; intros ys; simpl.
  - reflexivity.
  - rewrite IH. symmetry. apply append_assoc.
Qed.

(** Writing chunks onto a file that holds [text]. *)
Lemma run_ops_writes : forall (chunks : list string) (text : string),
  run_ops (map Write chunks) (Some text)
  = Some (text ++ joined chunks)%string.
Proof.
  unfold run_ops.
  induction chunks as [|c cs IH]; intros text; simpl.
  - now rewrite append_empty_r.
  - rewrite IH. now rewrite append_assoc.
Qed.

Section Properties.

Variable json_load : string -> option json.
Variable json_iterencode : json -> list string.
Variable fromisoformat : string -> option datetime.

(** A completed [save_records] leaves the text of the value and nothing
    of what the file held. *)
Lemma run_ops_save : forall (v : json) (f : option string),
  run_ops (save_records_ops json_iterencode v) f
  = Some (joined (json_iterencode v)).
Proof.
  intros v f. unfold save_records_ops, run_ops. simpl.
  exact (run_ops_writes (json_iterencode v) "").
Qed.

Lemma save_records_data_file : forall (v : json) (st : app),
  data_file (save_records json_iterencode v st)
  = Some (joined (json_iterencode v)).
Proof.
  intros v st. exact (run_ops_save v (data_file st)).
Qed.

(** C4, as the code has it. [save_records] rewrites the file in place.
    Run to its end, it leaves exactly the text of the given records,
    whatever the file held. Stopped before its first step it has changed
    nothing; stopped after [k + 1] steps the file holds the first [k]
    chunks of the new text and nothing of the old one: there is no
    temporary file and no move into place. *)
Theorem save_records_rewrites_in_place :
  forall (v : json) (st : app),
    data_file (save_records json_iterencode v st)
    = Some (joined (json_iterencode v))
    /\ run_ops (firstn 0 (save_records_ops json_iterencode v)) (data_file st)
       = data_file st
    /\ forall k : nat,
         run_ops (firstn (S k) (save_records_ops json_iterencode v))
           (data_file st)
         = Some (joined (firstn k (json_iterencode v))).
Proof.
  intros v st. split; [apply save_records_data_file | split].
  - reflexivity.
  - intros k. unfold save_records_ops, run_ops. simpl.
    rewrite firstn_map.
    exact (run_ops_writes (firstn k (json_iterencode v)) "").
Qed.

(** [load_records] reads what a completed [save_records] wrote. *)
Lemma load_after_save : forall (v : json) (st : app),
  load_records json_load (save_records json_iterencode v st)
  = match json_load (joined (json_iterencode v)) with
    | Some v' => Ok v'
    | None => Raise JSONDecodeError
    end.
Proof.
  intros v st. unfold load_records. now rewrite save_records_data_file.
Qed.

(** ** Stopping *)

(** The seconds [stop_timer] commits: the open segment is added when the
    timer is running. *)
Definition committed (now : float) (st : app) : float :=
  if timer_running st then
    match start_time st with
    | Some t0 => (elapsed_time st + (now - t0))%float
    | None => elapsed_time st
    end
  else elapsed_time st.

(** The state a completed [stop_timer] leaves: the timer cleared, and the
    file rewritten with one more record after those it held. *)
Definition stopped (records : list json) (start_dt end_dt : datetime)
    (elapsed : float) (comment : string) (st : app) : app :=
  set_timer false None None 0%float
    (save_records json_iterencode
       (JList (records ++ [new_record (isoformat start_dt) (isoformat end_dt)
                             elapsed comment])) st).

Definition comment_of (answer : option string) : string :=
  match answer with
  | Some c => c
  | None => ""
  end.

(** [stop_timer] refuses exactly the timers that are not running and have
    no accumulated time. *)
Lemma stop_timer_refused :
  forall (now : float) (answer : option string) (end_dt : datetime) (st : app),
    timer_running st = false ->
    (elapsed_time st =? 0)%float = true ->
    stop_timer json_load json_iterencode now answer end_dt st
    = Returned st [showwarning "Warning" "No active or paused session to stop."].
Proof.
  intros now answer end_dt st Hr He. unfold stop_timer.
  rewrite Hr, He. reflexivity.
Qed.

(** What [stop_timer] does when it goes through. With a session started
    and a file that loads as a list of records, [stop_timer] succeeds when
    the timer is running (also right after [start_timer]), and when it is
    paused with accumulated time that is not zero: it appends the record
    of the session (its start, the end given by the clock, the committed
    seconds, the comment) and clears the timer. A timer that is not
    running and has zero accumulated time is refused. *)
Theorem stop_timer_finalizes :
  forall (now : float) (answer : option string) (end_dt : datetime)
         (st : app) (start_dt : datetime) (records : list json),
    start_time_dt st = Some start_dt ->
    load_records json_load st = Ok (JList records) ->
    (timer_running st = true -> start_time st <> None) ->
    (timer_running st = true \/ (elapsed_time st =? 0)%float = false ->
       stop_timer json_load json_iterencode now answer end_dt st
       = Returned
           (stopped records start_dt end_dt (committed now st)
              (comment_of answer) st)
           [showinfo "Session Recorded" "Your work session has been saved."]
       /\ cleared (stopped records start_dt end_dt (committed now st)
                     (comment_of answer) st))
    /\ (timer_running st = false /\ (elapsed_time st =? 0)%float = true ->
       stop_timer json_load json_iterencode now answer end_dt st
       = Returned st
           [showwarning "Warning" "No active or paused session to stop."]
       /\ signalled (stop_timer json_load json_iterencode now answer end_dt st)
          = Some NoActiveSession).
Proof.
  intros now answer end_dt st start_dt records Hdt Hload Ht0. split.
  - intros Hgo. split; [| repeat split].
    unfold stop_timer, committed, stopped, comment_of.
    destruct st as [running t0 dt elapsed file objs refs].
    simpl in *. subst dt.
    destruct running; simpl.
    + destruct t0 as [t0|]; [| exfalso; now apply Ht0].
      unfold save_time_record. simpl.
      unfold load_records in *. simpl in *. rewrite Hload. reflexivity.
    + destruct Hgo as [Hgo | Hgo]; [discriminate |]. rewrite Hgo.
      unfold save_time_record. simpl.
      unfold load_records in *. simpl in *. rewrite Hload. reflexivity.
  - intros [Hr He]. rewrite (stop_timer_refused now answer end_dt st Hr He).
    split; reflexivity.
Qed.

(** On a cleared timer, where no session was started, [stop_timer]
    reports that there is no session and leaves the state, the file
    included, as it was. *)
Lemma stop_timer_when_cleared :
  forall (now : float) (answer : option string) (end_dt : datetime) (st : app),
    cleared st ->
    stop_timer json_load json_iterencode now answer end_dt st
    = Returned st [showwarning "Warning" "No active or paused session to stop."].
Proof.
  intros now answer end_dt st (Hr & _ & _ & He).
  apply stop_timer_refused; [exact Hr | now rewrite He].
Qed.

(** C5 at the failing input: a session that was started and then paused
    with zero accumulated seconds (paused at the clock reading it was
    started at). The guard of [stop_timer] tests the accumulated seconds,
    not the session: it takes this paused session for none, warns that
    there is no active or paused session, and leaves everything, the
    session and the file, as it was; no record is saved. Had the same
    session still been running, with the same zero seconds, the guard
    would have let it through. *)
Theorem stop_timer_refuses_session_paused_at_zero :
  forall (now : float) (answer : option string) (end_dt : datetime)
         (st : app) (start_dt : datetime),
    start_time_dt st = Some start_dt ->
    timer_running st = false ->
    elapsed_time st = 0%float ->
    Paused st
    /\ stop_timer json_load json_iterencode now answer end_dt st
       = Returned st
           [showwarning "Warning" "No active or paused session to stop."]
    /\ signalled (stop_timer json_load json_iterencode now answer end_dt st)
       = Some NoActiveSession
    /\ (forall t0 : float,
          signalled (stop_timer json_load json_iterencode now answer end_dt
                       (set_timer true (Some t0) (Some start_dt) 0%float st))
          <> Some NoActiveSession).
Proof.
  intros now answer end_dt st start_dt Hdt Hr He.
  assert (H0 : (elapsed_time st =? 0)%float = true) by now rewrite He.
  split; [| split; [| split]].
  - split; [exact Hr | rewrite Hdt; discriminate].
  - exact (stop_timer_refused now answer end_dt st Hr H0).
  - now rewrite (stop_timer_refused now answer end_dt st Hr H0).
  - intros t0. unfold stop_timer, set_timer. cbn [timer_running negb andb].
    cbn [start_time start_time_dt elapsed_time].
    unfold save_time_record, load_records. cbn [data_file].
    destruct (data_file st) as [text|].
    + destruct (json_load text) as [v|]; [| discriminate].
      destruct v; discriminate.
    + discriminate.
Qed.

(** C10. From the timer [__init__] builds, [resume_timer] sets the
    timer running with no session start; [stop_timer] then passes its
    guard, commits the open segment, and raises while it builds the
    record: [AttributeError] on the missing start when the file loads (or
    the decoding error of the file before that). No record is written,
    and the timer is left stopped with the committed seconds. *)
Theorem stop_after_resume_from_idle_raises :
  forall (file : option string) (t0 now : float) (answer : option string)
         (end_dt : datetime),
    let st1 := state_of (resume_timer t0 (init file)) in
    let st2 := mkApp false (Some t0) None (0 + (now - t0))%float file [] [] in
    timer_running st1 = true
    /\ start_time_dt st1 = None
    /\ stop_timer json_load json_iterencode now answer end_dt st1
       = match load_records json_load (init file) with
         | Ok _ => Raised AttributeError st2
         | Raise e => Raised e st2
         end
    /\ data_file st2 = file.
Proof.
  intros file t0 now answer end_dt st1 st2. subst st1 st2.
  repeat split.
  unfold stop_timer, save_time_record, load_records. simpl.
  destruct file as [text|]; simpl; [| reflexivity].
  destruct (json_load text); reflexivity.
Qed.

(** ** Editing *)

Lemma dict_lookup_set_same : forall (k : string) (v : json) (d : dict),
  dict_lookup k (dict_set k v d) = Some v.
Proof.
  intros k v d. induction d as [|[k' v'] d IH]; simpl.
  - now rewrite String.eqb_refl.
  - destruct (String.eqb k k') eqn:E; simpl; rewrite E; [reflexivity | exact IH].
Qed.

Lemma dict_lookup_set_other : forall (k k' : string) (v : json) (d : dict),
  String.eqb k' k = false ->
  dict_lookup k' (dict_set k v d) = dict_lookup k' d.
Proof.
  intros k k' v d Hne. induction d as [|[k0 v0] d IH]; simpl.
  - now rewrite Hne.
  - destruct (String.eqb k k0) eqn:E; simpl.
    + apply String.eqb_eq in E. subst k0. now rewrite Hne.
    + now rewrite IH.
Qed.

(** [update_object] changes the object [record] and no other. *)
Lemma update_object_from : forall (record : nat) (f : dict -> dict)
    (objs : list dict) (s i : nat),
  nth i (map (fun p => if Nat.eqb (fst p) record then f (snd p) else snd p)
           (combine (seq s (List.length objs)) objs)) []
  = if Nat.ltb i (List.length objs) then
      if Nat.eqb (s + i) record then f (nth i objs []) else nth i objs []
    else [].
Proof.
  intros record f objs. induction objs as [|o objs IH]; intros s i; simpl.
  - destruct i; reflexivity.
  - destruct i as [|i]; simpl.
    + now rewrite Nat.add_0_r.
    + rewrite IH. now rewrite Nat.add_succ_r.
Qed.

Lemma nth_update_object : forall (record : nat) (f : dict -> dict)
    (objs : list dict) (i : nat),
  nth i (update_object record f objs) []
  = if Nat.ltb i (List.length objs) then
      if Nat.eqb i record then f (nth i objs []) else nth i objs []
    else [].
Proof.
  intros record f objs i. unfold update_object.
  now rewrite update_object_from.
Qed.

Lemma length_update_object : forall (record : nat) (f : dict -> dict)
    (objs : list dict),
  List.length (update_object record f objs) = List.length objs.
Proof.
  intros record f objs. unfold update_object.
  rewrite length_map, length_combine, length_seq. apply Nat.min_id.
Qed.

Lemma lex_compare_refl : forall a : list Z, lex_compare a a = Eq.
Proof.
  induction a as [|x a IH]; simpl; [reflexivity | now rewrite Z.compare_refl].
Qed.

Lemma datetime_lt_irrefl : forall dt : datetime, datetime_lt dt dt = false.
Proof.
  intros dt. unfold datetime_lt. now rewrite lex_compare_refl.
Qed.

(** The four fields of an edited record. *)
Lemma edited_fields : forall (s e : string) (x : float) (c : string) (d : dict),
  dict_lookup "start_time" (edited s e x c d) = Some (JStr s)
  /\ dict_lookup "end_time" (edited s e x c d) = Some (JStr e)
  /\ dict_lookup "elapsed" (edited s e x c d) = Some (JFloat x)
  /\ dict_lookup "comment" (edited s e x c d) = Some (JStr c).
Proof.
  intros s e x c d. unfold edited.
  repeat split;
    repeat (first [ rewrite dict_lookup_set_same; reflexivity
                  | rewrite dict_lookup_set_other by reflexivity ]).
Qed.

(** A refused edit reports the failure the specification names, and
    stores nothing. *)
Lemma save_changes_refusals :
  forall (record : nat) (new_start new_end new_comment : string) (st : app)
         (o : outcome),
    o = save_changes json_iterencode record new_start new_end new_comment st ->
    (forall st' shown, o = Returned st' shown -> shown <> [showinfo "Success" "Record updated."] -> st' = st)
    /\ (signalled o = Some InvalidFormat \/ signalled o = Some EndBeforeStart ->
        state_of o = st).
Proof.
  intros record new_start new_end new_comment st o ->. unfold save_changes.
  destruct (strptime_datetime new_start) as [ds|];
    destruct (strptime_datetime new_end) as [de|];
    try destruct (datetime_lt de ds); split;
    try (intros st' shown [= <- <-] Hne; try reflexivity; now elim Hne);
    try (intros _; reflexivity);
    intros [H | H]; discriminate H.
Qed.

(** ** Export: the date filter *)

(** The calendar date of a record's start, when it has one that parses. *)
Definition start_date_of (r : json) : option date :=
  match r with
  | JDict d =>
      match dict_lookup "start_time" d with
      | Some (JStr s) =>
          match fromisoformat s with
          | Some dt => Some (date_of dt)
          | None => None
          end
      | _ => None
      end
  | _ => None
  end.

(** The test of the specification: the start date lies in the range, ends
    included. *)
Definition in_dates (start_date end_date : date) (r : json) : bool :=
  match start_date_of r with
  | Some x => date_le start_date x && date_le x end_date
  | None => false
  end.

(** A stored record: a dict whose start time, if present, is a string. *)
Definition is_record (r : json) : bool :=
  match r with
  | JDict d =>
      match dict_lookup "start_time" d with
      | Some (JStr _) | None => true
      | Some _ => false
      end
  | _ => false
  end.

Lemma selects_record : forall (sd ed : date) (r : json),
  is_record r = true ->
  selects fromisoformat sd ed r = Ok (in_dates sd ed r).
Proof.
  intros sd ed r Hr. unfold in_dates, start_date_of.
  destruct r as [| | | | |l|d]; try discriminate Hr. simpl in *.
  destruct (dict_lookup "start_time" d) as [[| | | |s| |]|];
    try discriminate Hr; try reflexivity.
  destruct (fromisoformat s); reflexivity.
Qed.

Lemma selects_ill_typed : forall (sd ed : date) (r : json),
  is_record r = false -> selects fromisoformat sd ed r = Raise TypeError.
Proof.
  intros sd ed r Hr.
  destruct r as [| | | | |l|d]; try reflexivity. simpl in *.
  destruct (dict_lookup "start_time" d) as [[| | | |s| |]|];
    try discriminate Hr; reflexivity.
Qed.

Lemma selects_raises_only_TypeError : forall (sd ed : date) (r : json) (e : exn),
  selects fromisoformat sd ed r = Raise e -> e = TypeError.
Proof.
  intros sd ed r e. unfold selects.
  destruct r as [| | | | |l|d]; try (intros [= <-]; reflexivity).
  destruct (dict_lookup "start_time" d) as [[| | | |s| |]|];
    try (intros [= <-]; reflexivity); try discriminate.
  destruct (fromisoformat s); discriminate.
Qed.

Lemma filter_loop_records : forall (sd ed : date) (records acc : list json),
  forallb is_record records = true ->
  filter_loop fromisoformat sd ed records acc
  = Ok (acc ++ filter (in_dates sd ed) records).
Proof.
  intros sd ed records. induction records as [|r rs IH]; intros acc Hall; simpl.
  - now rewrite app_nil_r.
  - simpl in Hall. apply andb_true_iff in Hall as [Hr Hrs].
    rewrite (selects_record sd ed r Hr). simpl.
    rewrite (IH _ Hrs).
    destruct (in_dates sd ed r); [now rewrite <- app_assoc | reflexivity].
Qed.

Lemma lex_compare_antisym : forall a b : list Z,
  lex_compare b a = CompOpp (lex_compare a b).
Proof.
  induction a as [|x a IH]; destruct b as [|y b]; simpl; try reflexivity.
  rewrite (Z.compare_antisym x y).
  destruct (x ?= y); simpl; [apply IH | reflexivity | reflexivity].
Qed.

Lemma lex_compare_eq : forall a b : list Z, lex_compare a b = Eq -> a = b.
Proof.
  induction a as [|x a IH]; destruct b as [|y b]; simpl;
    try reflexivity; try discriminate.
  destruct (x ?= y) eqn:E; try discriminate.
  apply Z.compare_eq in E. intros H. f_equal; [exact E | now apply IH].
Qed.

Lemma lex_compare_le_trans : forall a b c : list Z,
  lex_compare a b <> Gt -> lex_compare b c <> Gt -> lex_compare a c <> Gt.
Proof.
  induction a as [|x a IH]; destruct b as [|y b]; destruct c as [|z c];
    simpl; try congruence.
  destruct (Z.compare_spec x y), (Z.compare_spec y z), (Z.compare_spec x z);
    subst; try congruence; try lia; apply IH.
Qed.

Lemma date_le_antisym : forall a b : date,
  date_le a b = true -> date_le b a = true -> a = b.
Proof.
  intros [y m d] [y' m' d']. unfold date_le, date_fields.
  cbn [d_year d_month d_day]. intros H1 H2.
  assert (E : lex_compare [y; m; d] [y'; m'; d'] = Eq).
  { rewrite (lex_compare_antisym [y; m; d] [y'; m'; d']) in H2.
    destruct (lex_compare [y; m; d] [y'; m'; d']);
      [reflexivity | discriminate H2 | discriminate H1]. }
  apply lex_compare_eq in E. now injection E as -> -> ->.
Qed.

Lemma date_le_refl : forall a : date, date_le a a = true.
Proof.
  intros a. unfold date_le. now rewrite lex_compare_refl.
Qed.

Lemma date_le_trans : forall a b c : date,
  date_le a b = true -> date_le b c = true -> date_le a c = true.
Proof.
  intros a b c. unfold date_le. intros H1 H2.
  pose proof (lex_compare_le_trans (date_fields a) (date_fields b)
                (date_fields c)) as T.
  destruct (lex_compare (date_fields a) (date_fields b));
    destruct (lex_compare (date_fields b) (date_fields c));
    try discriminate;
    destruct (lex_compare (date_fields a) (date_fields c));
    try reflexivity; exfalso; apply T; congruence.
Qed.

(** No date lies in a range whose end is before its start. *)
Lemma empty_range : forall sd ed x : date,
  date_lt ed sd = true -> date_le sd x && date_le x ed = false.
Proof.
  intros sd ed x Hlt.
  destruct (date_le sd x) eqn:H1; [| reflexivity].
  destruct (date_le x ed) eqn:H2; [| reflexivity].
  pose proof (date_le_trans sd x ed H1 H2) as H.
  unfold date_lt in Hlt. unfold date_le in H.
  rewrite (lex_compare_antisym (date_fields ed) (date_fields sd)) in H.
  destruct (lex_compare (date_fields ed) (date_fields sd)); discriminate.
Qed.

(** The calendar order of the specification, on year, month and day. *)
Definition on_or_before (y m d y' m' d' : Z) : bool :=
  (y <? y') || ((y =? y') && ((m <? m') || ((m =? m') && (d <=? d')))).

(** The test of the specification, on the record itself: its start time
    is a text that parses, and the year, month and day it parses to lie
    between those of the two dates, ends included. The time of day is not
    looked at. *)
Definition starts_within (start_date end_date : date) (r : json) : bool :=
  match r with
  | JDict d =>
      match dict_lookup "start_time" d with
      | Some (JStr s) =>
          match fromisoformat s with
          | Some dt =>
              on_or_before (d_year start_date) (d_month start_date)
                (d_day start_date) (year dt) (month dt) (day dt)
              && on_or_before (year dt) (month dt) (day dt)
                   (d_year end_date) (d_month end_date) (d_day end_date)
          | None => false
          end
      | _ => false
      end
  | _ => false
  end.

Lemma date_le_on_or_before : forall a b : date,
  date_le a b
  = on_or_before (d_year a) (d_month a) (d_day a)
      (d_year b) (d_month b) (d_day b).
Proof.
  intros [y m d] [y' m' d']. unfold date_le, date_fields, on_or_before.
  cbn [d_year d_month d_day lex_compare].
  destruct (Z.compare_spec y y'), (Z.compare_spec m m'),
    (Z.compare_spec d d');
    repeat match goal with
           | |- context [?a <? ?b] => destruct (Z.ltb_spec a b)
           | |- context [?a =? ?b] => destruct (Z.eqb_spec a b)
           | |- context [?a <=? ?b] => destruct (Z.leb_spec a b)
           end; try reflexivity; lia.
Qed.

Lemma in_dates_starts_within : forall (sd ed : date) (r : json),
  in_dates sd ed r = starts_within sd ed r.
Proof.
  intros sd ed r. unfold in_dates, start_date_of, starts_within.
  destruct r as [| | | | |l|d]; try reflexivity.
  destruct (dict_lookup "start_time" d) as [[| | | |s| |]|]; try reflexivity.
  destruct (fromisoformat s) as [dt|]; [| reflexivity].
  now rewrite !date_le_on_or_before.
Qed.

Lemma filter_loop_ill_typed : forall (sd ed : date) (records acc : list json),
  forallb is_record records = false ->
  filter_loop fromisoformat sd ed records acc = Raise TypeError.
Proof.
  intros sd ed records. induction records as [|r rs IH]; intros acc H;
    [discriminate H |].
  cbn [forallb] in H. cbn [filter_loop].
  destruct (is_record r) eqn:Hr.
  - rewrite (selects_record sd ed r Hr). cbn [bind]. now apply IH.
  - now rewrite (selects_ill_typed sd ed r Hr).
Qed.


(** The loop either goes through or stops on a [TypeError]. *)
Lemma filter_loop_empty_range :
  forall (sd ed : date) (records acc : list json),
    date_lt ed sd = true ->
    filter_loop fromisoformat sd ed records acc = Ok acc
    \/ filter_loop fromisoformat sd ed records acc = Raise TypeError.
Proof.
  intros sd ed records. induction records as [|r rs IH]; intros acc Hlt; simpl.
  - now left.
  - destruct (selects fromisoformat sd ed r) as [keep|e] eqn:E; simpl.
    + assert (keep = false) as ->.
      { unfold selects in E.
        destruct r as [| | | | |l|d]; try discriminate E.
        destruct (dict_lookup "start_time" d) as [[| | | |s| |]|];
          try discriminate E; try (now injection E as <-).
        destruct (fromisoformat s); [| now injection E as <-].
        injection E as <-. now apply empty_range. }
      now apply IH.
    + right. now rewrite (selects_raises_only_TypeError sd ed r e E).
Qed.

(** C3, as the code has it. With an end date before the start date the
    export makes no check of the range: it runs the filter, which selects
    nothing, and fails as for any empty selection, with the error that no
    records were found (unless an ill-typed record stops the loop with a
    [TypeError] first). *)
Theorem export_rows_reversed_range :
  forall (records : json) (start_date_str end_date_str : string)
         (start_date end_date : date),
    strptime_date start_date_str = Some start_date ->
    strptime_date end_date_str = Some end_date ->
    date_lt end_date start_date = true ->
    (export_rows fromisoformat records start_date_str end_date_str
     = Raise (ValueError "No records found in the specified date range.")
     \/ export_rows fromisoformat records start_date_str end_date_str
        = Raise TypeError)
    /\ (forall items : list json,
          py_iter records = Ok items ->
          forallb is_record items = true ->
          export_rows fromisoformat records start_date_str end_date_str
          = Raise (ValueError "No records found in the specified date range.")
          /\ raised (export_rows fromisoformat records start_date_str
                       end_date_str)
             = Some NoRecordsInRange).
Proof.
  intros records s e sd ed Hs He Hlt. unfold export_rows. rewrite Hs, He.
  split.
  - destruct (py_iter records) as [items|ex] eqn:Hit; simpl.
    + destruct (filter_loop_empty_range sd ed items [] Hlt) as [H | H];
        rewrite H; simpl; [now left | now right].
    + right. destruct records; try discriminate Hit; now injection Hit as <-.
  - intros items Hit Hall. rewrite Hit. simpl.
    rewrite (filter_loop_records sd ed items [] Hall). simpl.
    assert (filter (in_dates sd ed) items = []) as ->.
    { clear Hall Hit. induction items as [|r rs IH]; simpl; [reflexivity |].
      unfold in_dates at 1.
      destruct (start_date_of r) as [x|]; [| exact IH].
      now rewrite (empty_range sd ed x Hlt). }
    split; reflexivity.
Qed.

(** ** Export: the sheet *)

Definition row_of (d : dict) : list json :=
  [dict_get "start_time" (JStr "") d; dict_get "end_time" (JStr "") d;
   dict_get "elapsed" (JStr "") d; dict_get "comment" (JStr "") d].

(** The table of the specification: the header, the rows of the records,
    a blank row, the total seconds and the total hours. *)
Definition table (rows : list (list json)) (total_seconds : json)
    (total_hours : string) : list (list json) :=
  [JStr "Start Time"; JStr "End Time"; JStr "Elapsed (seconds)"; JStr "Comment"]
  :: rows
  ++ [[JStr ""; JStr ""; JStr ""; JStr ""];
      [JStr ""; JStr ""; total_seconds; JStr "TOTAL SECONDS"];
      [JStr ""; JStr ""; JStr total_hours; JStr "TOTAL HOURS"]].

(** A value a cell shows as it is: a number, a bool, [None], or a text of
    at most 32767 characters without control characters. *)
Definition plain_cell (v : json) : bool :=
  match v with
  | JList _ | JDict _ => false
  | JStr s =>
      (Z.of_nat (String.length s) <=? 32767)
      && negb (any_char illegal_character s)
  | _ => true
  end.

Definition plain_row (d : dict) : bool := forallb plain_cell (row_of d).

(** The exact value of a float, counted in units of [2^-1074], the
    smallest step of binary64. *)
Definition float_units (x : float) : option Z :=
  match Prim2SF x with
  | S754_zero _ => Some 0
  | S754_finite s m e =>
      Some ((if s then - Z.pos m else Z.pos m) * 2 ^ (e + 1074))
  | _ => None
  end.

(** The exact sum of floats, in the same units. *)
Fixpoint exact_sum_units (fs : list float) : option Z :=
  match fs with
  | [] => Some 0
  | f :: rest =>
      match float_units f, exact_sum_units rest with
      | Some a, Some b => Some (a + b)
      | _, _ => None
      end
  end.

Lemma substring_whole : forall (s : string) (n : nat),
  (String.length s <= n)%nat -> substring 0 n s = s.
Proof.
  induction s as [|c s IH]; intros n H.
  - destruct n; reflexivity.
  - destruct n as [|n]; [simpl in H; lia |].
    cbn [substring]. f_equal. apply IH. simpl in H. lia.
Qed.

Lemma cell_value_plain : forall v : json,
  plain_cell v = true -> cell_value v = Ok v.
Proof.
  intros v H. destruct v as [| | | |s|l|d]; try reflexivity;
    try discriminate H.
  unfold plain_cell in H. apply andb_true_iff in H as [Hlen Hchars].
  unfold cell_value. cbv zeta.
  rewrite (substring_whole s longest_text).
  - apply negb_true_iff in Hchars. now rewrite Hchars.
  - unfold longest_text. apply Z.leb_le in Hlen. lia.
Qed.

Lemma append_row_plain : forall row : list json,
  forallb plain_cell row = true -> append_row row = Ok row.
Proof.
  induction row as [|v row IH]; intros H; [reflexivity |].
  cbn [forallb] in H. apply andb_true_iff in H as [Hv Hrow].
  cbn [append_row]. rewrite (cell_value_plain v Hv). cbn [bind].
  rewrite (IH Hrow). reflexivity.
Qed.

Lemma record_rows_plain : forall ds : list dict,
  forallb plain_row ds = true ->
  record_rows (map JDict ds) = Ok (map row_of ds).
Proof.
  induction ds as [|d ds IH]; intros H; [reflexivity |].
  cbn [forallb] in H. apply andb_true_iff in H as [Hd Hds].
  cbn [map record_rows]. unfold record_row.
  change (append_row (row_of d)) with (append_row (row_of d)).
  fold (row_of d). rewrite (append_row_plain (row_of d) Hd). cbn [bind].
  rewrite (IH Hds). reflexivity.
Qed.

(** Integer seconds add up exactly. *)
Lemma sum_elapsed_ints : forall (ds : list dict) (zs : list Z) (acc : Z),
  map (dict_lookup "elapsed") ds = map (fun z => Some (JInt z)) zs ->
  sum_elapsed (PInt acc) (map JDict ds) = Ok (PInt (acc + fold_right Z.add 0 zs)).
Proof.
  induction ds as [|d ds IH]; intros zs acc H; destruct zs as [|z zs];
    try discriminate H; simpl.
  - now rewrite Z.add_0_r.
  - injection H as Hd Hrest. rewrite Hd. simpl.
    rewrite (IH zs (acc + z) Hrest). now rewrite Z.add_assoc.
Qed.

(** Float seconds are added one after the other, each sum rounded. *)
Lemma sum_elapsed_floats : forall (ds : list dict) (fs : list float) (acc : float),
  map (dict_lookup "elapsed") ds = map (fun f => Some (JFloat f)) fs ->
  sum_elapsed (PFloat acc) (map JDict ds)
  = Ok (PFloat (fold_left PrimFloat.add fs acc)).
Proof.
  induction ds as [|d ds IH]; intros fs acc H; destruct fs as [|f fs];
    try discriminate H; simpl.
  - reflexivity.
  - injection H as Hd Hrest. rewrite Hd. simpl.
    exact (IH fs (acc + f)%float Hrest).
Qed.

(** [round_half_even] is within one half of the quotient. *)
Lemma round_half_even_nearest : forall num den : Z,
  0 < den -> 2 * Z.abs (round_half_even num den * den - num) <= den.
Proof.
  intros num den Hden. unfold round_half_even.
  pose proof (Z.div_mod num den ltac:(lia)) as Hdm.
  pose proof (Z.mod_pos_bound num den Hden) as Hr.
  destruct (Z.compare_spec (2 * (num mod den)) den) as [E | E | E];
    [destruct (Z.even (num / den)) | |]; nia.
Qed.

(** The hundredths [format_2f] shows are the nearest to a hundred times
    the value [m * 2^e]. *)
Lemma hundredths_nearest : forall (m : positive) (e : Z),
  (0 <= e -> hundredths m e = 100 * Z.pos m * 2 ^ e)
  /\ (e < 0 ->
      2 * Z.abs (hundredths m e * 2 ^ (- e) - 100 * Z.pos m) <= 2 ^ (- e)).
Proof.
  intros m e. unfold hundredths. split; intros H.
  - apply Z.leb_le in H. now rewrite H.
  - assert (H' : (0 <=? e) = false) by (apply Z.leb_gt; exact H).
    rewrite H'. apply round_half_even_nearest.
    apply Z.pow_pos_nonneg; lia.
Qed.


(** * Further properties of the handlers *)

(** ** Pausing and resuming *)

(** X1. Pausing a running timer commits the open segment; pausing again is
    refused, and the committed seconds stay as they are. *)
Theorem pause_timer_twice :
  forall (now1 now2 t0 : float) (st : app),
    timer_running st = true ->
    start_time st = Some t0 ->
    let st1 := state_of (pause_timer now1 st) in
    pause_timer now1 st = Returned st1 []
    /\ timer_running st1 = false
    /\ elapsed_time st1 = (elapsed_time st + (now1 - t0))%float
    /\ pause_timer now2 st1
       = Returned st1 [showwarning "Warning" "No timer is running to pause."]
    /\ signalled (pause_timer now2 st1) = Some NotRunning.
Proof.
  intros now1 now2 t0 st Hr Ht st1. subst st1.
  destruct st as [running t dt elapsed file objs refs]. simpl in Hr, Ht.
  subst running t. repeat split.
Qed.

(** A paused timer taken through resume and pause, once per segment
    [(resumed at, paused at)]. *)
Fixpoint resume_pause_cycles (segments : list (float * float)) (st : app) : app :=
  match segments with
  | [] => st
  | (t_resume, t_pause) :: rest =>
      resume_pause_cycles rest
        (state_of (pause_timer t_pause (state_of (resume_timer t_resume st))))
  end.

(** X2. Over any number of resume and pause cycles the accumulated seconds
    are the lengths of the segments added, in order, to what was
    accumulated before; the session start, the file and the edit window are
    never touched, and the timer ends paused. *)
Theorem resume_pause_accumulates :
  forall (segments : list (float * float)) (st : app),
    timer_running st = false ->
    let st' := resume_pause_cycles segments st in
    timer_running st' = false
    /\ elapsed_time st'
       = fold_left (fun acc seg => (acc + (snd seg - fst seg))%float)
           segments (elapsed_time st)
    /\ start_time_dt st' = start_time_dt st
    /\ data_file st' = data_file st
    /\ record_objects st' = record_objects st
    /\ edit_window_records st' = edit_window_records st.
Proof.
  induction segments as [|[a b] rest IH]; intros st Hr; cbv zeta.
  - repeat split. exact Hr.
  - destruct st as [running t dt elapsed file objs refs]. simpl in Hr.
    subst running.
    specialize (IH (mkApp false (Some a) dt (elapsed + (b - a))%float
                      file objs refs) eq_refl).
    exact IH.
Qed.

(** X3. The seconds on display while the timer runs are the seconds a pause
    at the same clock reading commits; while it is paused they are the
    accumulated seconds, whatever the clock reads. *)
Theorem current_elapsed_is_what_pause_commits :
  forall (now : float) (st : app),
    (forall t0 : float,
        timer_running st = true ->
        start_time st = Some t0 ->
        current_elapsed now st
        = Ok (elapsed_time (state_of (pause_timer now st))))
    /\ (timer_running st = false ->
        current_elapsed now st = Ok (elapsed_time st)).
Proof.
  intros now st. unfold current_elapsed, pause_timer. split.
  - intros t0 Hr Ht. rewrite Hr, Ht. reflexivity.
  - intros Hr. rewrite Hr. reflexivity.
Qed.

(** ** Saving a session *)

(** X4. The failures of [save_time_record], the refusals of the file system
    included. A failure never touches the timer or the edit window. The
    failures before the write (the file does not load, there is no
    session start, the file holds something that is not a list) leave the
    file as it was; so does an [open] that fails. Once [open] has gone
    through, a failing write leaves the start of the new text and nothing
    else: the stored records are lost. When the file system refuses
    nothing, the outcome is that of [save_time_record]. *)
Theorem save_time_record_failures :
  forall (disk : option (option nat)) (start_dt : option datetime)
         (end_dt : datetime) (elapsed : float) (comment : string)
         (st st' : app) (e : exn),
    save_time_record_on json_load json_iterencode disk start_dt end_dt
      elapsed comment st = Raised e st' ->
    set_data_file (data_file st) st' = st
    /\ ((load_records json_load st = Raise e /\ st' = st)
        \/ (e = AttributeError /\ st' = st
            /\ exists v : json,
                 load_records json_load st = Ok v
                 /\ (start_dt = None \/ forall l, v <> JList l))
        \/ (e = OSError
            /\ exists (l : list json) (start : datetime)
                      (reached : option nat),
                 disk = Some reached
                 /\ load_records json_load st = Ok (JList l)
                 /\ start_dt = Some start
                 /\ (reached = None -> st' = st)
                 /\ forall n : nat,
                      reached = Some n ->
                      data_file st'
                      = Some (substring 0 n
                                (joined (json_iterencode
                                   (JList (l ++ [new_record (isoformat start)
                                                   (isoformat end_dt)
                                                   elapsed comment])))))))
    /\ save_time_record_on json_load json_iterencode None start_dt end_dt
         elapsed comment st
       = save_time_record json_load json_iterencode start_dt end_dt elapsed
           comment st.
Proof.
  intros disk start_dt end_dt elapsed comment st st' e.
  unfold save_time_record_on, save_time_record.
  destruct (load_records json_load st) as [v|e0] eqn:Hload.
  - destruct start_dt as [sd|].
    + destruct v as [| | | | |l|d];
        try (intros [= <- <-]; split; [now destruct st |];
             split; [| reflexivity]; right; left;
             split; [reflexivity |]; split; [reflexivity |];
             eexists; split; [reflexivity |]; right; intros l0; discriminate).
      destruct disk as [reached|]; [| discriminate].
      unfold save_records_refused. intros [= <- <-].
      split; [destruct reached; now destruct st |].
      split; [| reflexivity]. right; right. split; [reflexivity |].
      exists l, sd, reached. split; [reflexivity |].
      split; [reflexivity |]. split; [reflexivity |].
      split; [now intros -> |]. now intros n ->.
    + intros [= <- <-]. split; [now destruct st |].
      split; [| reflexivity]. right; left.
      split; [reflexivity |]. split; [reflexivity |].
      exists v. split; [reflexivity | now left].
  - intros [= <- <-]. split; [now destruct st |].
    split; [| reflexivity]. now left.
Qed.


(** X6. When the save fails inside [stop_timer], the session is not lost: the
    timer is left stopped with the committed seconds and its session
    start, and the file is as it was. *)
Theorem stop_timer_failure_keeps_session :
  forall (now : float) (answer : option string) (end_dt : datetime)
         (st : app) (e : exn),
    load_records json_load st = Raise e ->
    (timer_running st = true -> start_time st <> None) ->
    timer_running st = true \/ (elapsed_time st =? 0)%float = false ->
    stop_timer json_load json_iterencode now answer end_dt st
    = Raised e (set_timer false (start_time st) (start_time_dt st)
                  (committed now st) st)
    /\ data_file (state_of (stop_timer json_load json_iterencode now answer
                              end_dt st))
       = data_file st.
Proof.
  intros now answer end_dt st e Hload Ht0 Hgo.
  unfold stop_timer, committed.
  destruct st as [running t0 dt elapsed file objs refs].
  unfold load_records in Hload. simpl in *.
  destruct running; simpl.
  - destruct t0 as [t0|]; [| exfalso; now apply Ht0].
    unfold save_time_record, load_records. simpl. rewrite Hload.
    split; reflexivity.
  - destruct Hgo as [Hgo | Hgo]; [discriminate |]. rewrite Hgo.
    unfold save_time_record, load_records. simpl. rewrite Hload.
    split; reflexivity.
Qed.

(** A stop that goes through, for use below. *)
Lemma stop_timer_completes :
  forall (now : float) (answer : option string) (end_dt : datetime)
         (st : app) (start_dt : datetime) (records : list json),
    start_time_dt st = Some start_dt ->
    load_records json_load st = Ok (JList records) ->
    (timer_running st = true -> start_time st <> None) ->
    timer_running st = true \/ (elapsed_time st =? 0)%float = false ->
    stop_timer json_load json_iterencode now answer end_dt st
    = Returned
        (stopped records start_dt end_dt (committed now st)
           (comment_of answer) st)
        [showinfo "Session Recorded" "Your work session has been saved."]
    /\ cleared (stopped records start_dt end_dt (committed now st)
                  (comment_of answer) st).
Proof.
  intros now answer end_dt st start_dt records Hdt Hload Ht0 Hgo.
  split; [| repeat split].
  unfold stop_timer, committed, stopped, comment_of.
  destruct st as [running t0 dt elapsed file objs refs].
  simpl in *. subst dt.
  destruct running; simpl.
  - destruct t0 as [t0|]; [| exfalso; now apply Ht0].
    unfold save_time_record. simpl.
    unfold load_records in *. simpl in *. rewrite Hload. reflexivity.
  - destruct Hgo as [Hgo | Hgo]; [discriminate |]. rewrite Hgo.
    unfold save_time_record. simpl.
    unfold load_records in *. simpl in *. rewrite Hload. reflexivity.
Qed.

(** X7. After a completed [stop_timer] the timer is as [__init__] left it: a
    second [stop_timer] is refused and saves nothing more, and
    [start_timer] begins a new session from zero. *)
Theorem stop_timer_then_stop_or_start :
  forall (now now2 : float) (answer answer2 : option string)
         (end_dt end_dt2 : datetime) (st : app) (start_dt : datetime)
         (records : list json),
    start_time_dt st = Some start_dt ->
    load_records json_load st = Ok (JList records) ->
    (timer_running st = true -> start_time st <> None) ->
    timer_running st = true \/ (elapsed_time st =? 0)%float = false ->
    let st' := state_of (stop_timer json_load json_iterencode now answer
                           end_dt st) in
    stop_timer json_load json_iterencode now2 answer2 end_dt2 st'
    = Returned st'
        [showwarning "Warning" "No active or paused session to stop."]
    /\ start_timer end_dt2 now2 st'
       = Returned (set_timer true (Some now2) (Some end_dt2) 0%float st') [].
Proof.
  intros now now2 answer answer2 end_dt end_dt2 st start_dt records
         Hdt Hload Ht0 Hgo st'.
  destruct (stop_timer_completes now answer end_dt st start_dt records
              Hdt Hload Ht0 Hgo) as [Hstop Hcl].
  subst st'. rewrite Hstop. cbn [state_of]. split.
  - now apply stop_timer_when_cleared.
  - unfold start_timer. destruct Hcl as (Hr & _). now rewrite Hr.
Qed.

(** ** Deleting and editing in the edit window *)

Lemma map_remove_at : forall (A B : Type) (f : A -> B) (i : nat) (l : list A),
  map f (remove_at i l) = remove_at i (map f l).
Proof.
  intros A B f i l. revert i.
  induction l as [|x l IH]; intros [|i]; simpl; try reflexivity.
  now rewrite IH.
Qed.

Lemma length_remove_at : forall (A : Type) (i : nat) (l : list A),
  (i < List.length l)%nat ->
  S (List.length (remove_at i l)) = List.length l.
Proof.
  intros A i l. revert i.
  induction l as [|x l IH]; intros [|i] H; simpl in *; try lia.
  rewrite IH; lia.
Qed.

Lemma remove_at_drops : forall (i : nat) (l : list nat) (x : nat),
  NoDup l -> nth_error l i = Some x -> ~ In x (remove_at i l).
Proof.
  intros i l. revert i.
  induction l as [|y l IH]; intros [|i] x Hnd Hnth; simpl in *;
    try discriminate.
  - injection Hnth as ->. now inversion Hnd.
  - inversion Hnd as [|? ? Hy Hl]; subst. intros [-> | Hin].
    + apply Hy. eapply nth_error_In. exact Hnth.
    + now apply (IH i x Hl Hnth).
Qed.

(** The records the edit window lists. *)
Definition listed (st : app) : list json :=
  map (fun r => JDict (nth r (record_objects st) [])) (edit_window_records st).


(** X9. A saved edit changes the dict object it was opened on and no other;
    the list of the window keeps its entries and their order, so each
    listed position shows the edited object where it refers to it and the
    same record as before elsewhere; the timer is not touched. *)
Theorem save_changes_touches_one_record :
  forall (record : nat) (new_start new_end new_comment : string) (st st' : app)
         (shown : list dialog) (dt_start dt_end : datetime),
    strptime_datetime new_start = Some dt_start ->
    strptime_datetime new_end = Some dt_end ->
    datetime_lt dt_end dt_start = false ->
    save_changes json_iterencode record new_start new_end new_comment st
    = Returned st' shown ->
    let change :=
      edited (isoformat dt_start) (isoformat dt_end)
        (timedelta_total_seconds (datetime_sub dt_end dt_start)) new_comment in
    (forall i : nat,
        i <> record ->
        nth i (record_objects st') [] = nth i (record_objects st) [])
    /\ List.length (record_objects st') = List.length (record_objects st)
    /\ edit_window_records st' = edit_window_records st
    /\ (forall j r : nat,
          nth_error (edit_window_records st) j = Some r ->
          (r < List.length (record_objects st))%nat ->
          nth_error (listed st') j
          = Some (JDict (if Nat.eqb r record
                         then change (nth r (record_objects st) [])
                         else nth r (record_objects st) [])))
    /\ timer_running st' = timer_running st
    /\ start_time st' = start_time st
    /\ start_time_dt st' = start_time_dt st
    /\ elapsed_time st' = elapsed_time st.
Proof.
  intros record new_start new_end new_comment st st' shown ds de Hs He Hlt.
  unfold save_changes. rewrite Hs, He, Hlt. intros [= <- <-]. cbv zeta.
  unfold save_records, set_data_file, set_record_objects, listed.
  cbn [record_objects edit_window_records data_file timer_running start_time
       start_time_dt elapsed_time].
  split; [| split; [| split; [| split]]].
  - intros i Hi. rewrite nth_update_object.
    destruct (Nat.ltb i (List.length (record_objects st))) eqn:E.
    + apply Nat.eqb_neq in Hi. now rewrite Hi.
    + apply Nat.ltb_ge in E. symmetry. now apply nth_overflow.
  - apply length_update_object.
  - reflexivity.
  - intros j r Hj Hr. rewrite nth_error_map, Hj. simpl.
    rewrite nth_update_object. apply Nat.ltb_lt in Hr. now rewrite Hr.
  - repeat split.
Qed.

(** A deletion at a listed position, for use below. *)
Lemma delete_in_range :
  forall (index : nat) (st : app),
    (index < List.length (edit_window_records st))%nat ->
    let st' :=
      save_records json_iterencode
        (listed_records
           (set_edit_window_records
              (remove_at index (edit_window_records st)) st))
        (set_edit_window_records (remove_at index (edit_window_records st)) st)
    in
    delete_selected_record json_iterencode index st
    = Returned st' [showinfo "Deleted" "Record deleted successfully."]
    /\ listed st' = remove_at index (listed st)
    /\ edit_window_records st' = remove_at index (edit_window_records st)
    /\ data_file st' = Some (joined (json_iterencode (JList (listed st')))).
Proof.
  intros index st H st'. subst st'. unfold delete_selected_record.
  apply Nat.ltb_lt in H. rewrite H.
  split; [reflexivity | split; [| split; [reflexivity |]]].
  - unfold listed, save_records, set_data_file, set_edit_window_records.
    cbn [record_objects edit_window_records]. apply map_remove_at.
  - apply save_records_data_file.
Qed.

(** X10. An edit dialog outlives the deletion of its record: saving it then
    changes an object the list no longer refers to, so the file is
    rewritten with the list as the deletion left it, and the edit is
    lost. *)
Theorem save_changes_after_delete_is_lost :
  forall (index record : nat) (new_start new_end new_comment : string)
         (st : app) (dt_start dt_end : datetime),
    NoDup (edit_window_records st) ->
    nth_error (edit_window_records st) index = Some record ->
    strptime_datetime new_start = Some dt_start ->
    strptime_datetime new_end = Some dt_end ->
    datetime_lt dt_end dt_start = false ->
    let st1 := state_of (delete_selected_record json_iterencode index st) in
    let st2 := state_of (save_changes json_iterencode record new_start new_end
                           new_comment st1) in
    listed st1 = remove_at index (listed st)
    /\ listed st2 = listed st1
    /\ data_file st2 = data_file st1
    /\ signalled (save_changes json_iterencode record new_start new_end
                    new_comment st1) = None.
Proof.
  intros index record new_start new_end new_comment st ds de Hnd Hnth
         Hs He Hlt st1 st2.
  assert (Hin : (index < List.length (edit_window_records st))%nat).
  { apply nth_error_Some. now rewrite Hnth. }
  destruct (delete_in_range index st Hin) as (Hdel & Hl & Hrefs & Hfile).
  cbv zeta in Hdel, Hl, Hrefs, Hfile. subst st1 st2.
  rewrite Hdel. cbn [state_of].
  set (st' := save_records json_iterencode
                (listed_records
                   (set_edit_window_records
                      (remove_at index (edit_window_records st)) st))
                (set_edit_window_records
                   (remove_at index (edit_window_records st)) st)) in *.
  assert (Hout : ~ In record (edit_window_records st')).
  { rewrite Hrefs. now apply remove_at_drops. }
  unfold save_changes. rewrite Hs, He, Hlt. cbn [state_of signalled].
  set (inner := set_record_objects
                  (update_object record
                     (edited (isoformat ds) (isoformat de)
                        (timedelta_total_seconds (datetime_sub de ds))
                        new_comment) (record_objects st')) st').
  assert (Hsame : listed inner = listed st').
  { unfold listed, inner, set_record_objects.
    cbn [record_objects edit_window_records].
    apply map_ext_in. intros r Hr. rewrite nth_update_object.
    destruct (Nat.ltb r (List.length (record_objects st'))) eqn:E.
    - destruct (Nat.eqb r record) eqn:E2; [| reflexivity].
      apply Nat.eqb_eq in E2. subst r. now elim Hout.
    - apply Nat.ltb_ge in E. now rewrite nth_overflow. }
  split; [exact Hl | split; [exact Hsame | split; [| reflexivity]]].
  rewrite save_records_data_file, Hfile.
  change (listed_records inner) with (JList (listed inner)).
  now rewrite Hsame.
Qed.

(** ** Export: errors and shape *)

(** X11. The order of the export's failures: a data file that does not load
    fails the export whatever the dates are; with a file that loads, a date
    text that does not parse fails it with the format error whatever the
    file holds, before the records are looked at. *)
Theorem export_failures_in_order :
  forall (start_date_str end_date_str : string) (st : app),
    (forall e : exn,
        load_records json_load st = Raise e ->
        export_data_to_excel json_load fromisoformat start_date_str
          end_date_str st = Raise e)
    /\ (forall records : json,
          load_records json_load st = Ok records ->
          strptime_date start_date_str = None
          \/ strptime_date end_date_str = None ->
          export_data_to_excel json_load fromisoformat start_date_str
            end_date_str st
          = Raise (ValueError "Dates must be in YYYY-MM-DD format.")).
Proof.
  intros s e st. unfold export_data_to_excel. split.
  - intros ex H. now rewrite H.
  - intros records H Hbad. rewrite H. simpl. unfold export_rows.
    destruct Hbad as [Hb | Hb]; rewrite Hb;
      [reflexivity | destruct (strptime_date s); reflexivity].
Qed.

(** X12. One item that is not a dict, or whose start time is not a string,
    stops the filter loop with a [TypeError], wherever it stands in the
    file and whatever the range is: the export then produces nothing. *)
Theorem filter_loop_stops_on_ill_typed_item :
  forall (start_date end_date : date) (before after : list json) (bad : json)
         (acc : list json),
    forallb is_record before = true ->
    is_record bad = false ->
    filter_loop fromisoformat start_date end_date (before ++ bad :: after) acc
    = Raise TypeError.
Proof.
  intros sd ed before after bad. induction before as [|r rs IH];
    intros acc Hall Hbad; simpl.
  - now rewrite (selects_ill_typed sd ed bad Hbad).
  - simpl in Hall. apply andb_true_iff in Hall as [Hr Hrs].
    rewrite (selects_record sd ed r Hr). simpl. now apply IH.
Qed.

Lemma in_dates_widens : forall (sd ed sd' ed' : date) (r : json),
  date_le sd' sd = true -> date_le ed ed' = true ->
  in_dates sd ed r = true -> in_dates sd' ed' r = true.
Proof.
  intros sd ed sd' ed' r Hs He. unfold in_dates.
  destruct (start_date_of r) as [x|]; [| discriminate].
  intros H. apply andb_true_iff in H as [H1 H2]. apply andb_true_iff. split.
  - exact (date_le_trans sd' sd x Hs H1).
  - exact (date_le_trans x ed ed' H2 He).
Qed.

(** X13. A wider range never loses a record: what the loop selects for a range
    it also selects for any range that starts no later and ends no
    earlier. *)
Theorem filter_loop_monotone :
  forall (sd ed sd' ed' : date) (records : list json),
    forallb is_record records = true ->
    date_le sd' sd = true ->
    date_le ed ed' = true ->
    exists narrow wide : list json,
      filter_loop fromisoformat sd ed records [] = Ok narrow
      /\ filter_loop fromisoformat sd' ed' records [] = Ok wide
      /\ incl narrow wide
      /\ incl wide records.
Proof.
  intros sd ed sd' ed' records Hall Hs He.
  exists (filter (in_dates sd ed) records), (filter (in_dates sd' ed') records).
  split; [exact (filter_loop_records sd ed records [] Hall) |].
  split; [exact (filter_loop_records sd' ed' records [] Hall) |].
  split.
  - intros r Hr. apply filter_In in Hr as [Hin Hd]. apply filter_In.
    split; [exact Hin | exact (in_dates_widens sd ed sd' ed' r Hs He Hd)].
  - intros r Hr. now apply filter_In in Hr as [Hin _].
Qed.

Lemma sum_elapsed_ok : forall (recs : list json) (acc total : number),
  sum_elapsed acc recs = Ok total ->
  forall rec : json,
    In rec recs ->
    exists (d : dict) (v : json) (n : number),
      rec = JDict d /\ dict_lookup "elapsed" d = Some v
      /\ number_of_json v = Some n.
Proof.
  induction recs as [|r rs IH]; intros acc total H rec Hin; [destruct Hin |].
  simpl in H. unfold elapsed_of in H.
  destruct r as [| | | | |l|d]; try discriminate H.
  destruct (dict_lookup "elapsed" d) as [v|] eqn:Hv; [| discriminate H].
  simpl in H. destruct (number_of_json v) as [n|] eqn:Hn; [| discriminate H].
  destruct (py_add acc n) as [acc'|e]; [| discriminate H]. simpl in H.
  destruct Hin as [<- | Hin].
  - exists d, v, n. now repeat split.
  - exact (IH acc' total H rec Hin).
Qed.

Lemma append_row_length : forall row cells : list json,
  append_row row = Ok cells -> List.length cells = List.length row.
Proof.
  induction row as [|v row IH]; intros cells H; cbn [append_row] in H.
  - now injection H as <-.
  - destruct (cell_value v) as [c|e]; [| discriminate H]. cbn [bind] in H.
    destruct (append_row row) as [cells'|e]; [| discriminate H].
    cbn [bind] in H. injection H as <-.
    cbn [List.length]. now rewrite (IH cells' eq_refl).
Qed.

Lemma record_rows_shape : forall (recs : list json) (rows : list (list json)),
  record_rows recs = Ok rows ->
  List.length rows = List.length recs
  /\ Forall (fun row => List.length row = 4%nat) rows.
Proof.
  induction recs as [|r rs IH]; intros rows H; cbn [record_rows] in H.
  - injection H as <-. split; [reflexivity | constructor].
  - destruct (record_row r) as [row|e] eqn:Hrow; [| discriminate H].
    cbn [bind] in H.
    destruct (record_rows rs) as [rows'|e]; [| discriminate H].
    cbn [bind] in H. injection H as <-.
    destruct (IH rows' eq_refl) as [Hl Hf]. split.
    + cbn [List.length]. now rewrite Hl.
    + constructor; [| exact Hf].
      destruct r as [| | | | |l|d]; try discriminate Hrow.
      unfold record_row in Hrow.
      now rewrite (append_row_length _ row Hrow).
Qed.

(** X14. When the sheet is produced it has the header, one row per selected
    record and three closing rows, all of four cells; and it is produced
    only if every selected record has an elapsed value that is a number:
    a row shows a missing field as empty, but the total does not
    tolerate it. *)
Theorem sheet_rows_shape :
  forall (filtered : list json) (rows : list (list json)),
    sheet_rows filtered = Ok rows ->
    List.length rows = (List.length filtered + 4)%nat
    /\ Forall (fun row => List.length row = 4%nat) rows
    /\ forall rec : json,
         In rec filtered ->
         exists (d : dict) (v : json) (n : number),
           rec = JDict d /\ dict_lookup "elapsed" d = Some v
           /\ number_of_json v = Some n.
Proof.
  intros filtered rows H. unfold sheet_rows in H.
  destruct (record_rows filtered) as [rrows|e] eqn:Hr; [| discriminate H].
  simpl in H.
  destruct (sum_elapsed (PInt 0) filtered) as [total|e] eqn:Hsum;
    [| discriminate H].
  simpl in H. destruct (div_3600 total) as [hours|e]; [| discriminate H].
  simpl in H. injection H as <-.
  destruct (record_rows_shape filtered rrows Hr) as [Hl Hf].
  split; [| split].
  - simpl. rewrite length_app, Hl. simpl. lia.
  - constructor; [reflexivity |]. apply Forall_app. split; [exact Hf |].
    repeat constructor.
  - exact (sum_elapsed_ok filtered (PInt 0) total Hsum).
Qed.

Lemma sum_elapsed_app : forall (before rest : list json) (acc mid : number),
  sum_elapsed acc before = Ok mid ->
  sum_elapsed acc (before ++ rest) = sum_elapsed mid rest.
Proof.
  induction before as [|r rs IH]; intros rest acc mid H.
  - cbn [sum_elapsed] in H. now injection H as ->.
  - cbn [sum_elapsed List.app] in *.
    destruct (elapsed_of r) as [v|e]; [| discriminate H]. cbn [bind] in *.
    destruct (number_of_json v) as [n|]; [| discriminate H].
    destruct (py_add acc n) as [acc'|e]; [| discriminate H]. cbn [bind] in *.
    now apply IH.
Qed.

(** X15. A selected record without an elapsed value fails the export with
    [KeyError], wherever it stands in the selection: when the sheet has
    taken the row of every selected record, and the seconds of the records
    before it add up, the total stops at the missing value. The row of
    that record shows the value as an empty cell. *)
Theorem sheet_rows_missing_elapsed :
  forall (before after : list json) (d : dict) (rows : list (list json))
         (seconds : number),
    dict_lookup "elapsed" d = None ->
    record_rows (before ++ JDict d :: after) = Ok rows ->
    sum_elapsed (PInt 0) before = Ok seconds ->
    sheet_rows (before ++ JDict d :: after) = Raise (KeyError "elapsed")
    /\ exists cells : list json,
         nth_error rows (List.length before) = Some cells
         /\ nth_error cells 2 = Some (JStr "").
Proof.
  intros before after d rows seconds Hd Hrows Hsum. split.
  - unfold sheet_rows. rewrite Hrows. cbn [bind].
    rewrite (sum_elapsed_app before (JDict d :: after) (PInt 0) seconds Hsum).
    cbn [sum_elapsed elapsed_of]. now rewrite Hd.
  - clear Hsum. revert rows Hrows.
    induction before as [|r rs IH]; intros rows Hrows.
    + cbn [List.app record_rows record_row] in Hrows.
      unfold dict_get in Hrows at 3. rewrite Hd in Hrows.
      cbn [append_row] in Hrows.
      destruct (cell_value (dict_get "start_time" (JStr "") d)) as [c1|e];
        [| discriminate Hrows]. cbn [bind] in Hrows.
      destruct (cell_value (dict_get "end_time" (JStr "") d)) as [c2|e];
        [| discriminate Hrows]. cbn [bind] in Hrows.
      change (cell_value (JStr "")) with (Ok (JStr "")) in Hrows.
      cbn [bind] in Hrows.
      destruct (cell_value (dict_get "comment" (JStr "") d)) as [c4|e];
        [| discriminate Hrows]. cbn [bind] in Hrows.
      destruct (record_rows after) as [rows'|e]; [| discriminate Hrows].
      cbn [bind] in Hrows. injection Hrows as <-.
      eexists. split; reflexivity.
    + cbn [List.app record_rows] in Hrows.
      destruct (record_row r) as [row|e]; [| discriminate Hrows].
      cbn [bind] in Hrows.
      destruct (record_rows (rs ++ JDict d :: after)) as [rows'|e];
        [| discriminate Hrows].
      cbn [bind] in Hrows. injection Hrows as <-.
      exact (IH rows' eq_refl).
Qed.

(** ** The order of datetimes and the length of an edited session *)

Lemma days_before_year_step : forall y : Z,
  days_before_year (y + 1)
  = days_before_year y + (if is_leap y then 366 else 365).
Proof.
  intros y. unfold days_before_year, is_leap. cbv zeta.
  replace (y + 1 - 1) with y by lia.
  destruct (Z.eqb_spec (y mod 4) 0) as [H4 | H4];
    destruct (Z.eqb_spec (y mod 100) 0) as [H100 | H100];
    destruct (Z.eqb_spec (y mod 400) 0) as [H400 | H400];
    cbn [negb andb orb];
    Z.div_mod_to_equations; lia.
Qed.

Lemma days_before_year_mono : forall y y' : Z,
  y <= y' -> days_before_year y <= days_before_year y'.
Proof.
  intros y y' H. unfold days_before_year. cbv zeta.
  Z.div_mod_to_equations. lia.
Qed.

Lemma month_cases : forall m : Z,
  1 <= m <= 12 ->
  m = 1 \/ m = 2 \/ m = 3 \/ m = 4 \/ m = 5 \/ m = 6
  \/ m = 7 \/ m = 8 \/ m = 9 \/ m = 10 \/ m = 11 \/ m = 12.
Proof. intros m H. lia. Qed.

Ltac each_month H :=
  destruct (month_cases _ H)
    as [-> | [-> | [-> | [-> | [-> | [-> | [-> | [-> | [-> | [-> | [-> | ->]]]]]]]]]]].

(** The lengths of the months, given whether the year is a leap year. *)
Definition month_length (leap : bool) (m : Z) : Z :=
  if m =? 2 then (if leap then 29 else 28)
  else if (m =? 4) || (m =? 6) || (m =? 9) || (m =? 11) then 30
  else 31.

Fixpoint days_before (fuel : nat) (leap : bool) (m : Z) : Z :=
  match fuel with
  | O => 0
  | S fuel' =>
      if m <=? 1 then 0
      else month_length leap (m - 1) + days_before fuel' leap (m - 1)
  end.

Lemma days_before_month_fuel_leap : forall (fuel : nat) (y m : Z),
  days_before_month_fuel fuel y m = days_before fuel (is_leap y) m.
Proof.
  induction fuel as [|fuel IH]; intros y m; simpl; [reflexivity |].
  now rewrite IH.
Qed.

Ltac month_values :=
  repeat match goal with
         | H : context [month_length ?b ?k] |- _ =>
             let v := eval vm_compute in (month_length b k) in
             change (month_length b k) with v in H
         | |- context [days_before ?f ?b ?k] =>
             let v := eval vm_compute in (days_before f b k) in
             change (days_before f b k) with v
         end.

(** A valid day of the year lies within the year, and before the first
    day of any later month. *)
Lemma days_before_month_bounds : forall y m d : Z,
  1 <= m <= 12 ->
  1 <= d <= days_in_month y m ->
  0 <= days_before_month y m
  /\ days_before_month y m + d <= (if is_leap y then 366 else 365)
  /\ forall m' : Z,
       m < m' <= 12 -> days_before_month y m + d <= days_before_month y m'.
Proof.
  intros y m d Hm Hd. unfold days_before_month.
  rewrite !days_before_month_fuel_leap.
  change (days_in_month y m) with (month_length (is_leap y) m) in Hd.
  split; [| split].
  - destruct (is_leap y); each_month Hm; month_values; lia.
  - destruct (is_leap y); each_month Hm; month_values; lia.
  - intros m' Hm'. rewrite days_before_month_fuel_leap.
    assert (Hm'' : 1 <= m' <= 12) by lia.
    destruct (is_leap y); each_month Hm; each_month Hm''; try lia;
      month_values; lia.
Qed.

Lemma valid_date_bounds : forall y m d : Z,
  valid_date y m d = true ->
  1 <= y <= 9999 /\ 1 <= m <= 12 /\ 1 <= d <= days_in_month y m.
Proof.
  intros y m d H. unfold valid_date in H.
  repeat (apply andb_true_iff in H; destruct H as [H ?]).
  repeat match goal with
         | H : (_ <=? _) = true |- _ => apply Z.leb_le in H
         end.
  lia.
Qed.

Lemma valid_time_bounds : forall h mi s us : Z,
  valid_time h mi s us = true ->
  0 <= h <= 23 /\ 0 <= mi <= 59 /\ 0 <= s <= 59 /\ 0 <= us <= 999999.
Proof.
  intros h mi s us H. unfold valid_time in H.
  repeat (apply andb_true_iff in H; destruct H as [H ?]).
  repeat match goal with
         | H : (_ <=? _) = true |- _ => apply Z.leb_le in H
         end.
  lia.
Qed.

(** Earlier dates have smaller ordinals. *)
Lemma toordinal_lt : forall y m d y' m' d' : Z,
  valid_date y m d = true ->
  valid_date y' m' d' = true ->
  lex_compare [y; m; d] [y'; m'; d'] = Lt ->
  toordinal y m d < toordinal y' m' d'.
Proof.
  intros y m d y' m' d' Hv Hv' Hlt.
  apply valid_date_bounds in Hv as (Hy & Hm & Hd).
  apply valid_date_bounds in Hv' as (Hy' & Hm' & Hd').
  destruct (days_before_month_bounds y m d Hm Hd) as (B0 & B1 & B2).
  destruct (days_before_month_bounds y' m' d' Hm' Hd') as (B0' & _ & _).
  unfold toordinal. simpl in Hlt.
  destruct (Z.compare_spec y y') as [-> | Hyy | Hyy]; try discriminate Hlt.
  - destruct (Z.compare_spec m m') as [-> | Hmm | Hmm]; try discriminate Hlt.
    + destruct (Z.compare_spec d d') as [-> | Hdd | Hdd];
        try discriminate Hlt. lia.
    + specialize (B2 m' ltac:(lia)). lia.
  - pose proof (days_before_year_step y) as Hstep.
    pose proof (days_before_year_mono (y + 1) y' ltac:(lia)) as Hmono.
    destruct (is_leap y); lia.
Qed.

(** Earlier naive datetimes are fewer microseconds from the origin. *)
Lemma microseconds_lt : forall a b : datetime,
  valid_datetime a = true ->
  valid_datetime b = true ->
  lex_compare (datetime_fields a) (datetime_fields b) = Lt ->
  microseconds_of a < microseconds_of b.
Proof.
  intros [y m d h mi s us] [y' m' d' h' mi' s' us'] Ha Hb.
  unfold valid_datetime in Ha, Hb. cbn [year month day hour minute second
                                        microsecond] in Ha, Hb.
  apply andb_true_iff in Ha as [Hda Hta].
  apply andb_true_iff in Hb as [Hdb Htb].
  apply valid_time_bounds in Hta. apply valid_time_bounds in Htb.
  unfold microseconds_of, datetime_fields.
  cbn [year month day hour minute second microsecond].
  intros Hlt.
  destruct (lex_compare [y; m; d] [y'; m'; d']) eqn:Hdate.
  - apply lex_compare_eq in Hdate. injection Hdate as -> -> ->.
    simpl in Hlt. rewrite !Z.compare_refl in Hlt.
    destruct (Z.compare_spec h h'); try discriminate Hlt; [| lia].
    destruct (Z.compare_spec mi mi'); try discriminate Hlt; [| lia].
    destruct (Z.compare_spec s s'); try discriminate Hlt; [| lia].
    destruct (Z.compare_spec us us'); try discriminate Hlt. lia.
  - pose proof (toordinal_lt y m d y' m' d' Hda Hdb Hdate). lia.
  - exfalso. simpl in Hlt, Hdate.
    destruct (y ?= y'); try discriminate;
      destruct (m ?= m'); try discriminate;
      destruct (d ?= d'); discriminate.
Qed.

Lemma strptime_datetime_valid : forall (text : string) (dt : datetime),
  strptime_datetime text = Some dt ->
  valid_datetime dt = true /\ microsecond dt = 0.
Proof.
  intros text dt. unfold strptime_datetime.
  destruct (strptime_match re_datetime text) as [caps|]; [| discriminate].
  match goal with
  | |- context [valid_datetime ?x] => destruct (valid_datetime x) eqn:Hv
  end; [| discriminate].
  intros [= <-]. split; [exact Hv | reflexivity].
Qed.

Lemma microseconds_whole_seconds : forall dt : datetime,
  microsecond dt = 0 -> microseconds_of dt mod 1000000 = 0.
Proof.
  intros dt H. unfold microseconds_of. rewrite H, Z.add_0_r.
  apply Z.mod_mul. lia.
Qed.

(** X16. An edit that [save_changes] accepts spans a whole number of seconds
    that is not negative, and is zero only when the end is the start: the
    order the handler tests on the fields is the order of the instants. *)
Theorem save_changes_accepts_nonnegative_spans :
  forall (new_start new_end : string) (dt_start dt_end : datetime),
    strptime_datetime new_start = Some dt_start ->
    strptime_datetime new_end = Some dt_end ->
    (datetime_lt dt_end dt_start = false ->
       0 <= datetime_sub dt_end dt_start
       /\ datetime_sub dt_end dt_start mod 1000000 = 0
       /\ (datetime_sub dt_end dt_start = 0 -> dt_end = dt_start))
    /\ (datetime_lt dt_end dt_start = true ->
        datetime_sub dt_end dt_start < 0).
Proof.
  intros new_start new_end ds de Hs He.
  apply strptime_datetime_valid in Hs as [Hvs Hus].
  apply strptime_datetime_valid in He as [Hve Hue].
  pose proof (microseconds_whole_seconds ds Hus) as Hws.
  pose proof (microseconds_whole_seconds de Hue) as Hwe.
  unfold datetime_lt, datetime_sub. split.
  - intros Hlt.
    destruct (lex_compare (datetime_fields de) (datetime_fields ds)) eqn:Hc;
      try discriminate Hlt.
    + apply lex_compare_eq in Hc.
      assert (de = ds) as -> by (destruct de, ds; now injection Hc as -> -> -> -> -> -> ->).
      rewrite Z.sub_diag. repeat split; lia.
    + rewrite (lex_compare_antisym (datetime_fields ds) (datetime_fields de)) in Hc.
      assert (Hc' : lex_compare (datetime_fields ds) (datetime_fields de) = Lt).
      { destruct (lex_compare (datetime_fields ds) (datetime_fields de));
          [discriminate Hc | reflexivity | discriminate Hc]. }
      pose proof (microseconds_lt ds de Hvs Hve Hc') as Hm.
      split; [lia | split; [| lia]].
      rewrite Zminus_mod, Hws, Hwe. reflexivity.
  - intros Hlt.
    destruct (lex_compare (datetime_fields de) (datetime_fields ds)) eqn:Hc;
      try discriminate Hlt.
    pose proof (microseconds_lt de ds Hve Hvs Hc). lia.
Qed.

(** ** Whole numbers of seconds are exact in binary64 *)

Lemma digits2_pos_size : forall p : positive, digits2_pos p = Pos.size p.
Proof.
  induction p as [p IH | p IH |]; simpl; [now rewrite IH | now rewrite IH | reflexivity].
Qed.

Lemma Zdigits2_log2 : forall p : positive,
  Zdigits2 (Z.pos p) = Z.log2 (Z.pos p) + 1.
Proof.
  intros p. unfold Zdigits2. rewrite digits2_pos_size.
  destruct p as [p | p |]; simpl; try reflexivity;
    rewrite Pos2Z.inj_succ; lia.
Qed.

Lemma iter_pos_nat : forall (A : Type) (f : A -> A) (p : positive) (x : A),
  iter_pos f p x = Nat.iter (Pos.to_nat p) f x.
Proof.
  intros A f p. induction p as [p IH | p IH |]; intros x; cbn [iter_pos].
  - rewrite !IH, Pos2Nat.inj_xI.
    replace (S (2 * Pos.to_nat p))%nat
      with (Pos.to_nat p + S (Pos.to_nat p))%nat by lia.
    rewrite Nat.iter_add. f_equal. now rewrite Nat.iter_succ_r.
  - rewrite !IH, Pos2Nat.inj_xO.
    replace (2 * Pos.to_nat p)%nat
      with (Pos.to_nat p + Pos.to_nat p)%nat by lia.
    now rewrite Nat.iter_add.
  - reflexivity.
Qed.

(** Shifting out [j] zero bits loses nothing. *)
Lemma shr_zero_bits : forall (j : nat) (p : positive),
  Nat.iter j shr_1
    {| shr_m := Z.pos p * 2 ^ Z.of_nat j; shr_r := false; shr_s := false |}
  = {| shr_m := Z.pos p; shr_r := false; shr_s := false |}.
Proof.
  induction j as [|j IH]; intros p.
  - cbn [Nat.iter nat_rect Z.of_nat]. now rewrite Z.pow_0_r, Z.mul_1_r.
  - cbn [Nat.iter nat_rect].
    replace (Z.pos p * 2 ^ Z.of_nat (S j)) with (Z.pos (p~0) * 2 ^ Z.of_nat j)
      by (rewrite Nat2Z.inj_succ, Z.pow_succ_r by lia; lia).
    change (nat_rect (fun _ => shr_record) ?x (fun _ => shr_1) j)
      with (Nat.iter j shr_1 x).
    rewrite IH. reflexivity.
Qed.

(** A mantissa of 53 bits followed by zero bits rounds to itself. *)
Lemma binary_round_aux_exact :
  forall (sx : bool) (p : positive) (j : nat) (e : Z),
    Z.log2 (Z.pos p) = 52 ->
    -1074 <= e + Z.of_nat j <= 971 ->
    binary_round_aux prec emax sx (Z.pos p * 2 ^ Z.of_nat j) e loc_Exact
    = S754_finite sx p (e + Z.of_nat j).
Proof.
  intros sx p j e Hp He. unfold binary_round_aux.
  assert (Hpow : exists q, Z.pos p * 2 ^ Z.of_nat j = Z.pos q).
  { pose proof (Z.pow_pos_nonneg 2 (Z.of_nat j) ltac:(lia) ltac:(lia)).
    destruct (Z.pos p * 2 ^ Z.of_nat j) eqn:E; try lia. now eexists. }
  destruct Hpow as [q Hq].
  assert (Hdig : Zdigits2 (Z.pos p * 2 ^ Z.of_nat j) = 53 + Z.of_nat j).
  { rewrite Hq, Zdigits2_log2, <- Hq, Z.log2_mul_pow2 by lia. lia. }
  assert (H1 : shr_fexp prec emax (Z.pos p * 2 ^ Z.of_nat j) e loc_Exact
               = ({| shr_m := Z.pos p; shr_r := false; shr_s := false |},
                  e + Z.of_nat j)).
  { unfold shr_fexp. rewrite Hdig. unfold fexp, emin, prec, emax.
    replace (Z.max (53 + Z.of_nat j + e - 53) (3 - 1024 - 53) - e)
      with (Z.of_nat j) by lia.
    unfold shr_record_of_loc, shr.
    destruct j as [|j].
    - cbn [Z.of_nat]. rewrite Z.pow_0_r, Z.mul_1_r, Z.add_0_r. reflexivity.
    - pose proof (shr_zero_bits (S j) p) as Hz.
      change (Z.of_nat (S j)) with (Z.pos (Pos.of_succ_nat j)) in *.
      cbv iota beta. rewrite iter_pos_nat, SuccNat2Pos.id_succ, Hz. reflexivity. }
  rewrite H1. cbn [shr_m loc_of_shr_record shr_r shr_s round_nearest_even].
  assert (H2 : shr_fexp prec emax (Z.pos p) (e + Z.of_nat j) loc_Exact
               = ({| shr_m := Z.pos p; shr_r := false; shr_s := false |},
                  e + Z.of_nat j)).
  { unfold shr_fexp. rewrite Zdigits2_log2, Hp. unfold fexp, emin, prec, emax.
    replace (Z.max (52 + 1 + (e + Z.of_nat j) - 53) (3 - 1024 - 53)
             - (e + Z.of_nat j)) with 0 by lia.
    reflexivity. }
  rewrite H2. cbn [shr_m].
  assert (H3 : (e + Z.of_nat j <=? emax - prec) = true)
    by (apply Z.leb_le; unfold emax, prec; lia).
  now rewrite H3.
Qed.

(** The quotient of a multiple is the float of the integer, when it has at
    most 53 bits. *)
Lemma ratio_to_float_whole : forall n d : Z,
  0 < n < 2 ^ 53 -> 0 < d ->
  float_units (ratio_to_float (n * d) d) = Some (n * 2 ^ 1074).
Proof.
  intros n d Hn Hd. unfold ratio_to_float. cbv zeta.
  assert (Hnd : 0 < n * d) by nia.
  rewrite (Z.abs_eq (n * d)) by lia.
  assert (E0 : (n * d =? 0) = false) by (apply Z.eqb_neq; lia).
  assert (E1 : (n * d <? 0) = false) by (apply Z.ltb_ge; lia).
  rewrite E0, E1.
  set (L := Z.log2 n).
  assert (HL : 0 <= L <= 52).
  { subst L. split; [apply Z.log2_nonneg |].
    assert (Z.log2 n < 53) by (apply Z.log2_lt_pow2; lia). lia. }
  pose proof (Z.log2_mul_above n d ltac:(lia) ltac:(lia)) as Ha.
  pose proof (Z.log2_mul_below n d ltac:(lia) ltac:(lia)) as Hb.
  fold L in Ha, Hb.
  set (k := Z.max 0 (55 + Z.log2 d - Z.log2 (n * d))).
  assert (Hk : 54 - L <= k <= 55 - L) by (subst k; lia).
  assert (Hq : n * d * 2 ^ k / d = n * 2 ^ k).
  { replace (n * d * 2 ^ k) with (n * 2 ^ k * d) by ring.
    apply Z.div_mul. lia. }
  assert (Hr : (n * d * 2 ^ k) mod d = 0).
  { replace (n * d * 2 ^ k) with (n * 2 ^ k * d) by ring.
    apply Z.mod_mul. lia. }
  rewrite Hq, Hr. cbn [Z.eqb].
  set (p := Z.to_pos (n * 2 ^ (52 - L))).
  assert (Hp : Z.pos p = n * 2 ^ (52 - L)).
  { subst p. rewrite Z2Pos.id; [reflexivity |].
    apply Z.mul_pos_pos; [lia | apply Z.pow_pos_nonneg; lia]. }
  assert (Hlog : Z.log2 (Z.pos p) = 52).
  { rewrite Hp, Z.log2_mul_pow2 by lia. fold L. lia. }
  set (j := Z.to_nat (k - (52 - L))).
  assert (Hj : Z.of_nat j = k - (52 - L)) by (subst j; lia).
  assert (Hm : n * 2 ^ k = Z.pos p * 2 ^ Z.of_nat j).
  { rewrite Hp, Hj, <- Z.mul_assoc, <- Z.pow_add_r by lia.
    f_equal. f_equal. lia. }
  rewrite Hm, (binary_round_aux_exact false p j (- k) Hlog) by lia.
  replace (- k + Z.of_nat j) with (L - 52) by lia.
  assert (Hv : valid_binary (S754_finite false p (L - 52)) = true).
  { unfold SpecFloat.valid_binary, bounded, canonical_mantissa.
    change (Z.pos (digits2_pos p)) with (Zdigits2 (Z.pos p)).
    rewrite Zdigits2_log2, Hlog. unfold fexp, emin, prec, emax.
    apply andb_true_iff. split; [apply Z.eqb_eq | apply Z.leb_le]; lia. }
  unfold float_units. rewrite (Prim2SF_SF2Prim _ Hv).
  f_equal. rewrite Hp, <- Z.mul_assoc, <- Z.pow_add_r by lia.
  f_equal. f_equal. lia.
Qed.

Lemma total_seconds_whole : forall n : Z,
  0 <= n < 2 ^ 53 ->
  float_units (timedelta_total_seconds (n * 1000000)) = Some (n * 2 ^ 1074)
  /\ (n = 0 -> timedelta_total_seconds (n * 1000000) = 0%float).
Proof.
  intros n Hn. unfold timedelta_total_seconds.
  destruct (Z.eq_dec n 0) as [-> | Hne].
  - split; [reflexivity | reflexivity].
  - split; [apply ratio_to_float_whole; lia | intros; contradiction].
Qed.

(** ** Counting the seconds between two times *)

(** The second that follows on the calendar. *)
Definition next_second (dt : datetime) : datetime :=
  let '(mkDatetime y m d h mi s us) := dt in
  if s <? 59 then mkDatetime y m d h mi (s + 1) us
  else if mi <? 59 then mkDatetime y m d h (mi + 1) 0 us
  else if h <? 23 then mkDatetime y m d (h + 1) 0 0 us
  else if d <? days_in_month y m then mkDatetime y m (d + 1) 0 0 0 us
  else if m <? 12 then mkDatetime y (m + 1) 1 0 0 0 us
  else mkDatetime (y + 1) 1 1 0 0 0 us.

Lemma valid_datetime_bounds : forall y m d h mi s us : Z,
  valid_datetime (mkDatetime y m d h mi s us) = true ->
  (1 <= y <= 9999 /\ 1 <= m <= 12 /\ 1 <= d <= days_in_month y m)
  /\ (0 <= h <= 23 /\ 0 <= mi <= 59 /\ 0 <= s <= 59 /\ 0 <= us <= 999999).
Proof.
  intros y m d h mi s us H. unfold valid_datetime in H.
  cbn [year month day hour minute second microsecond] in H.
  apply andb_true_iff in H as [Hd Ht].
  split; [now apply valid_date_bounds | now apply valid_time_bounds].
Qed.

Lemma valid_datetime_of_bounds : forall y m d h mi s us : Z,
  1 <= y <= 9999 -> 1 <= m <= 12 -> 1 <= d <= days_in_month y m ->
  0 <= h <= 23 -> 0 <= mi <= 59 -> 0 <= s <= 59 -> 0 <= us <= 999999 ->
  valid_datetime (mkDatetime y m d h mi s us) = true.
Proof.
  intros y m d h mi s us Hy Hm Hd Hh Hmi Hs Hus.
  unfold valid_datetime, valid_date, valid_time.
  cbn [year month day hour minute second microsecond].
  repeat (apply andb_true_iff; split); apply Z.leb_le; lia.
Qed.

Lemma days_in_month_bounds : forall y m : Z, 28 <= days_in_month y m <= 31.
Proof.
  intros y m. unfold days_in_month.
  destruct (m =? 2); [destruct (is_leap y); lia |].
  destruct ((m =? 4) || (m =? 6) || (m =? 9) || (m =? 11)); lia.
Qed.

(** The first day of the next month follows the last day of a month. *)
Lemma days_before_next_month : forall y m : Z,
  1 <= m < 12 ->
  days_before_month y (m + 1) = days_before_month y m + days_in_month y m.
Proof.
  intros y m Hm. unfold days_before_month.
  rewrite !days_before_month_fuel_leap.
  change (days_in_month y m) with (month_length (is_leap y) m).
  assert (Hm' : 1 <= m <= 12) by lia.
  destruct (is_leap y); each_month Hm'; try lia; vm_compute; reflexivity.
Qed.

Lemma days_before_december : forall y : Z,
  days_before_month y 12 + 31 = (if is_leap y then 366 else 365)
  /\ days_before_month y 1 = 0 /\ days_in_month y 12 = 31.
Proof.
  intros y. unfold days_before_month.
  rewrite !days_before_month_fuel_leap.
  destruct (is_leap y); repeat split.
Qed.

(** One second later is a million microseconds later. *)
Lemma microseconds_next_second : forall dt : datetime,
  valid_datetime dt = true ->
  microseconds_of (next_second dt) = microseconds_of dt + 1000000.
Proof.
  intros [y m d h mi s us] Hv.
  apply valid_datetime_bounds in Hv as [(Hy & Hm & Hd) (Hh & Hmi & Hs & Hus)].
  unfold next_second.
  destruct (Z.ltb_spec s 59) as [Hs' | Hs'];
    [unfold microseconds_of; cbn [year month day hour minute second microsecond]; lia |].
  destruct (Z.ltb_spec mi 59) as [Hmi' | Hmi'];
    [unfold microseconds_of; cbn [year month day hour minute second microsecond]; lia |].
  destruct (Z.ltb_spec h 23) as [Hh' | Hh'];
    [unfold microseconds_of; cbn [year month day hour minute second microsecond]; lia |].
  destruct (Z.ltb_spec d (days_in_month y m)) as [Hd' | Hd'];
    [unfold microseconds_of, toordinal;
     cbn [year month day hour minute second microsecond]; lia |].
  destruct (Z.ltb_spec m 12) as [Hm' | Hm'].
  - unfold microseconds_of, toordinal.
    cbn [year month day hour minute second microsecond].
    rewrite (days_before_next_month y m) by lia. lia.
  - assert (m = 12) as -> by lia.
    destruct (days_before_december y) as (H12 & H1 & H31).
    pose proof (days_before_year_step y) as Hstep.
    unfold microseconds_of, toordinal.
    cbn [year month day hour minute second microsecond].
    change (days_before_month (y + 1) 1) with 0.
    rewrite Hstep. rewrite H31 in Hd, Hd'. lia.
Qed.

(** The second that follows is again a time of the calendar, up to the
    last second of the year 9999. *)
Lemma next_second_valid : forall dt : datetime,
  valid_datetime dt = true ->
  year (next_second dt) <= 9999 ->
  valid_datetime (next_second dt) = true.
Proof.
  intros [y m d h mi s us] Hv.
  apply valid_datetime_bounds in Hv as [(Hy & Hm & Hd) (Hh & Hmi & Hs & Hus)].
  unfold next_second.
  pose proof (days_in_month_bounds y m) as B.
  pose proof (days_in_month_bounds y (m + 1)) as B'.
  pose proof (days_in_month_bounds (y + 1) 1) as B''.
  destruct (Z.ltb_spec s 59); [intros _; apply valid_datetime_of_bounds; lia |].
  destruct (Z.ltb_spec mi 59); [intros _; apply valid_datetime_of_bounds; lia |].
  destruct (Z.ltb_spec h 23); [intros _; apply valid_datetime_of_bounds; lia |].
  destruct (Z.ltb_spec d (days_in_month y m));
    [intros _; apply valid_datetime_of_bounds; lia |].
  destruct (Z.ltb_spec m 12); [intros _; apply valid_datetime_of_bounds; lia |].
  cbn [year]. intros Hy'. apply valid_datetime_of_bounds; lia.
Qed.

(** Times of the calendar that are equally far from the origin are the
    same time. *)
Lemma microseconds_inj : forall a b : datetime,
  valid_datetime a = true -> valid_datetime b = true ->
  microseconds_of a = microseconds_of b -> a = b.
Proof.
  intros a b Ha Hb Heq.
  destruct (lex_compare (datetime_fields a) (datetime_fields b)) eqn:Hc.
  - apply lex_compare_eq in Hc.
    destruct a as [y m d h mi s us], b as [y' m' d' h' mi' s' us'].
    now injection Hc as -> -> -> -> -> -> ->.
  - pose proof (microseconds_lt a b Ha Hb Hc). lia.
  - rewrite (lex_compare_antisym (datetime_fields b) (datetime_fields a)) in Hc.
    assert (Hc' : lex_compare (datetime_fields b) (datetime_fields a) = Lt).
    { destruct (lex_compare (datetime_fields b) (datetime_fields a));
        [discriminate Hc | reflexivity | discriminate Hc]. }
    pose proof (microseconds_lt b a Hb Ha Hc'). lia.
Qed.

(** A time of the calendar is before the first second of the year 10000:
    [3155378976000000000] microseconds from the origin. *)
Lemma microseconds_bounds : forall dt : datetime,
  valid_datetime dt = true ->
  86400000000 <= microseconds_of dt
  /\ microseconds_of dt
     < (days_before_year (year dt + 1) + 1) * 86400000000.
Proof.
  intros [y m d h mi s us] Hv.
  apply valid_datetime_bounds in Hv as [(Hy & Hm & Hd) (Hh & Hmi & Hs & Hus)].
  destruct (days_before_month_bounds y m d Hm Hd) as (B0 & B1 & _).
  pose proof (days_before_year_step y) as Hstep.
  pose proof (days_before_year_mono 1 y ltac:(lia)) as Hmono.
  change (days_before_year 1) with 0 in Hmono.
  unfold microseconds_of, toordinal.
  cbn [year month day hour minute second microsecond].
  destruct (is_leap y); lia.
Qed.

(** Stepping second by second from one time of the calendar reaches any
    later one, after as many steps as they are seconds apart. *)
Lemma next_second_reaches : forall (n : nat) (a b : datetime),
  valid_datetime a = true -> valid_datetime b = true ->
  microseconds_of b = microseconds_of a + Z.of_nat n * 1000000 ->
  Nat.iter n next_second a = b.
Proof.
  induction n as [|n IH]; intros a b Ha Hb Hab.
  - cbn [Nat.iter nat_rect]. symmetry. apply microseconds_inj; [assumption.. | lia].
  - rewrite Nat.iter_succ_r.
    pose proof (microseconds_next_second a Ha) as Hnext.
    apply IH; [| exact Hb | lia].
    apply next_second_valid; [exact Ha |].
    destruct (Z_le_gt_dec (year (next_second a)) 9999) as [Hle | Hgt];
      [exact Hle | exfalso].
    destruct (microseconds_bounds b Hb) as [_ Hub].
    assert (Hyb : year b <= 9999).
    { destruct b as [y1 m1 d1 h1 mi1 s1 us1].
      apply valid_datetime_bounds in Hb. cbn [year]. lia. }
    pose proof (days_before_year_mono (year b + 1) 10000 ltac:(lia)) as Hm1.
    assert (Hlow : days_before_year 10000 * 86400000000 + 86400000000
                   <= microseconds_of (next_second a)).
    { destruct a as [y m d h mi s us].
      apply valid_datetime_bounds in Ha as [(Hy & Hm & Hd) (Hh & Hmi & Hs & Hus)].
      unfold next_second in Hgt |- *.
      destruct (s <? 59); [cbn [year] in Hgt; lia |].
      destruct (mi <? 59); [cbn [year] in Hgt; lia |].
      destruct (h <? 23); [cbn [year] in Hgt; lia |].
      destruct (d <? days_in_month y m); [cbn [year] in Hgt; lia |].
      destruct (m <? 12); [cbn [year] in Hgt; lia |].
      cbn [year] in Hgt. assert (y = 9999) as -> by lia.
      unfold microseconds_of, toordinal.
      cbn [year month day hour minute second microsecond].
      change (9999 + 1) with 10000.
      change (days_before_month 10000 1) with 0. lia. }
    lia.
Qed.

(** The times [save_changes] accepts are a whole number of seconds
    apart. *)
Lemma accepted_span : forall (new_start new_end : string)
    (dt_start dt_end : datetime),
  strptime_datetime new_start = Some dt_start ->
  strptime_datetime new_end = Some dt_end ->
  datetime_lt dt_end dt_start = false ->
  exists n : nat,
    datetime_sub dt_end dt_start = Z.of_nat n * 1000000
    /\ Z.of_nat n < 2 ^ 53
    /\ Nat.iter n next_second dt_start = dt_end.
Proof.
  intros new_start new_end ds de Hs He Hlt.
  apply strptime_datetime_valid in Hs as [Hvs Hus].
  apply strptime_datetime_valid in He as [Hve Hue].
  pose proof (microseconds_whole_seconds ds Hus) as Hws.
  pose proof (microseconds_whole_seconds de Hue) as Hwe.
  assert (Hle : microseconds_of ds <= microseconds_of de).
  { unfold datetime_lt in Hlt.
    destruct (lex_compare (datetime_fields de) (datetime_fields ds)) eqn:Hc;
      try discriminate Hlt.
    - apply lex_compare_eq in Hc.
      destruct de as [y m d h mi s us], ds as [y' m' d' h' mi' s' us'].
      injection Hc as -> -> -> -> -> -> ->. lia.
    - rewrite (lex_compare_antisym (datetime_fields ds) (datetime_fields de)) in Hc.
      assert (Hc' : lex_compare (datetime_fields ds) (datetime_fields de) = Lt).
      { destruct (lex_compare (datetime_fields ds) (datetime_fields de));
          [discriminate Hc | reflexivity | discriminate Hc]. }
      pose proof (microseconds_lt ds de Hvs Hve Hc'). lia. }
  destruct (microseconds_bounds ds Hvs) as [Hlow _].
  destruct (microseconds_bounds de Hve) as [_ Hup].
  assert (Hyear : year de <= 9999).
  { destruct de as [y m d h mi s us].
    apply valid_datetime_bounds in Hve. cbn [year]. lia. }
  pose proof (days_before_year_mono (year de + 1) 10000 ltac:(lia)) as Hmono.
  change (days_before_year 10000) with 3652059 in Hmono.
  set (k := (microseconds_of de - microseconds_of ds) / 1000000).
  assert (Hk : microseconds_of de - microseconds_of ds = k * 1000000).
  { subst k. pose proof (Z.div_mod (microseconds_of de - microseconds_of ds)
                           1000000 ltac:(lia)) as Hdm.
    rewrite Zminus_mod, Hws, Hwe in Hdm. change ((0 - 0) mod 1000000) with 0 in Hdm.
    lia. }
  assert (Hk0 : 0 <= k) by lia.
  exists (Z.to_nat k). rewrite Z2Nat.id by lia.
  split; [exact Hk | split; [lia |]].
  apply next_second_reaches; [exact Hvs | exact Hve |].
  rewrite Z2Nat.id by lia. lia.
Qed.

(** C6. [save_changes] parses both texts with the format
    [YYYY-MM-DD HH:MM:SS]. If either does not parse it reports the format
    error; if the end is strictly earlier than the start it reports that
    the end is before the start; in both cases the application, the file
    included, is left as it was. Otherwise (an end equal to the start
    included) the edit is saved: the record is given the two times, the
    comment as typed, and as its seconds the float whose value is exactly
    the number [n] of seconds from the start to the end, counted on the
    calendar second by second; for an end equal to the start that is
    [0.0]. *)
Theorem save_changes_validates :
  forall (record : nat) (new_start new_end new_comment : string) (st : app),
    (strptime_datetime new_start = None \/ strptime_datetime new_end = None ->
       save_changes json_iterencode record new_start new_end new_comment st
       = Returned st
           [showerror "Error"
              "Invalid date/time. Use YYYY-MM-DD HH:MM:SS format."])
    /\ forall dt_start dt_end : datetime,
         strptime_datetime new_start = Some dt_start ->
         strptime_datetime new_end = Some dt_end ->
         (datetime_lt dt_end dt_start = true ->
            save_changes json_iterencode record new_start new_end new_comment st
            = Returned st
                [showerror "Error" "End time cannot be before start time."])
         /\ (datetime_lt dt_end dt_start = false ->
            exists (st' : app) (n : nat) (elapsed : float),
              save_changes json_iterencode record new_start new_end
                new_comment st
              = Returned st' [showinfo "Success" "Record updated."]
              /\ Nat.iter n next_second dt_start = dt_end
              /\ float_units elapsed = Some (Z.of_nat n * 2 ^ 1074)
              /\ (dt_end = dt_start -> n = 0%nat /\ elapsed = 0%float)
              /\ data_file st'
                 = Some (joined (json_iterencode (listed_records st')))
              /\ ((record < List.length (record_objects st))%nat ->
                  let d := nth record (record_objects st') [] in
                  dict_lookup "start_time" d = Some (JStr (isoformat dt_start))
                  /\ dict_lookup "end_time" d = Some (JStr (isoformat dt_end))
                  /\ dict_lookup "elapsed" d = Some (JFloat elapsed)
                  /\ dict_lookup "comment" d = Some (JStr new_comment)))
         /\ (dt_end = dt_start -> datetime_lt dt_end dt_start = false).
Proof.
  intros record new_start new_end new_comment st. split.
  - intros [H | H]; unfold save_changes; rewrite H;
      [reflexivity | destruct (strptime_datetime new_start); reflexivity].
  - intros dt_start dt_end Hs He. split; [| split].
    + intros Hlt. unfold save_changes. now rewrite Hs, He, Hlt.
    + intros Hlt.
      destruct (accepted_span new_start new_end dt_start dt_end Hs He Hlt)
        as (n & Hn & Hbound & Hiter).
      unfold save_changes. rewrite Hs, He, Hlt.
      eexists. exists n. eexists.
      split; [reflexivity |]. rewrite Hn.
      destruct (total_seconds_whole (Z.of_nat n) ltac:(lia)) as [Hu Hz].
      split; [exact Hiter | split; [exact Hu | split; [| split]]].
      * intros Heq. rewrite Heq in Hn. unfold datetime_sub in Hn.
        assert (n = 0%nat) as -> by lia. split; reflexivity.
      * apply save_records_data_file.
      * intros Hin. cbv zeta.
        unfold save_records, set_data_file, set_record_objects.
        cbn [record_objects]. rewrite nth_update_object.
        apply Nat.ltb_lt in Hin. rewrite Hin, Nat.eqb_refl.
        apply edited_fields.
    + intros ->. apply datetime_lt_irrefl.
Qed.


(** ** The display text of a time parses back *)

Lemma length_append : forall p rest : string,
  String.length (p ++ rest) = (String.length p + String.length rest)%nat.
Proof.
  induction p as [|c p IH]; intros rest; simpl; [reflexivity | now rewrite IH].
Qed.

Lemma substring_prefix : forall p rest : string,
  substring 0 (String.length p) (p ++ rest) = p.
Proof.
  induction p as [|c p IH]; intros rest; simpl.
  - destruct rest; reflexivity.
  - now rewrite IH.
Qed.

Lemma consumed_prefix : forall p rest : string,
  consumed (p ++ rest) rest = p.
Proof.
  intros p rest. unfold consumed. rewrite length_append.
  replace (String.length p + String.length rest - String.length rest)%nat
    with (String.length p) by lia.
  apply substring_prefix.
Qed.

Lemma consumed_two : forall (a b : ascii) (rest : string),
  consumed (String a (String b rest)) rest = String a (String b "").
Proof.
  intros a b rest. exact (consumed_prefix (String a (String b "")) rest).
Qed.

Lemma consumed_four : forall (a b c d : ascii) (rest : string),
  consumed (String a (String b (String c (String d rest)))) rest
  = String a (String b (String c (String d ""))).
Proof.
  intros a b c d rest.
  exact (consumed_prefix (String a (String b (String c (String d "")))) rest).
Qed.

(** Going through the values [k, k + 1, ...] of a bounded integer. *)
Ltac enum_from v k n tac :=
  lazymatch n with
  | O => exfalso; lia
  | S ?n' =>
      let H := fresh "Hne" in
      destruct (Z.eq_dec v k) as [-> | H];
      [ tac
      | let k' := eval compute in (k + 1) in enum_from v k' n' tac ]
  end.

Ltac zfill_values :=
  repeat match goal with
         | H : context [zfill ?w ?v] |- _ =>
             let s := eval vm_compute in (zfill w v) in
             change (zfill w v) with s in H
         | |- context [zfill ?w ?v] =>
             let s := eval vm_compute in (zfill w v) in
             change (zfill w v) with s
         end.

Ltac field_case :=
  zfill_values; cbv - [consumed]; rewrite consumed_two;
  match goal with H : _ = Some _ |- _ => rewrite H end; reflexivity.

Lemma match_month : forall (A : Type) (v : Z) (rest : string) (caps : captures)
    (k : string -> captures -> option A) (r : A),
  1 <= v <= 12 ->
  k rest (("m", zfill 2 v) :: caps) = Some r ->
  re_match re_m (zfill 2 v ++ rest) caps k = Some r.
Proof.
  intros A v rest caps k r Hv Hk.
  enum_from v 1 12%nat field_case.
Qed.

Lemma match_day : forall (A : Type) (v : Z) (rest : string) (caps : captures)
    (k : string -> captures -> option A) (r : A),
  1 <= v <= 31 ->
  k rest (("d", zfill 2 v) :: caps) = Some r ->
  re_match re_d (zfill 2 v ++ rest) caps k = Some r.
Proof.
  intros A v rest caps k r Hv Hk.
  enum_from v 1 31%nat field_case.
Qed.

Lemma match_hour : forall (A : Type) (v : Z) (rest : string) (caps : captures)
    (k : string -> captures -> option A) (r : A),
  0 <= v <= 23 ->
  k rest (("H", zfill 2 v) :: caps) = Some r ->
  plus_match space (String " " (zfill 2 v ++ rest))
    (fun s' => re_match re_H s' caps k) = Some r.
Proof.
  intros A v rest caps k r Hv Hk.
  enum_from v 0 24%nat field_case.
Qed.

Lemma match_minute : forall (A : Type) (v : Z) (rest : string) (caps : captures)
    (k : string -> captures -> option A) (r : A),
  0 <= v <= 59 ->
  k rest (("M", zfill 2 v) :: caps) = Some r ->
  re_match re_M (zfill 2 v ++ rest) caps k = Some r.
Proof.
  intros A v rest caps k r Hv Hk.
  enum_from v 0 60%nat field_case.
Qed.

Lemma match_second : forall (A : Type) (v : Z) (rest : string) (caps : captures)
    (k : string -> captures -> option A) (r : A),
  0 <= v <= 59 ->
  k rest (("S", zfill 2 v) :: caps) = Some r ->
  re_match re_S (zfill 2 v ++ rest) caps k = Some r.
Proof.
  intros A v rest caps k r Hv Hk.
  enum_from v 0 60%nat field_case.
Qed.

Lemma int_of_two_digits : forall v : Z,
  0 <= v <= 59 -> int_of_digits 0 (zfill 2 v) = v.
Proof.
  intros v Hv. enum_from v 0 60%nat ltac:(vm_compute; reflexivity).
Qed.

(** The years written with four digits. *)
Definition four_digits_ok (y : Z) : bool :=
  match str_of_nonneg y with
  | String a (String b (String c (String d EmptyString))) =>
      digit a && digit b && digit c && digit d
      && (int_of_digits 0 (str_of_nonneg y) =? y)
  | _ => false
  end.

Definition four_digit_years : list Z :=
  map (fun n => 1000 + Z.of_nat n) (seq 0 (Z.to_nat 9000)).

Lemma years_ok : forallb four_digits_ok four_digit_years = true.
Proof. vm_compute. reflexivity. Qed.

Lemma year_four_digits : forall y : Z,
  1000 <= y <= 9999 -> four_digits_ok y = true.
Proof.
  intros y Hy.
  apply (proj1 (forallb_forall four_digits_ok four_digit_years) years_ok).
  unfold four_digit_years.
  apply in_map_iff. exists (Z.to_nat (y - 1000)). split; [lia |].
  apply in_seq. lia.
Qed.

Lemma match_year : forall (A : Type) (y : Z) (rest : string) (caps : captures)
    (k : string -> captures -> option A) (r : A),
  four_digits_ok y = true ->
  k rest (("Y", str_of_nonneg y) :: caps) = Some r ->
  re_match re_Y (str_of_nonneg y ++ rest) caps k = Some r
  /\ zfill 4 y = str_of_nonneg y
  /\ int_of_digits 0 (str_of_nonneg y) = y.
Proof.
  intros A y rest caps k r Hy Hk. unfold four_digits_ok in Hy.
  unfold zfill. cbv zeta.
  destruct (str_of_nonneg y) as [|a [|b [|c [|d [|? ?]]]]];
    try discriminate Hy.
  apply andb_true_iff in Hy as [Hy Hint].
  apply andb_true_iff in Hy as [Hy Hd].
  apply andb_true_iff in Hy as [Hy Hc].
  apply andb_true_iff in Hy as [Ha Hb].
  split; [| split].
  - unfold re_Y. cbn [re_match append]. rewrite Ha, Hb, Hc, Hd.
    rewrite consumed_four. exact Hk.
  - reflexivity.
  - now apply Z.eqb_eq.
Qed.

Definition whole_second (dt : datetime) : datetime :=
  mkDatetime (year dt) (month dt) (day dt) (hour dt) (minute dt) (second dt) 0.

Lemma display_matches : forall (y m d h mi s : Z),
  1000 <= y <= 9999 -> 1 <= m <= 12 -> 1 <= d <= 31 ->
  0 <= h <= 23 -> 0 <= mi <= 59 -> 0 <= s <= 59 ->
  strptime_match re_datetime
    (str_of_nonneg y ++ "-" ++ zfill 2 m ++ "-" ++ zfill 2 d ++ " "
     ++ zfill 2 h ++ ":" ++ zfill 2 mi ++ ":" ++ zfill 2 s)%string
  = Some [("S", zfill 2 s); ("M", zfill 2 mi); ("H", zfill 2 h);
          ("d", zfill 2 d); ("m", zfill 2 m); ("Y", str_of_nonneg y)].
Proof.
  intros y m d h mi s Hy Hm Hd Hh Hmi Hs.
  unfold strptime_match.
  match goal with
  | |- match ?x with _ => _ end = _ =>
      assert (E : x = Some (EmptyString,
                     [("S", zfill 2 s); ("M", zfill 2 mi); ("H", zfill 2 h);
                      ("d", zfill 2 d); ("m", zfill 2 m);
                      ("Y", str_of_nonneg y)]))
  end.
  { unfold re_datetime, re_date. cbn [re_match].
    apply match_year; [now apply year_four_digits |].
    cbn [re_match lit append Ascii.eqb Bool.eqb].
    apply match_month; [exact Hm |].
    cbn [re_match lit append Ascii.eqb Bool.eqb].
    apply match_day; [exact Hd |].
    cbn [re_match lit append Ascii.eqb Bool.eqb].
    apply match_hour; [exact Hh |].
    cbn [re_match lit append Ascii.eqb Bool.eqb].
    apply match_minute; [exact Hmi |].
    cbn [re_match lit append Ascii.eqb Bool.eqb].
    replace (zfill 2 s) with (zfill 2 s ++ "")%string at 1
      by apply append_empty_r.
    apply match_second; [exact Hs |]. reflexivity. }
  rewrite E. reflexivity.
Qed.

Lemma valid_whole_second : forall dt : datetime,
  valid_datetime dt = true -> valid_datetime (whole_second dt) = true.
Proof.
  intros [y m d h mi s us]. unfold valid_datetime, whole_second.
  cbn [year month day hour minute second microsecond].
  intros H. apply andb_true_iff in H as [Hd Ht].
  apply andb_true_iff. split; [exact Hd |].
  apply valid_time_bounds in Ht. unfold valid_time.
  repeat (apply andb_true_iff; split); apply Z.leb_le; lia.
Qed.

(** The text shown for a valid time from the year 1000 on parses back, with
    the format of the edit dialog, to the same time without its
    microseconds, on either kind of C library. *)
Theorem display_parses_back :
  forall (padded_year : bool) (dt : datetime),
    valid_datetime dt = true ->
    1000 <= year dt ->
    strptime_datetime (strftime_display padded_year dt)
    = Some (whole_second dt).
Proof.
  intros padded_year dt Hv Hy.
  pose proof (valid_whole_second dt Hv) as Hw.
  destruct dt as [y m d h mi s us].
  unfold whole_second in *.
  cbn [year month day hour minute second microsecond] in *.
  pose proof Hv as Hb. unfold valid_datetime in Hb.
  cbn [year month day hour minute second microsecond] in Hb.
  apply andb_true_iff in Hb as [Hd Ht].
  apply valid_date_bounds in Hd as (Hy' & Hm & Hd).
  apply valid_time_bounds in Ht as (Hh & Hmi & Hs & _).
  assert (Hd31 : 1 <= d <= 31).
  { unfold days_in_month in Hd.
    destruct (m =? 2); [destruct (is_leap y) |];
      try destruct ((m =? 4) || (m =? 6) || (m =? 9) || (m =? 11))%bool; lia. }
  assert (Hy4 : four_digits_ok y = true) by (apply year_four_digits; lia).
  destruct (match_year unit y "" [] (fun _ _ => Some tt) tt Hy4 eq_refl)
    as (_ & Hz & Hint).
  unfold strptime_datetime, strftime_display.
  cbn [year month day hour minute second microsecond].
  assert (Htext : (if padded_year then zfill 4 y else str_of_nonneg y)
                  = str_of_nonneg y) by (destruct padded_year; [exact Hz | reflexivity]).
  rewrite Htext.
  rewrite (display_matches y m d h mi s ltac:(lia) Hm Hd31 Hh Hmi Hs).
  unfold group_int.
  cbn [capture String.eqb Ascii.eqb Bool.eqb].
  rewrite Hint.
  rewrite !int_of_two_digits by lia.
  now rewrite Hw.
Qed.

(** X17. [iso_to_display] on a stored time that parses gives a text that the
    edit dialog's format reads back as the same time, microseconds
    dropped; a text that does not parse, and a value that is not a string,
    are given back as they are. *)
Theorem iso_to_display_round_trip :
  forall (padded_year : bool) (v : json),
    (forall (s : string) (dt : datetime),
        v = JStr s ->
        fromisoformat s = Some dt ->
        valid_datetime dt = true ->
        1000 <= year dt ->
        exists text : string,
          iso_to_display fromisoformat padded_year v = JStr text
          /\ strptime_datetime text = Some (whole_second dt))
    /\ (forall s : string,
          v = JStr s -> fromisoformat s = None ->
          iso_to_display fromisoformat padded_year v = v)
    /\ ((forall s : string, v <> JStr s) ->
        iso_to_display fromisoformat padded_year v = v).
Proof.
  intros padded_year v. split; [| split].
  - intros s dt -> Hs Hv Hy. unfold iso_to_display. rewrite Hs.
    eexists. split; [reflexivity |]. now apply display_parses_back.
  - intros s -> Hs. unfold iso_to_display. now rewrite Hs.
  - intros Hn. destruct v; try reflexivity. now elim (Hn s).
Qed.

End Properties.

(** * The JSON text of a value reads back as the value *)

(** ** The matcher and the text after the match *)

Lemma plus_match_ext : forall (A : Type) (p : ascii -> bool) (s : string)
    (k k' : string -> option A),
  (forall s', k s' = k' s') -> plus_match p s k = plus_match p s k'.
Proof.
  intros A p s k k' H. induction s as [|c s IH]; cbn [plus_match];
    [reflexivity |].
  now rewrite IH, H.
Qed.

Lemma re_match_ext : forall (A : Type) (r : re) (s : string) (caps : captures)
    (k k' : string -> captures -> option A),
  (forall s' caps', k s' caps' = k' s' caps') ->
  re_match r s caps k = re_match r s caps k'.
Proof.
  intros A r. induction r as [|p|a IHa b IHb|a IHa b IHb|p|name r IH];
    intros s caps k k' H; cbn [re_match].
  - apply H.
  - destruct s as [|c s]; [reflexivity |]. now rewrite H.
  - apply IHa. intros s' caps'. now apply IHb.
  - rewrite (IHa s caps k k' H), (IHb s caps k k' H). reflexivity.
  - apply plus_match_ext. intros s'. apply H.
  - apply IH. intros s' caps'. apply H.
Qed.

Lemma plus_match_map : forall (A B : Type) (h : A -> B) (p : ascii -> bool)
    (s : string) (k : string -> option A),
  plus_match p s (fun s' => option_map h (k s'))
  = option_map h (plus_match p s k).
Proof.
  intros A B h p s k. induction s as [|c s IH]; cbn [plus_match];
    [reflexivity |].
  destruct (p c); [| reflexivity]. rewrite IH.
  destruct (plus_match p s k); reflexivity.
Qed.

Lemma re_match_map : forall (A B : Type) (h : A -> B) (r : re) (s : string)
    (caps : captures) (k : string -> captures -> option A),
  re_match r s caps (fun s' caps' => option_map h (k s' caps'))
  = option_map h (re_match r s caps k).
Proof.
  intros A B h r. induction r as [|p|a IHa b IHb|a IHa b IHb|p|name r IH];
    intros s caps k; cbn [re_match].
  - reflexivity.
  - destruct s as [|c s]; [reflexivity |]. destruct (p c); reflexivity.
  - rewrite <- IHa. apply re_match_ext. intros s' caps'. apply IHb.
  - rewrite IHa, IHb. destruct (re_match a s caps k); reflexivity.
  - apply plus_match_map.
  - rewrite <- IH. reflexivity.
Qed.

(** No character class of the pattern takes the character. *)
Fixpoint rejects (c : ascii) (r : re) : bool :=
  match r with
  | Eps => true
  | Cls p => negb (p c)
  | Cat a b => rejects c a && rejects c b
  | Alt a b => rejects c a && rejects c b
  | Plus p => negb (p c)
  | Grp _ r' => rejects c r'
  end.

Lemma substring_append : forall (n : nat) (s t : string),
  (n <= String.length s)%nat ->
  substring 0 n (s ++ t)%string = substring 0 n s.
Proof.
  induction n as [|n IH]; intros s t H.
  - destruct s; destruct t; reflexivity.
  - destruct s as [|c s]; [simpl in H; lia |].
    cbn [append substring]. f_equal. apply IH. simpl in H. lia.
Qed.

Lemma consumed_append : forall s s' t : string,
  consumed (s ++ t)%string (s' ++ t)%string = consumed s s'.
Proof.
  intros s s' t. unfold consumed. rewrite !length_append.
  replace (String.length s + String.length t
           - (String.length s' + String.length t))%nat
    with (String.length s - String.length s')%nat by lia.
  apply substring_append. lia.
Qed.

Lemma plus_match_frame : forall (A : Type) (p : ascii -> bool) (c : ascii)
    (tail : string) (s : string) (k : string -> option A),
  p c = false ->
  plus_match p (s ++ String c tail)%string k
  = plus_match p s (fun s' => k (s' ++ String c tail)%string).
Proof.
  intros A p c tail s k Hc. induction s as [|a s IH].
  - cbn [append plus_match]. now rewrite Hc.
  - cbn [append plus_match]. destruct (p a); [| reflexivity].
    now rewrite IH.
Qed.

(** A match that stops before a character the pattern does not take is
    the match of the text before it. *)
Lemma re_match_frame : forall (A : Type) (c : ascii) (tail : string) (r : re),
  rejects c r = true ->
  forall (s : string) (caps : captures) (k : string -> captures -> option A),
    re_match r (s ++ String c tail)%string caps k
    = re_match r s caps
        (fun s' caps' => k (s' ++ String c tail)%string caps').
Proof.
  intros A c tail r.
  induction r as [|p|a IHa b IHb|a IHa b IHb|p|name r IH];
    cbn [rejects]; intros Hr s caps k; cbn [re_match].
  - reflexivity.
  - apply negb_true_iff in Hr. destruct s as [|x s]; cbn [append].
    + now rewrite Hr.
    + reflexivity.
  - apply andb_true_iff in Hr as [Ha Hb]. rewrite (IHa Ha).
    apply re_match_ext. intros s' caps'. apply (IHb Hb).
  - apply andb_true_iff in Hr as [Ha Hb]. now rewrite (IHa Ha), (IHb Hb).
  - apply negb_true_iff in Hr. now apply plus_match_frame.
  - rewrite (IH Hr). apply re_match_ext. intros s' caps'.
    now rewrite consumed_append.
Qed.

(** The scanner of numbers stops before a comma and before a line feed. *)
Definition ends_number (rest : string) : bool :=
  match rest with
  | EmptyString => true
  | String c _ => (code c =? 44) || (code c =? 10)
  end.

Lemma scan_number_frame : forall (text rest : string) (v : json),
  ends_number rest = true ->
  Json.scan_number text = Some (v, "") ->
  Json.scan_number (text ++ rest)%string = Some (v, rest).
Proof.
  intros text rest v Hrest H. destruct rest as [|c tail].
  - now rewrite append_empty_r.
  - unfold Json.scan_number in *.
    assert (Hc : rejects c Json.re_number = true).
    { cbn [ends_number] in Hrest. apply orb_true_iff in Hrest as [E | E];
        apply Z.eqb_eq in E;
        assert (c = ascii_of_nat (Z.to_nat (code c))) as ->
          by (unfold code; now rewrite Nat2Z.id, ascii_nat_embedding);
        rewrite E; vm_compute; reflexivity. }
    rewrite (re_match_frame _ c tail Json.re_number Hc).
    change (fun (s' : string) (caps' : captures) =>
              Some (Json.number_of_groups caps', (s' ++ String c tail)%string))
      with (fun (s' : string) (caps' : captures) =>
              option_map (fun vr : json * string =>
                            (fst vr, (snd vr ++ String c tail)%string))
                ((fun rest caps => Some (Json.number_of_groups caps, rest))
                   s' caps')).
    rewrite re_match_map, H. reflexivity.
Qed.

(** ** Integers *)

Fixpoint all_digits (s : string) : bool :=
  match s with
  | EmptyString => true
  | String c s' => digit c && all_digits s'
  end.

Lemma code_ascii_of : forall k : Z,
  0 <= k < 256 -> code (ascii_of_nat (Z.to_nat k)) = k.
Proof.
  intros k Hk. unfold code. rewrite nat_ascii_embedding by lia. lia.
Qed.

Lemma ascii_of_code : forall c : ascii, ascii_of_nat (Z.to_nat (code c)) = c.
Proof.
  intros c. unfold code. now rewrite Nat2Z.id, ascii_nat_embedding.
Qed.

Lemma code_bounds : forall c : ascii, 0 <= code c < 256.
Proof.
  intros c. unfold code. pose proof (nat_ascii_bounded c). lia.
Qed.

Lemma digit_code : forall c : ascii,
  digit c = true <-> 48 <= code c <= 57.
Proof.
  intros c. unfold digit, in_range.
  change (code "0") with 48. change (code "9") with 57.
  rewrite andb_true_iff, !Z.leb_le. reflexivity.
Qed.

Lemma int_of_digits_append : forall (x y : string) (a : Z),
  int_of_digits a (x ++ y)%string = int_of_digits (int_of_digits a x) y.
Proof.
  induction x as [|c x IH]; intros y a; cbn [append int_of_digits];
    [reflexivity |].
  destruct (digit c); apply IH.
Qed.

Lemma all_digits_append : forall x y : string,
  all_digits (x ++ y)%string = all_digits x && all_digits y.
Proof.
  induction x as [|c x IH]; intros y; cbn [append all_digits];
    [reflexivity |].
  now rewrite IH, andb_assoc.
Qed.

(** The first character of a text, as a code; [-1] for the empty text. *)
Definition first_code (s : string) : Z :=
  match s with
  | EmptyString => -1
  | String c _ => code c
  end.

Lemma first_code_append : forall x y : string,
  x <> ""%string -> first_code (x ++ y)%string = first_code x.
Proof.
  intros [|c x] y H; [now elim H | reflexivity].
Qed.

Lemma digits_fuel_step : forall (fuel : nat) (n : Z) (acc : string),
  digits_fuel (S fuel) n acc
  = if n / 10 =? 0
    then String (ascii_of_nat (Z.to_nat (48 + n mod 10))) acc
    else digits_fuel fuel (n / 10)
           (String (ascii_of_nat (Z.to_nat (48 + n mod 10))) acc).
Proof. reflexivity. Qed.

(** The decimal digits of a number, as [digits_fuel] writes them in front
    of what is written already. *)
Lemma digits_fuel_spec : forall (fuel : nat) (n : Z) (acc : string),
  0 <= n < 2 ^ (Z.of_nat fuel + 1) ->
  exists ds : string,
    digits_fuel (S fuel) n acc = (ds ++ acc)%string
    /\ ds <> ""%string
    /\ all_digits ds = true
    /\ (forall a : Z,
          int_of_digits a ds = a * 10 ^ Z.of_nat (String.length ds) + n)
    /\ (0 < n -> 49 <= first_code ds <= 57)
    /\ (n = 0 -> ds = "0"%string).
Proof.
  induction fuel as [|fuel IH]; intros n acc Hn; rewrite digits_fuel_step.
  - cbn [digits_fuel]. cbn [Z.of_nat] in Hn. change (2 ^ (0 + 1)) with 2 in Hn.
    assert (Hcases : n = 0 \/ n = 1) by lia.
    destruct Hcases as [-> | ->].
    + exists "0"%string. repeat split; try reflexivity; try discriminate;
        try lia. intros a.
      change (int_of_digits a "0") with (10 * a + (48 - 48)).
      change (10 ^ Z.of_nat (String.length "0")) with 10. lia.
    + exists "1"%string. repeat split; try reflexivity; try discriminate;
        try lia. intros a.
      change (int_of_digits a "1") with (10 * a + (49 - 48)).
      change (10 ^ Z.of_nat (String.length "1")) with 10. lia.
  - set (d := ascii_of_nat (Z.to_nat (48 + n mod 10))).
    pose proof (Z.mod_pos_bound n 10 ltac:(lia)) as Hmod.
    pose proof (Z.div_mod n 10 ltac:(lia)) as Hdm.
    assert (Hcode : code d = 48 + n mod 10)
      by (subst d; apply code_ascii_of; lia).
    assert (Hd : digit d = true) by (apply digit_code; lia).
    fold d. destruct (Z.eqb_spec (n / 10) 0) as [Hz | Hnz].
    + exists (String d ""). cbn [append all_digits String.length first_code].
      rewrite Hd. repeat split; try reflexivity; try discriminate.
      * intros a. cbn [int_of_digits]. rewrite Hd, Hcode.
        change (10 ^ Z.of_nat 1) with 10. lia.
      * lia.
      * lia.
      * intros ->. subst d. reflexivity.
    + assert (Hq : 0 <= n / 10 < 2 ^ (Z.of_nat fuel + 1)).
      { split; [apply Z.div_pos; lia |].
        apply Z.div_lt_upper_bound; [lia |].
        rewrite Nat2Z.inj_succ in Hn.
        replace (Z.succ (Z.of_nat fuel) + 1) with (Z.of_nat fuel + 1 + 1)
          in Hn by lia.
        rewrite Z.pow_add_r in Hn by lia. change (2 ^ 1) with 2 in Hn. lia. }
      destruct (IH (n / 10) (String d acc) Hq)
        as (ds & Heq & Hne & Hall & Hval & Hfirst & _).
      exists (ds ++ String d "")%string. rewrite Heq.
      split; [now rewrite append_assoc |].
      split; [destruct ds; [now elim Hne | discriminate] |].
      split; [rewrite all_digits_append, Hall; cbn [all_digits andb];
              now rewrite Hd |].
      split; [| split].
      * intros a. rewrite int_of_digits_append, Hval.
        cbn [int_of_digits]. rewrite Hd, Hcode, length_append.
        cbn [String.length]. rewrite Nat2Z.inj_add. change (Z.of_nat 1) with 1.
        rewrite Z.pow_add_r by lia. change (10 ^ 1) with 10. lia.
      * intros _. rewrite first_code_append by exact Hne.
        apply Hfirst. assert (0 <= n / 10) by (apply Z.div_pos; lia). lia.
      * intros ->. now elim Hnz.
Qed.

Lemma str_of_nonneg_spec : forall n : Z,
  0 <= n ->
  str_of_nonneg n <> ""%string
  /\ all_digits (str_of_nonneg n) = true
  /\ int_of_digits 0 (str_of_nonneg n) = n
  /\ (0 < n -> 49 <= first_code (str_of_nonneg n) <= 57)
  /\ (n = 0 -> str_of_nonneg n = "0"%string).
Proof.
  intros n Hn. unfold str_of_nonneg.
  assert (Hb : 0 <= n < 2 ^ (Z.of_nat (Z.to_nat (Z.log2 n)) + 1)).
  { split; [exact Hn |]. pose proof (Z.log2_nonneg n).
    rewrite Z2Nat.id by lia.
    destruct (Z.eq_dec n 0) as [-> | Hne]; [reflexivity |].
    replace (Z.log2 n + 1) with (Z.succ (Z.log2 n)) by lia.
    apply Z.log2_spec. lia. }
  destruct (digits_fuel_spec (Z.to_nat (Z.log2 n)) n "" Hb)
    as (ds & Heq & Hne & Hall & Hval & Hfirst & Hzero).
  rewrite Heq, append_empty_r.
  split; [exact Hne | split; [exact Hall | split; [| split]]].
  - rewrite Hval. lia.
  - exact Hfirst.
  - exact Hzero.
Qed.

Lemma plus_match_all_digits : forall (A : Type) (s : string)
    (k : string -> option A) (x : A),
  s <> ""%string -> all_digits s = true -> k ""%string = Some x ->
  plus_match digit s k = Some x.
Proof.
  intros A s k x. induction s as [|c s IH]; intros Hne Hall Hk;
    [now elim Hne |].
  cbn [all_digits] in Hall. apply andb_true_iff in Hall as [Hc Hs].
  cbn [plus_match]. rewrite Hc.
  destruct s as [|c' s'].
  - cbn [plus_match]. exact Hk.
  - rewrite IH; [reflexivity | discriminate | exact Hs | exact Hk].
Qed.

Lemma eqb_code : forall (a c : ascii),
  Ascii.eqb a c = (code a =? code c).
Proof.
  intros a c. destruct (Ascii.eqb_spec a c) as [-> | Hne].
  - now rewrite Z.eqb_refl.
  - symmetry. apply Z.eqb_neq. intros H. apply Hne.
    rewrite <- (ascii_of_code a), <- (ascii_of_code c). now rewrite H.
Qed.

(** The integer part of the number pattern, without the sign. *)
Definition re_int_core : re :=
  Alt (lit "0") (Cat (Cls (in_range "1" "9")) (opt (Plus digit))).

Lemma re_int_core_match : forall (A : Type) (c : ascii) (ds : string)
    (caps : captures) (k : string -> captures -> option A) (x : A),
  49 <= code c <= 57 -> all_digits ds = true ->
  k ""%string caps = Some x ->
  re_match re_int_core (String c ds) caps k = Some x.
Proof.
  intros A c ds caps k x Hc Hds Hk. unfold re_int_core, lit, opt.
  cbn [re_match]. rewrite (eqb_code "0" c). change (code "0") with 48.
  assert (E : (48 =? code c) = false) by (apply Z.eqb_neq; lia).
  rewrite E. unfold in_range. change (code "1") with 49.
  change (code "9") with 57.
  assert (E1 : (49 <=? code c) && (code c <=? 57) = true)
    by (apply andb_true_iff; split; apply Z.leb_le; lia).
  rewrite E1. destruct ds as [|d ds].
  - cbn [plus_match]. exact Hk.
  - rewrite (plus_match_all_digits A (String d ds)
               (fun s' => k s' caps) x); [reflexivity | discriminate | exact Hds | exact Hk].
Qed.

Lemma consumed_all : forall s : string, consumed s "" = s.
Proof.
  intros s. rewrite <- (append_empty_r s) at 1. apply consumed_prefix.
Qed.

Lemma index_no_minus : forall s : string,
  all_digits s = true -> index 0 "-" s = None.
Proof.
  induction s as [|c s IH]; intros H; [reflexivity |].
  cbn [all_digits] in H. apply andb_true_iff in H as [Hc Hs].
  apply digit_code in Hc. cbn [index prefix].
  destruct (ascii_dec "-" c) as [<- | Hne].
  - change (code "-") with 45 in Hc. lia.
  - now rewrite (IH Hs).
Qed.

Lemma scan_number_digits : forall (c : ascii) (ds : string),
  49 <= code c <= 57 -> all_digits ds = true ->
  Json.scan_number (String c ds)
  = Some (JInt (int_of_digits 0 (String c ds)), ""%string)
  /\ Json.scan_number (String "-" (String c ds))
     = Some (JInt (- int_of_digits 0 (String c ds)), ""%string).
Proof.
  intros c ds Hc Hds.
  assert (Hall : all_digits (String c ds) = true).
  { cbn [all_digits]. rewrite Hds, andb_true_r. apply digit_code. lia. }
  assert (Hminus : Ascii.eqb "-" c = false).
  { rewrite eqb_code. change (code "-") with 45. apply Z.eqb_neq. lia. }
  unfold Json.scan_number, Json.re_number.
  fold re_int_core. split.
  - unfold opt at 1, lit at 1. cbn [re_match]. rewrite Hminus.
    rewrite (re_int_core_match _ c ds _ _
               (JInt (int_of_digits 0 (String c ds)), ""%string) Hc Hds);
      [reflexivity |].
    rewrite consumed_all. cbn [re_match opt lit].
    unfold Json.number_of_groups. cbn [capture String.eqb Ascii.eqb Bool.eqb].
    unfold Json.has_minus. now rewrite (index_no_minus _ Hall).
  - unfold opt at 1, lit at 1. cbn [re_match].
    change (Ascii.eqb "-" "-") with true. cbv iota.
    rewrite (re_int_core_match _ c ds _ _
               (JInt (- int_of_digits 0 (String c ds)), ""%string) Hc Hds);
      [reflexivity |].
    rewrite consumed_all. cbn [re_match opt lit].
    unfold Json.number_of_groups. cbn [capture String.eqb Ascii.eqb Bool.eqb].
    unfold Json.has_minus. cbn [index prefix].
    destruct (ascii_dec "-" "-") as [_ | Hne]; [| now elim Hne].
    destruct (String c ds); cbn [prefix]; cbn [int_of_digits];
      change (digit "-") with false; reflexivity.
Qed.

(** An integer's text reads back as the integer. *)
Lemma scan_number_intstr : forall z : Z,
  Json.scan_number (Json.intstr z) = Some (JInt z, ""%string).
Proof.
  intros z. unfold Json.intstr.
  destruct (Z.ltb_spec z 0) as [Hneg | Hpos].
  - destruct (str_of_nonneg_spec (- z) ltac:(lia))
      as (Hne & Hall & Hval & Hfirst & _).
    destruct (str_of_nonneg (- z)) as [|c ds] eqn:E; [now elim Hne |].
    cbn [all_digits] in Hall. apply andb_true_iff in Hall as [_ Hds].
    cbn [first_code] in Hfirst.
    destruct (scan_number_digits c ds (Hfirst ltac:(lia)) Hds) as [_ H].
    cbn [append]. rewrite H, Hval. do 3 f_equal. lia.
  - destruct (Z.eq_dec z 0) as [-> | Hnz]; [reflexivity |].
    destruct (str_of_nonneg_spec z ltac:(lia))
      as (Hne & Hall & Hval & Hfirst & _).
    destruct (str_of_nonneg z) as [|c ds] eqn:E; [now elim Hne |].
    cbn [all_digits] in Hall. apply andb_true_iff in Hall as [_ Hds].
    cbn [first_code] in Hfirst.
    destruct (scan_number_digits c ds (Hfirst ltac:(lia)) Hds) as [H _].
    rewrite H, Hval. reflexivity.
Qed.

(** ** Strings *)

(** One step of the scanner of strings reads what [escape_char] wrote for
    one character. *)
Lemma scan_string_escape_char : forall (c : ascii) (fuel : nat) (s : string),
  Json.scan_string (S fuel) (Json.escape_char c ++ s)%string
  = match Json.scan_string fuel s with
    | Some (text, rest) => Some (String c text, rest)
    | None => None
    end.
Proof.
  intros c fuel s.
  destruct c as [[] [] [] [] [] [] [] []]; reflexivity.
Qed.

Lemma length_escape_char : forall c : ascii,
  (1 <= String.length (Json.escape_char c))%nat.
Proof.
  intros c. destruct c as [[] [] [] [] [] [] [] []]; vm_compute; lia.
Qed.

Lemma length_escape : forall s : string,
  (String.length s <= String.length (Json.escape s))%nat.
Proof.
  induction s as [|c s IH]; [reflexivity |].
  cbn [Json.escape String.length]. rewrite length_append.
  pose proof (length_escape_char c). lia.
Qed.

(** The scanner of strings reads back what [escape] wrote, up to the
    closing quote. *)
Lemma scan_string_escape : forall (s : string) (fuel : nat) (rest : string),
  (String.length s < fuel)%nat ->
  Json.scan_string fuel (Json.escape s ++ Json.quote ++ rest)%string
  = Some (s, rest).
Proof.
  induction s as [|c s IH]; intros fuel rest Hf;
    (destruct fuel as [|fuel]; [simpl in Hf; lia |]).
  - reflexivity.
  - cbn [Json.escape]. rewrite append_assoc, scan_string_escape_char.
    rewrite IH by (simpl in Hf; lia). reflexivity.
Qed.

Lemma string_body_escape : forall s rest : string,
  Json.string_body (Json.escape s ++ Json.quote ++ rest)%string
  = Some (s, rest).
Proof.
  intros s rest. unfold Json.string_body. apply scan_string_escape.
  rewrite length_append. pose proof (length_escape s). lia.
Qed.

(** ** White space *)

Lemma skip_ws_spaces : forall (k : nat) (s : string),
  Json.skip_ws (Json.spaces k ++ s)%string = Json.skip_ws s.
Proof.
  induction k as [|k IH]; intros s; [reflexivity |].
  cbn [Json.spaces append Json.skip_ws].
  change (Json.ws " ") with true. cbv iota. apply IH.
Qed.

Lemma skip_ws_newline : forall (level : nat) (s : string),
  Json.skip_ws (Json.newline_indent level ++ s)%string = Json.skip_ws s.
Proof.
  intros level s. unfold Json.newline_indent.
  cbn [append Json.skip_ws].
  change (Json.ws (ascii_of_nat 10)) with true. cbv iota.
  apply skip_ws_spaces.
Qed.

(** A text that does not start with white space. *)
Definition solid (s : string) : bool :=
  match s with
  | EmptyString => true
  | String c _ => negb (Json.ws c)
  end.

Lemma skip_ws_solid : forall s : string, solid s = true -> Json.skip_ws s = s.
Proof.
  intros [|c s] H; [reflexivity |]. cbn [solid] in H.
  apply negb_true_iff in H. cbn [Json.skip_ws]. now rewrite H.
Qed.

(** ** Numbers and constants in their place *)

Lemma scan_number_frame_any : forall (text rest : string),
  ends_number rest = true ->
  Json.scan_number (text ++ rest)%string
  = option_map (fun vr : json * string => (fst vr, (snd vr ++ rest)%string))
      (Json.scan_number text).
Proof.
  intros text rest Hrest. destruct rest as [|c tail].
  - rewrite append_empty_r. destruct (Json.scan_number text) as [[v r]|];
      [| reflexivity].
    cbn [option_map fst snd]. now rewrite append_empty_r.
  - unfold Json.scan_number.
    assert (Hc : rejects c Json.re_number = true).
    { cbn [ends_number] in Hrest. apply orb_true_iff in Hrest as [E | E];
        apply Z.eqb_eq in E; rewrite <- (ascii_of_code c), E;
        vm_compute; reflexivity. }
    rewrite (re_match_frame _ c tail Json.re_number Hc).
    change (fun (s' : string) (caps' : captures) =>
              Some (Json.number_of_groups caps', (s' ++ String c tail)%string))
      with (fun (s' : string) (caps' : captures) =>
              option_map (fun vr : json * string =>
                            (fst vr, (snd vr ++ String c tail)%string))
                ((fun rest caps => Some (Json.number_of_groups caps, rest))
                   s' caps')).
    now rewrite re_match_map.
Qed.

(** What the scanner of numbers takes starts with a minus sign or a
    digit. *)
Definition number_start (c : ascii) : bool :=
  (code c =? 45) || ((48 <=? code c) && (code c <=? 57)).

Lemma scan_number_start : forall (c : ascii) (s : string),
  number_start c = false -> Json.scan_number (String c s) = None.
Proof.
  intros c s H. unfold number_start in H.
  apply orb_false_iff in H as [Hm Hd].
  assert (E1 : Ascii.eqb "-" c = false)
    by (rewrite eqb_code; change (code "-") with 45;
        now rewrite Z.eqb_sym).
  assert (Hd' : ~ 48 <= code c <= 57).
  { intros [H1 H2]. apply Z.leb_le in H1, H2. rewrite H1, H2 in Hd.
    discriminate Hd. }
  assert (E2 : Ascii.eqb "0" c = false)
    by (rewrite eqb_code; change (code "0") with 48; apply Z.eqb_neq; lia).
  assert (E3 : in_range "1" "9" c = false).
  { unfold in_range. change (code "1") with 49. change (code "9") with 57.
    apply andb_false_iff.
    destruct (Z.leb_spec 49 (code c)); [right | now left].
    apply Z.leb_gt. lia. }
  unfold Json.scan_number, Json.re_number, opt, lit.
  cbn [re_match]. now rewrite E1, E2, E3.
Qed.

Lemma scan_number_empty : Json.scan_number "" = None.
Proof. reflexivity. Qed.

Lemma scan_number_some_start : forall (s : string) (x : json * string),
  Json.scan_number s = Some x ->
  exists (c : ascii) (s' : string), s = String c s' /\ number_start c = true.
Proof.
  intros [|c s'] x H; [discriminate H |].
  exists c, s'. split; [reflexivity |].
  destruct (number_start c) eqn:E; [reflexivity |].
  now rewrite (scan_number_start c s' E) in H.
Qed.

Lemma scan_keyword_number_start : forall (c : ascii) (s : string),
  number_start c = true -> Json.scan_keyword (String c s) = None.
Proof.
  intros c s H. unfold number_start in H.
  assert (Hc : code c = 45 \/ 48 <= code c <= 57).
  { apply orb_true_iff in H as [H | H];
      [left; now apply Z.eqb_eq |
       right; apply andb_true_iff in H as [H1 H2];
       apply Z.leb_le in H1; apply Z.leb_le in H2; lia]. }
  assert (En : Ascii.eqb "n" c = false)
    by (rewrite eqb_code; change (code "n") with 110; apply Z.eqb_neq; lia).
  assert (Et : Ascii.eqb "t" c = false)
    by (rewrite eqb_code; change (code "t") with 116; apply Z.eqb_neq; lia).
  assert (Ef : Ascii.eqb "f" c = false)
    by (rewrite eqb_code; change (code "f") with 102; apply Z.eqb_neq; lia).
  unfold Json.scan_keyword. cbn [Json.after]. now rewrite En, Et, Ef.
Qed.

(** A float reads back: the scanner of numbers reads its text as the
    float. The texts of the two zeros, of the infinities and of NaN are
    fixed; the condition is on the other floats. *)
Definition reads_back (f : float) : Prop :=
  match Prim2SF f with
  | S754_finite _ _ _ =>
      Json.scan_number (Json.floatstr f) = Some (JFloat f, ""%string)
  | _ => True
  end.

(** The scalar values in their place: before a comma, a line feed, or the
    end of the text. *)
Lemma scan_atom_intstr : forall (z : Z) (rest : string),
  ends_number rest = true ->
  Json.scan_atom (Json.intstr z ++ rest)%string = Some (JInt z, rest).
Proof.
  intros z rest Hrest. unfold Json.scan_atom.
  pose proof (scan_number_intstr z) as H.
  destruct (scan_number_some_start _ _ H) as (c & s' & Hs & Hc).
  rewrite Hs at 1. cbn [append].
  rewrite (scan_keyword_number_start c _ Hc).
  rewrite (scan_number_frame _ _ _ Hrest H). reflexivity.
Qed.

Lemma float_of_spec : forall f : float, f = SF2Prim (Prim2SF f).
Proof. intros f. now rewrite SF2Prim_Prim2SF. Qed.

Lemma scan_atom_floatstr : forall (f : float) (rest : string),
  reads_back f ->
  ends_number rest = true ->
  Json.scan_atom (Json.floatstr f ++ rest)%string = Some (JFloat f, rest).
Proof.
  intros f rest Hf Hrest. unfold reads_back in Hf.
  unfold Json.scan_atom.
  destruct (Prim2SF f) as [s | s | | s m e] eqn:E.
  - (* zeros *)
    assert (Hz : f = if s then neg_zero else zero)
      by (rewrite (float_of_spec f), E; destruct s; reflexivity).
    unfold Json.floatstr. rewrite E. destruct s.
    + change (Json.scan_keyword ("-0.0" ++ rest)%string) with (@None (json * string)).
      rewrite (scan_number_frame "-0.0" rest (JFloat neg_zero) Hrest eq_refl).
      now rewrite Hz.
    + change (Json.scan_keyword ("0.0" ++ rest)%string) with (@None (json * string)).
      rewrite (scan_number_frame "0.0" rest (JFloat zero) Hrest eq_refl).
      now rewrite Hz.
  - (* infinities *)
    assert (Hz : f = if s then neg_infinity else infinity)
      by (rewrite (float_of_spec f), E; destruct s; reflexivity).
    unfold Json.floatstr. rewrite E. destruct s.
    + change (Json.scan_keyword ("-Infinity" ++ rest)%string)
        with (@None (json * string)).
      rewrite (scan_number_frame_any "-Infinity" rest Hrest).
      change (Json.scan_number "-Infinity") with (@None (json * string)).
      cbn [option_map]. rewrite Hz. reflexivity.
    + change (Json.scan_keyword ("Infinity" ++ rest)%string)
        with (@None (json * string)).
      rewrite (scan_number_frame_any "Infinity" rest Hrest).
      change (Json.scan_number "Infinity") with (@None (json * string)).
      cbn [option_map]. rewrite Hz. reflexivity.
  - assert (Hz : f = nan) by (rewrite (float_of_spec f), E; reflexivity).
    unfold Json.floatstr. rewrite E.
    change (Json.scan_keyword ("NaN" ++ rest)%string)
      with (@None (json * string)).
    rewrite (scan_number_frame_any "NaN" rest Hrest).
    change (Json.scan_number "NaN") with (@None (json * string)).
    cbn [option_map]. rewrite Hz. reflexivity.
  - destruct (scan_number_some_start _ _ Hf) as (c & s' & Hs & Hc).
    rewrite Hs at 1. cbn [append].
    rewrite (scan_keyword_number_start c _ Hc).
    rewrite (scan_number_frame _ _ _ Hrest Hf). reflexivity.
Qed.

(** ** The text of a value *)

Definition dumps_at (level : nat) (v : json) : string :=
  joined (Json.iterencode_at level v).

(** The text of the items of a list from one item on, up to the closing
    bracket; and of the members of a dict. *)
Fixpoint items_text (level : nat) (x : json) (l : list json) : string :=
  (dumps_at (S level) x
   ++ match l with
      | [] => Json.newline_indent level ++ "]"
      | y :: l' =>
          "," ++ Json.newline_indent (S level) ++ items_text level y l'
      end)%string.

Fixpoint members_text (level : nat) (kx : string * json)
    (d : list (string * json)) : string :=
  (Json.encode_string (fst kx) ++ ": " ++ dumps_at (S level) (snd kx)
   ++ match d with
      | [] => Json.newline_indent level ++ "}"
      | ky :: d' =>
          "," ++ Json.newline_indent (S level) ++ members_text level ky d'
      end)%string.

Lemma scalar_chunks : forall (level : nat) (v : json) (text : string),
  Json.scalar v = Some text -> Json.iterencode_at level v = [text].
Proof.
  intros level v text H.
  destruct v as [| | | | |l|d]; try discriminate H;
    cbn [Json.iterencode_at]; now rewrite H.
Qed.

(** The chunks of one item after the separator [buf]. *)
Lemma joined_item : forall (level : nat) (x : json) (buf : string),
  joined match Json.scalar x with
         | Some text => [(buf ++ text)%string]
         | None => buf :: Json.iterencode_at level x
         end
  = (buf ++ dumps_at level x)%string.
Proof.
  intros level x buf. unfold dumps_at.
  destruct (Json.scalar x) as [text|] eqn:Hx.
  - rewrite (scalar_chunks level x text Hx). cbn [joined].
    now rewrite !append_empty_r.
  - reflexivity.
Qed.

Definition list_chunks (level : nat) : string -> list json -> list string :=
  fix items (buf : string) (l : list json) : list string :=
    match l with
    | [] => []
    | x :: l' =>
        match Json.scalar x with
        | Some text => [(buf ++ text)%string]
        | None => buf :: Json.iterencode_at (S level) x
        end
        ++ items ("," ++ Json.newline_indent (S level))%string l'
    end.

Lemma joined_list_chunks : forall (level : nat) (l : list json) (x : json)
    (buf : string),
  joined (list_chunks level buf (x :: l) ++ [Json.newline_indent level; "]"])
  = (buf ++ items_text level x l)%string.
Proof.
  intros level l. induction l as [|y l IH]; intros x buf.
  - cbn [list_chunks items_text]. rewrite app_nil_r, joined_app, joined_item.
    cbn [joined]. now rewrite append_empty_r, append_assoc.
  - change (list_chunks level buf (x :: y :: l))
      with (match Json.scalar x with
            | Some text => [(buf ++ text)%string]
            | None => buf :: Json.iterencode_at (S level) x
            end
            ++ list_chunks level ("," ++ Json.newline_indent (S level))%string
                 (y :: l)).
    rewrite <- app_assoc, joined_app, joined_item, IH.
    cbn [items_text]. now rewrite !append_assoc.
Qed.

Lemma dumps_at_list : forall (level : nat) (x : json) (l : list json),
  dumps_at level (JList (x :: l))
  = ("[" ++ Json.newline_indent (S level) ++ items_text level x l)%string.
Proof.
  intros level x l. unfold dumps_at at 1.
  change (Json.iterencode_at level (JList (x :: l)))
    with (list_chunks level ("[" ++ Json.newline_indent (S level))%string
            (x :: l)
          ++ [Json.newline_indent level; "]"]).
  rewrite joined_list_chunks. now rewrite append_assoc.
Qed.

Definition dict_chunks (level : nat)
    : bool -> list (string * json) -> list string :=
  fix items (first : bool) (d : list (string * json)) : list string :=
    match d with
    | [] => []
    | (key, x) :: d' =>
        (if first then []
         else [("," ++ Json.newline_indent (S level))%string])
        ++ [Json.encode_string key; ": "]
        ++ match Json.scalar x with
           | Some text => [text]
           | None => Json.iterencode_at (S level) x
           end
        ++ items false d'
    end.

Lemma joined_value : forall (level : nat) (x : json),
  joined match Json.scalar x with
         | Some text => [text]
         | None => Json.iterencode_at level x
         end
  = dumps_at level x.
Proof.
  intros level x. unfold dumps_at.
  destruct (Json.scalar x) as [text|] eqn:Hx; [| reflexivity].
  now rewrite (scalar_chunks level x text Hx).
Qed.

Lemma joined_dict_chunks : forall (level : nat) (d : list (string * json))
    (kx : string * json) (first : bool),
  joined (dict_chunks level first (kx :: d)
          ++ [Json.newline_indent level; "}"])
  = ((if first then "" else "," ++ Json.newline_indent (S level))
     ++ members_text level kx d)%string.
Proof.
  intros level d. induction d as [|ky d IH]; intros [key x] first.
  - cbn [dict_chunks members_text fst snd].
    rewrite app_nil_r, <- !app_assoc. do 3 rewrite joined_app.
    rewrite joined_value. cbn [joined].
    destruct first; cbn [joined]; now rewrite ?append_empty_r, ?append_assoc.
  - change (dict_chunks level first ((key, x) :: ky :: d))
      with ((if first then []
             else [("," ++ Json.newline_indent (S level))%string])
            ++ [Json.encode_string key; ": "]
            ++ match Json.scalar x with
               | Some text => [text]
               | None => Json.iterencode_at (S level) x
               end
            ++ dict_chunks level false (ky :: d)).
    rewrite <- !app_assoc. do 3 rewrite joined_app.
    rewrite joined_value, IH.
    cbn [members_text fst snd joined].
    destruct first; cbn [joined]; now rewrite ?append_empty_r, ?append_assoc.
Qed.

Lemma dumps_at_dict : forall (level : nat) (kx : string * json)
    (d : list (string * json)),
  dumps_at level (JDict (kx :: d))
  = ("{" ++ Json.newline_indent (S level) ++ members_text level kx d)%string.
Proof.
  intros level kx d. unfold dumps_at at 1.
  change (Json.iterencode_at level (JDict (kx :: d)))
    with ("{"%string :: Json.newline_indent (S level)
          :: dict_chunks level true (kx :: d)
             ++ [Json.newline_indent level; "}"%string]).
  cbn [joined]. rewrite joined_dict_chunks. reflexivity.
Qed.

(** ** The scanner, one step at a time *)

Lemma scan_once_string : forall (fuel : nat) (s : string),
  Json.scan_once (S fuel) (Json.quote ++ s)%string
  = match Json.string_body s with
    | Some (text, rest) => Some (JStr text, rest)
    | None => None
    end.
Proof. reflexivity. Qed.

Lemma scan_once_list : forall (fuel : nat) (s : string),
  Json.scan_once (S fuel) (String "[" s)
  = match Json.uncons (Json.skip_ws s) with
    | None => None
    | Some (m, rest) =>
        if m =? 93 then Some (JList [], rest)
        else
          match Json.scan_items fuel (Json.skip_ws s) [] with
          | Some (items, rest') => Some (JList items, rest')
          | None => None
          end
    end.
Proof. reflexivity. Qed.

Lemma scan_once_dict : forall (fuel : nat) (s : string),
  Json.scan_once (S fuel) (String "{" s)
  = match Json.uncons (Json.skip_ws s) with
    | None => None
    | Some (m, rest) =>
        if m =? 125 then Some (JDict [], rest)
        else
          match Json.scan_members fuel (Json.skip_ws s) [] with
          | Some (pairs, rest') => Some (JDict (Json.dict_of_pairs pairs), rest')
          | None => None
          end
    end.
Proof. reflexivity. Qed.

Lemma scan_once_atom : forall (fuel : nat) (c : ascii) (s : string),
  code c <> 34 -> code c <> 123 -> code c <> 91 ->
  Json.scan_once (S fuel) (String c s) = Json.scan_atom (String c s).
Proof.
  intros fuel c s H1 H2 H3. cbn [Json.scan_once Json.uncons].
  apply Z.eqb_neq in H1, H2, H3. now rewrite H1, H2, H3.
Qed.

Lemma scan_items_step : forall (fuel : nat) (s : string) (acc : list json),
  Json.scan_items (S fuel) s acc
  = match Json.scan_once fuel s with
    | None => None
    | Some (v, rest) =>
        match Json.uncons (Json.skip_ws rest) with
        | None => None
        | Some (m, rest') =>
            if m =? 93 then Some (acc ++ [v], rest')
            else if m =? 44 then
              Json.scan_items fuel (Json.skip_ws rest') (acc ++ [v])
            else None
        end
    end.
Proof. reflexivity. Qed.

Lemma scan_members_step : forall (fuel : nat) (s : string)
    (acc : list (string * json)),
  Json.scan_members (S fuel) (Json.quote ++ s)%string acc
  = match Json.string_body s with
    | None => None
    | Some (key, rest) =>
        match Json.uncons (Json.skip_ws rest) with
        | None => None
        | Some (c, rest') =>
            if c =? 58 then
              match Json.scan_once fuel (Json.skip_ws rest') with
              | None => None
              | Some (v, rest'') =>
                  match Json.uncons (Json.skip_ws rest'') with
                  | None => None
                  | Some (m, rest3) =>
                      if m =? 125 then Some (acc ++ [(key, v)], rest3)
                      else if m =? 44 then
                        Json.scan_members fuel (Json.skip_ws rest3)
                          (acc ++ [(key, v)])
                      else None
                  end
              end
            else None
        end
    end.
Proof. reflexivity. Qed.

(** ** What a value must be for its text to read back *)

(** The fuel the scanner needs for a value. *)
Fixpoint weight (v : json) : nat :=
  match v with
  | JList l =>
      S ((fix sum (l : list json) : nat :=
            match l with
            | [] => O
            | x :: l' => S (weight x + sum l')
            end) l)
  | JDict d =>
      S ((fix sum (d : list (string * json)) : nat :=
            match d with
            | [] => O
            | kx :: d' => S (weight (snd kx) + sum d')
            end) d)
  | _ => 1%nat
  end.

(** No dict of the value has a key twice. *)
Fixpoint distinct_keys (v : json) : Prop :=
  match v with
  | JList l =>
      (fix all (l : list json) : Prop :=
         match l with
         | [] => True
         | x :: l' => distinct_keys x /\ all l'
         end) l
  | JDict d =>
      NoDup (map fst d)
      /\ (fix all (d : list (string * json)) : Prop :=
            match d with
            | [] => True
            | kx :: d' => distinct_keys (snd kx) /\ all d'
            end) d
  | _ => True
  end.

(** Every float of the value reads back. *)
Fixpoint floats_read_back (v : json) : Prop :=
  match v with
  | JFloat f => reads_back f
  | JList l =>
      (fix all (l : list json) : Prop :=
         match l with
         | [] => True
         | x :: l' => floats_read_back x /\ all l'
         end) l
  | JDict d =>
      (fix all (d : list (string * json)) : Prop :=
         match d with
         | [] => True
         | kx :: d' => floats_read_back (snd kx) /\ all d'
         end) d
  | _ => True
  end.

(** The text of a value starts with a character that is not white space,
    not a closing bracket and not a comma. *)
Definition value_start (c : ascii) : bool :=
  negb (Json.ws c) && negb (code c =? 93) && negb (code c =? 125)
  && negb (code c =? 44).

Lemma number_start_value_start : forall c : ascii,
  number_start c = true -> value_start c = true
  /\ code c <> 34 /\ code c <> 123 /\ code c <> 91.
Proof.
  intros c H. unfold number_start in H.
  assert (Hc : code c = 45 \/ 48 <= code c <= 57).
  { apply orb_true_iff in H as [H | H];
      [left; now apply Z.eqb_eq |
       right; apply andb_true_iff in H as [H1 H2];
       apply Z.leb_le in H1; apply Z.leb_le in H2; lia]. }
  split; [| lia]. unfold value_start, Json.ws. cbv zeta.
  repeat match goal with
         | |- context [?a =? ?b] => destruct (Z.eqb_spec a b); try lia
         end; reflexivity.
Qed.

Lemma dumps_at_start : forall (level : nat) (v : json),
  floats_read_back v ->
  exists (c : ascii) (s : string),
    dumps_at level v = String c s /\ value_start c = true.
Proof.
  intros level v Hv. destruct v as [|b|z|f|t|l|d].
  - now exists "n"%char, "ull"%string.
  - destruct b; [now exists "t"%char, "rue"%string
                | now exists "f"%char, "alse"%string].
  - destruct (scan_number_some_start _ _ (scan_number_intstr z))
      as (c & s & Hs & Hc).
    exists c, s. split; [| now apply number_start_value_start].
    unfold dumps_at. cbn [Json.iterencode_at Json.scalar joined].
    now rewrite append_empty_r.
  - cbn [floats_read_back] in Hv. unfold reads_back in Hv.
    unfold dumps_at. cbn [Json.iterencode_at Json.scalar joined].
    rewrite append_empty_r.
    destruct (Prim2SF f) as [s | s | | s m e] eqn:E.
    + unfold Json.floatstr. rewrite E.
      destruct s; [now exists "-"%char, "0.0"%string
                  | now exists "0"%char, ".0"%string].
    + unfold Json.floatstr. rewrite E.
      destruct s; [now exists "-"%char, "Infinity"%string
                  | now exists "I"%char, "nfinity"%string].
    + unfold Json.floatstr. rewrite E. now exists "N"%char, "aN"%string.
    + destruct (scan_number_some_start _ _ Hv) as (c & s' & Hs & Hc).
      exists c, s'. split; [exact Hs | now apply number_start_value_start].
  - unfold dumps_at. cbn [Json.iterencode_at Json.scalar joined].
    unfold Json.encode_string, Json.quote. cbn [append].
    eexists _, _. split; [reflexivity | reflexivity].
  - destruct l as [|x l].
    + now exists "["%char, "]"%string.
    + rewrite dumps_at_list. cbn [append].
      eexists _, _. split; [reflexivity | reflexivity].
  - destruct d as [|kx d].
    + now exists "{"%char, "}"%string.
    + rewrite dumps_at_dict. cbn [append].
      eexists _, _. split; [reflexivity | reflexivity].
Qed.

(** ** Dicts with distinct keys *)

Lemma dict_set_new : forall (k : string) (v : json) (d : dict),
  ~ In k (map fst d) -> dict_set k v d = d ++ [(k, v)].
Proof.
  intros k v d. induction d as [|[k' v'] d IH]; intros H; [reflexivity |].
  cbn [dict_set]. cbn [map fst In] in H.
  destruct (String.eqb_spec k k') as [-> | Hne].
  - exfalso. apply H. now left.
  - cbn [List.app]. rewrite IH; [reflexivity |]. intros Hin. apply H. now right.
Qed.

Lemma dict_of_pairs_from : forall (pairs acc : list (string * json)),
  NoDup (map fst (acc ++ pairs)) ->
  fold_left (fun d kv => dict_set (fst kv) (snd kv) d) pairs acc
  = acc ++ pairs.
Proof.
  induction pairs as [|[k v] pairs IH]; intros acc H; cbn [fold_left].
  - now rewrite app_nil_r.
  - cbn [fst snd]. rewrite dict_set_new.
    + rewrite IH; rewrite <- app_assoc; [reflexivity | exact H].
    + rewrite map_app in H. apply NoDup_remove_2 in H.
      intros Hin. apply H. apply in_or_app. now left.
Qed.

Lemma dict_of_pairs_distinct : forall d : list (string * json),
  NoDup (map fst d) -> Json.dict_of_pairs d = d.
Proof.
  intros d H. unfold Json.dict_of_pairs. now apply (dict_of_pairs_from d []).
Qed.

(** ** Reading back *)

Lemma ends_number_comma : forall s : string,
  ends_number ("," ++ s)%string = true.
Proof. reflexivity. Qed.

Lemma ends_number_newline : forall (level : nat) (s : string),
  ends_number (Json.newline_indent level ++ s)%string = true.
Proof. reflexivity. Qed.

Lemma value_start_solid : forall (c : ascii) (s : string),
  value_start c = true -> solid (String c s) = true.
Proof.
  intros c s H. unfold value_start in H.
  repeat (apply andb_true_iff in H; destruct H as [H ?]). exact H.
Qed.

Lemma value_start_codes : forall c : ascii,
  value_start c = true -> code c <> 93 /\ code c <> 125 /\ code c <> 44.
Proof.
  intros c H. unfold value_start in H.
  repeat (apply andb_true_iff in H; destruct H as [H ?]).
  repeat match goal with
         | H : negb (_ =? _) = true |- _ =>
             apply negb_true_iff in H; apply Z.eqb_neq in H
         end.
  lia.
Qed.

Lemma dumps_at_solid : forall (level : nat) (v : json) (t : string),
  floats_read_back v -> solid (dumps_at level v ++ t)%string = true.
Proof.
  intros level v t Hv.
  destruct (dumps_at_start level v Hv) as (c & s & Hs & Hc).
  rewrite Hs. cbn [append]. now apply value_start_solid.
Qed.

Section ReadBack.

(** The values lighter than [n] read back. *)
Variable n : nat.
Hypothesis lighter_read_back :
  forall (v : json),
    (weight v < n)%nat -> distinct_keys v -> floats_read_back v ->
    forall (level fuel : nat) (rest : string),
      (weight v <= fuel)%nat -> ends_number rest = true ->
      Json.scan_once fuel (dumps_at level v ++ rest)%string = Some (v, rest).

Fixpoint items_weight (l : list json) : nat :=
  match l with
  | [] => O
  | x :: l' => S (weight x + items_weight l')
  end.

Definition all_items (P : json -> Prop) : list json -> Prop :=
  fix all (l : list json) : Prop :=
    match l with
    | [] => True
    | x :: l' => P x /\ all l'
    end.

Lemma scan_items_text : forall (level : nat) (l : list json) (x : json)
    (acc : list json) (fuel : nat) (rest : string),
  (items_weight (x :: l) < n)%nat ->
  (items_weight (x :: l) <= fuel)%nat ->
  all_items distinct_keys (x :: l) ->
  all_items floats_read_back (x :: l) ->
  Json.scan_items fuel (items_text level x l ++ rest)%string acc
  = Some (acc ++ x :: l, rest).
Proof.
  intros level l. induction l as [|y l IH];
    intros x acc fuel rest Hn Hfuel Hkeys Hfloats;
    (destruct fuel as [|fuel]; [cbn [items_weight] in Hfuel; lia |]);
    cbn [items_weight] in Hn, Hfuel;
    destruct Hkeys as [Hkx Hkl]; destruct Hfloats as [Hfx Hfl];
    rewrite scan_items_step; cbn [items_text]; rewrite !append_assoc.
  - rewrite (lighter_read_back x ltac:(lia) Hkx Hfx (S level) fuel _
               ltac:(lia) (ends_number_newline level _)).
    rewrite skip_ws_newline. reflexivity.
  - rewrite (lighter_read_back x ltac:(lia) Hkx Hfx (S level) fuel _
               ltac:(lia) (ends_number_comma _)).
    cbn [append]. rewrite (skip_ws_solid (String "," _) eq_refl).
    cbn [Json.uncons].
    change (code "," =? 93) with false. change (code "," =? 44) with true.
    cbv iota. rewrite skip_ws_newline.
    destruct (dumps_at_start (S level) y (proj1 Hfl)) as (c & s & Hs & Hc).
    assert (Hsolid : solid (items_text level y l ++ rest)%string = true).
    { destruct l; cbn [items_text]; rewrite Hs; cbn [append];
        now apply value_start_solid. }
    rewrite (skip_ws_solid _ Hsolid).
    rewrite (IH y (acc ++ [x]) fuel rest); cbn [items_weight];
      [now rewrite <- app_assoc | lia | lia | exact Hkl | exact Hfl].
Qed.

Fixpoint members_weight (d : list (string * json)) : nat :=
  match d with
  | [] => O
  | kx :: d' => S (weight (snd kx) + members_weight d')
  end.

Definition all_members (P : json -> Prop)
    : list (string * json) -> Prop :=
  fix all (d : list (string * json)) : Prop :=
    match d with
    | [] => True
    | kx :: d' => P (snd kx) /\ all d'
    end.

Lemma skip_ws_space : forall s : string,
  Json.skip_ws (String " " s) = Json.skip_ws s.
Proof. reflexivity. Qed.

Lemma members_text_quote : forall (level : nat) (kx : string * json)
    (d : list (string * json)),
  exists s : string, members_text level kx d = (Json.quote ++ s)%string.
Proof.
  intros level kx d. destruct d; cbn [members_text];
    unfold Json.encode_string; rewrite !append_assoc; now eexists.
Qed.

Lemma scan_members_text : forall (level : nat) (d : list (string * json))
    (kx : string * json) (acc : list (string * json)) (fuel : nat)
    (rest : string),
  (members_weight (kx :: d) < n)%nat ->
  (members_weight (kx :: d) <= fuel)%nat ->
  all_members distinct_keys (kx :: d) ->
  all_members floats_read_back (kx :: d) ->
  Json.scan_members fuel (members_text level kx d ++ rest)%string acc
  = Some (acc ++ kx :: d, rest).
Proof.
  intros level d. induction d as [|ky d IH];
    intros [key x] acc fuel rest Hn Hfuel Hkeys Hfloats;
    (destruct fuel as [|fuel]; [cbn [members_weight] in Hfuel; lia |]);
    cbn [members_weight snd] in Hn, Hfuel;
    destruct Hkeys as [Hkx Hkl]; destruct Hfloats as [Hfx Hfl];
    cbn [snd] in Hkx, Hfx;
    cbn [members_text fst snd]; unfold Json.encode_string;
    rewrite !append_assoc, scan_members_step, string_body_escape;
    cbn [append]; rewrite (skip_ws_solid (String ":" _) eq_refl);
    cbn [Json.uncons]; change (code ":" =? 58) with true; cbv iota;
    rewrite skip_ws_space.
  - rewrite (skip_ws_solid _ (dumps_at_solid (S level) x _ Hfx)).
    rewrite (lighter_read_back x ltac:(lia) Hkx Hfx (S level) fuel _
               ltac:(lia) (ends_number_newline level _)).
    rewrite skip_ws_newline. reflexivity.
  - rewrite (skip_ws_solid _ (dumps_at_solid (S level) x _ Hfx)).
    rewrite (lighter_read_back x ltac:(lia) Hkx Hfx (S level) fuel
               (String "," _) ltac:(lia) eq_refl).
    rewrite (skip_ws_solid (String "," _) eq_refl).
    cbn [Json.uncons].
    change (code "," =? 125) with false. change (code "," =? 44) with true.
    cbv iota. rewrite skip_ws_newline.
    destruct (members_text_quote level ky d) as [s' Hq].
    assert (Hsolid' : solid (members_text level ky d ++ rest)%string = true)
      by (rewrite Hq; reflexivity).
    rewrite (skip_ws_solid _ Hsolid').
    rewrite (IH ky (acc ++ [(key, x)]) fuel rest); cbn [members_weight];
      [now rewrite <- app_assoc | lia | lia | exact Hkl | exact Hfl].
Qed.

End ReadBack.

Lemma scan_atom_scan_once : forall (fuel : nat) (s : string)
    (x : json * string),
  Json.scan_atom s = Some x -> Json.scan_once (S fuel) s = Some x.
Proof.
  intros fuel [|c s] x H; [discriminate H |].
  destruct (Z.eq_dec (code c) 34) as [E | N1];
    [| destruct (Z.eq_dec (code c) 123) as [E | N2];
       [| destruct (Z.eq_dec (code c) 91) as [E | N3]]].
  4: { rewrite scan_once_atom by assumption. exact H. }
  all: exfalso; rewrite <- (ascii_of_code c), E in H;
    unfold Json.scan_atom in H;
    match type of H with
    | context [Json.scan_keyword ?t] =>
        change (Json.scan_keyword t) with (@None (json * string)) in H
    end;
    rewrite scan_number_start in H by reflexivity;
    discriminate H.
Qed.

Lemma weight_list : forall l : list json,
  weight (JList l) = S (items_weight l).
Proof. reflexivity. Qed.

Lemma weight_dict : forall d : list (string * json),
  weight (JDict d) = S (members_weight d).
Proof. reflexivity. Qed.

(** The text of any value reads back as the value, when no dict has a key
    twice and every float reads back. *)
Lemma scan_once_dumps_at : forall (n : nat) (v : json),
  (weight v < n)%nat -> distinct_keys v -> floats_read_back v ->
  forall (level fuel : nat) (rest : string),
    (weight v <= fuel)%nat -> ends_number rest = true ->
    Json.scan_once fuel (dumps_at level v ++ rest)%string = Some (v, rest).
Proof.
  induction n as [|n IH]; intros v Hn Hkeys Hfloats level fuel rest Hfuel Hrest;
    [lia |].
  destruct fuel as [|fuel]; [destruct v; cbn [weight] in Hfuel; lia |].
  destruct v as [|b|z|f|t|l|d].
  - reflexivity.
  - destruct b; reflexivity.
  - apply scan_atom_scan_once.
    unfold dumps_at. cbn [Json.iterencode_at Json.scalar joined].
    rewrite append_empty_r. now apply scan_atom_intstr.
  - apply scan_atom_scan_once.
    unfold dumps_at. cbn [Json.iterencode_at Json.scalar joined].
    rewrite append_empty_r. now apply scan_atom_floatstr.
  - unfold dumps_at. cbn [Json.iterencode_at Json.scalar joined].
    unfold Json.encode_string. rewrite append_empty_r, !append_assoc.
    rewrite scan_once_string, string_body_escape. reflexivity.
  - destruct l as [|x l]; [reflexivity |].
    rewrite weight_list in Hn, Hfuel.
    change (all_items distinct_keys (x :: l)) in Hkeys.
    change (all_items floats_read_back (x :: l)) in Hfloats.
    rewrite dumps_at_list, !append_assoc. cbn [append].
    rewrite scan_once_list, skip_ws_newline.
    assert (Hsolid : solid (items_text level x l ++ rest)%string = true).
    { destruct l; cbn [items_text]; rewrite append_assoc;
        apply dumps_at_solid; exact (proj1 Hfloats). }
    rewrite (skip_ws_solid _ Hsolid).
    destruct (dumps_at_start (S level) x (proj1 Hfloats)) as (c & s & Hs & Hc).
    assert (Hhead : exists s', (items_text level x l ++ rest)%string
                               = String c s').
    { destruct l; cbn [items_text]; rewrite Hs; cbn [append]; now eexists. }
    destruct Hhead as [s' Hhead]. rewrite Hhead at 1. cbn [Json.uncons].
    destruct (value_start_codes c Hc) as (N93 & _ & _).
    apply Z.eqb_neq in N93. rewrite N93.
    rewrite (scan_items_text n IH level l x [] fuel rest);
      [reflexivity | lia | lia | exact Hkeys | exact Hfloats].
  - destruct d as [|kx d]; [reflexivity |].
    rewrite weight_dict in Hn, Hfuel.
    destruct Hkeys as [Hnodup Hkeys].
    change (all_members distinct_keys (kx :: d)) in Hkeys.
    change (all_members floats_read_back (kx :: d)) in Hfloats.
    rewrite dumps_at_dict, !append_assoc. cbn [append].
    rewrite scan_once_dict, skip_ws_newline.
    destruct (members_text_quote level kx d) as [s' Hq].
    assert (Hsolid : solid (members_text level kx d ++ rest)%string = true)
      by (rewrite Hq; reflexivity).
    rewrite (skip_ws_solid _ Hsolid).
    rewrite Hq at 1. unfold Json.quote at 1. cbn [append Json.uncons].
    change (code (ascii_of_nat 34) =? 125) with false. cbv iota.
    rewrite (scan_members_text n IH level d kx [] fuel rest);
      [| lia | lia | exact Hkeys | exact Hfloats].
    cbn [List.app]. now rewrite (dict_of_pairs_distinct _ Hnodup).
Qed.

(** ** The fuel of [loads] is enough *)

Lemma length_newline_indent : forall level : nat,
  (1 <= String.length (Json.newline_indent level))%nat.
Proof. intros level. unfold Json.newline_indent. cbn [String.length]. lia. Qed.

Lemma weight_le_length : forall (n : nat) (v : json),
  (weight v < n)%nat -> floats_read_back v ->
  forall level : nat,
    (weight v <= String.length (dumps_at level v))%nat.
Proof.
  induction n as [|n IH]; intros v Hn Hfloats level; [lia |].
  destruct (dumps_at_start level v Hfloats) as (c & s & Hs & _).
  destruct v as [|b|z|f|t|l|d];
    try (rewrite Hs; cbn [weight String.length]; lia).
  - destruct l as [|x l]; [cbn; lia |].
    rewrite weight_list in *.
    change (all_items floats_read_back (x :: l)) in Hfloats.
    rewrite dumps_at_list, !length_append.
    pose proof (length_newline_indent (S level)) as Hnl.
    cbn [String.length].
    assert (H : (items_weight (x :: l)
                 <= String.length (items_text level x l))%nat).
    { clear Hs Hnl. revert x Hn Hfloats.
      induction l as [|y l IHl]; intros x Hn [Hx Hl];
        cbn [items_weight] in Hn |- *; cbn [items_text];
        rewrite !length_append;
        pose proof (IH x ltac:(lia) Hx (S level)) as Hxl.
      - pose proof (length_newline_indent level). lia.
      - pose proof (IHl y ltac:(cbn [items_weight]; lia) Hl) as Hrest.
        cbn [items_weight] in Hrest. cbn [String.length]. lia. }
    lia.
  - destruct d as [|kx d]; [cbn; lia |].
    rewrite weight_dict in *.
    change (all_members floats_read_back (kx :: d)) in Hfloats.
    rewrite dumps_at_dict, !length_append.
    pose proof (length_newline_indent (S level)) as Hnl.
    cbn [String.length].
    assert (H : (members_weight (kx :: d)
                 <= String.length (members_text level kx d))%nat).
    { clear Hs Hnl. revert kx Hn Hfloats.
      induction d as [|ky d IHd]; intros kx Hn [Hx Hd];
        cbn [members_weight] in Hn |- *; cbn [members_text];
        rewrite !length_append;
        pose proof (IH (snd kx) ltac:(lia) Hx (S level)) as Hxl.
      - pose proof (length_newline_indent level). lia.
      - pose proof (IHd ky ltac:(cbn [members_weight]; lia) Hd) as Hrest.
        cbn [members_weight] in Hrest. cbn [String.length]. lia. }
    lia.
Qed.

(** [loads] reads the text of a value back as the value. *)
Theorem loads_dumps : forall v : json,
  distinct_keys v -> floats_read_back v ->
  Json.loads (Json.dumps v) = Some v.
Proof.
  intros v Hkeys Hfloats. unfold Json.loads.
  change (Json.dumps v) with (dumps_at 0 v).
  pose proof (dumps_at_solid 0 v "" Hfloats) as Hsolid.
  rewrite append_empty_r in Hsolid. rewrite (skip_ws_solid _ Hsolid).
  pose proof (scan_once_dumps_at (S (weight v)) v ltac:(lia) Hkeys Hfloats 0
                (S (String.length (dumps_at 0 v))) ""
                ltac:(pose proof (weight_le_length (S (weight v)) v
                                    ltac:(lia) Hfloats 0); lia)
                eq_refl) as H.
  rewrite append_empty_r in H. rewrite H. reflexivity.
Qed.

(** ** What [loads] returns has no key twice *)

Lemma plus_match_result : forall (A : Type) (p : ascii -> bool) (s : string)
    (k : string -> option A) (x : A),
  plus_match p s k = Some x -> exists s' : string, k s' = Some x.
Proof.
  intros A p s k x. induction s as [|c s IH]; cbn [plus_match];
    [discriminate |].
  destruct (p c); [| discriminate].
  destruct (plus_match p s k) as [y|] eqn:E.
  - intros [= <-]. now apply IH.
  - intros H. now exists s.
Qed.

Lemma re_match_result : forall (A : Type) (r : re) (s : string)
    (caps : captures) (k : string -> captures -> option A) (x : A),
  re_match r s caps k = Some x ->
  exists (s' : string) (caps' : captures), k s' caps' = Some x.
Proof.
  intros A r. induction r as [|p|a IHa b IHb|a IHa b IHb|p|name r IH];
    intros s caps k x; cbn [re_match].
  - intros H. now exists s, caps.
  - destruct s as [|c s]; [discriminate |].
    destruct (p c); [| discriminate]. intros H. now exists s, caps.
  - intros H. apply IHa in H as (s' & caps' & H). cbv beta in H.
    now apply IHb in H.
  - destruct (re_match a s caps k) as [y|] eqn:E.
    + intros [= <-]. now apply IHa in E.
    + apply IHb.
  - intros H. apply plus_match_result in H as [s' H]. now exists s', caps.
  - intros H. apply IH in H as (s' & caps' & H). cbv beta in H.
    now exists s', ((name, consumed s s') :: caps').
Qed.

Lemma scan_atom_scalar : forall (s : string) (v : json) (rest : string),
  Json.scan_atom s = Some (v, rest) -> distinct_keys v.
Proof.
  intros s v rest. unfold Json.scan_atom, Json.scan_keyword, Json.scan_constant.
  destruct (Json.after "null" s); [intros [= <- _]; exact I |].
  destruct (Json.after "true" s); [intros [= <- _]; exact I |].
  destruct (Json.after "false" s); [intros [= <- _]; exact I |].
  destruct (Json.scan_number s) as [[v' r']|] eqn:E.
  - intros [= <- _]. unfold Json.scan_number in E.
    apply re_match_result in E as (s' & caps' & E).
    injection E as <- _. unfold Json.number_of_groups.
    destruct (capture "frac" caps'), (capture "exp" caps'); exact I.
  - destruct (Json.after "NaN" s); [intros [= <- _]; exact I |].
    destruct (Json.after "Infinity" s); [intros [= <- _]; exact I |].
    destruct (Json.after "-Infinity" s); [intros [= <- _]; exact I |].
    discriminate.
Qed.

Lemma all_items_app : forall (P : json -> Prop) (l : list json) (v : json),
  all_items P l -> P v -> all_items P (l ++ [v]).
Proof.
  intros P l v. induction l as [|x l IH]; cbn [all_items List.app].
  - intros _ Hv. now split.
  - intros [Hx Hl] Hv. split; [exact Hx | now apply IH].
Qed.

Lemma all_members_app : forall (P : json -> Prop)
    (d : list (string * json)) (k : string) (v : json),
  all_members P d -> P v -> all_members P (d ++ [(k, v)]).
Proof.
  intros P d k v. induction d as [|kx d IH]; cbn [all_members List.app].
  - intros _ Hv. now split.
  - intros [Hx Hd] Hv. split; [exact Hx | now apply IH].
Qed.

Lemma dict_set_keys : forall (k : string) (v : json) (d : dict),
  map fst (dict_set k v d)
  = if existsb (String.eqb k) (map fst d) then map fst d
    else map fst d ++ [k].
Proof.
  intros k v d. induction d as [|[k' v'] d IH]; [reflexivity |].
  cbn [dict_set map fst existsb].
  destruct (String.eqb k k'); [reflexivity |].
  cbn [map fst orb]. rewrite IH.
  destruct (existsb (String.eqb k) (map fst d)); reflexivity.
Qed.

Lemma dict_set_distinct : forall (k : string) (v : json) (d : dict),
  NoDup (map fst d) -> NoDup (map fst (dict_set k v d)).
Proof.
  intros k v d H. rewrite dict_set_keys.
  destruct (existsb (String.eqb k) (map fst d)) eqn:E; [exact H |].
  apply NoDup_app; [exact H | repeat constructor; intros [] |].
  intros x Hx [Heq | []]. subst x.
  assert (Hex : existsb (String.eqb k) (map fst d) = true).
  { apply existsb_exists. exists k. split; [exact Hx | apply String.eqb_refl]. }
  rewrite Hex in E. discriminate E.
Qed.

Lemma dict_set_all : forall (P : json -> Prop) (k : string) (v : json)
    (d : dict),
  all_members P d -> P v -> all_members P (dict_set k v d).
Proof.
  intros P k v d. induction d as [|[k' v'] d IH]; cbn [dict_set all_members].
  - intros _ Hv. now split.
  - intros [Hx Hd] Hv. destruct (String.eqb k k'); cbn [all_members snd].
    + now split.
    + split; [exact Hx | now apply IH].
Qed.

Lemma dict_of_pairs_keys : forall pairs : list (string * json),
  all_members distinct_keys pairs ->
  distinct_keys (JDict (Json.dict_of_pairs pairs)).
Proof.
  intros pairs H. unfold Json.dict_of_pairs.
  change (distinct_keys (JDict ?d))
    with (NoDup (map fst d) /\ all_members distinct_keys d).
  assert (G : forall acc : dict,
             NoDup (map fst acc) /\ all_members distinct_keys acc ->
             NoDup (map fst (fold_left
                               (fun d kv => dict_set (fst kv) (snd kv) d)
                               pairs acc))
             /\ all_members distinct_keys
                  (fold_left (fun d kv => dict_set (fst kv) (snd kv) d)
                     pairs acc)).
  { induction pairs as [|[k v] pairs IH]; intros acc [Hn Ha];
      cbn [fold_left]; [now split |].
    destruct H as [Hv Hrest]. apply (IH Hrest). split.
    - now apply dict_set_distinct.
    - now apply dict_set_all. }
  apply G. split; [constructor | exact I].
Qed.

Lemma scan_once_step : forall (fuel : nat) (s : string),
  Json.scan_once (S fuel) s
  = match Json.uncons s with
    | None => None
    | Some (n, s') =>
        if n =? 34 then
          match Json.string_body s' with
          | Some (text, rest) => Some (JStr text, rest)
          | None => None
          end
        else if n =? 123 then
          match Json.uncons (Json.skip_ws s') with
          | None => None
          | Some (m, rest) =>
              if m =? 125 then Some (JDict [], rest)
              else
                match Json.scan_members fuel (Json.skip_ws s') [] with
                | Some (pairs, rest') =>
                    Some (JDict (Json.dict_of_pairs pairs), rest')
                | None => None
                end
          end
        else if n =? 91 then
          match Json.uncons (Json.skip_ws s') with
          | None => None
          | Some (m, rest) =>
              if m =? 93 then Some (JList [], rest)
              else
                match Json.scan_items fuel (Json.skip_ws s') [] with
                | Some (items, rest') => Some (JList items, rest')
                | None => None
                end
          end
        else Json.scan_atom s
    end.
Proof. reflexivity. Qed.

Lemma scan_members_step_any : forall (fuel : nat) (s : string)
    (acc : list (string * json)),
  Json.scan_members (S fuel) s acc
  = match Json.uncons s with
    | None => None
    | Some (q, s') =>
        if q =? 34 then
          match Json.string_body s' with
          | None => None
          | Some (key, rest) =>
              match Json.uncons (Json.skip_ws rest) with
              | None => None
              | Some (c, rest') =>
                  if c =? 58 then
                    match Json.scan_once fuel (Json.skip_ws rest') with
                    | None => None
                    | Some (v, rest'') =>
                        match Json.uncons (Json.skip_ws rest'') with
                        | None => None
                        | Some (m, rest3) =>
                            if m =? 125 then Some (acc ++ [(key, v)], rest3)
                            else if m =? 44 then
                              Json.scan_members fuel (Json.skip_ws rest3)
                                (acc ++ [(key, v)])
                            else None
                        end
                    end
                  else None
              end
          end
        else None
    end.
Proof. reflexivity. Qed.

Lemma scanned_distinct_keys : forall fuel : nat,
  (forall (s : string) (v : json) (rest : string),
      Json.scan_once fuel s = Some (v, rest) -> distinct_keys v)
  /\ (forall (s : string) (acc l : list json) (rest : string),
        Json.scan_items fuel s acc = Some (l, rest) ->
        all_items distinct_keys acc -> all_items distinct_keys l)
  /\ (forall (s : string) (acc p : list (string * json)) (rest : string),
        Json.scan_members fuel s acc = Some (p, rest) ->
        all_members distinct_keys acc -> all_members distinct_keys p).
Proof.
  induction fuel as [|fuel (IHonce & IHitems & IHmembers)].
  - repeat split; intros; discriminate.
  - split; [| split].
    + intros s v rest. rewrite scan_once_step.
      destruct (Json.uncons s) as [[n s']|]; [| discriminate].
      destruct (n =? 34).
      { destruct (Json.string_body s') as [[text r]|]; [| discriminate].
        intros [= <- _]. exact I. }
      destruct (n =? 123).
      { destruct (Json.uncons (Json.skip_ws s')) as [[m r]|]; [| discriminate].
        destruct (m =? 125); [intros [= <- _]; split; [constructor | exact I] |].
        destruct (Json.scan_members fuel (Json.skip_ws s') [])
          as [[pairs r']|] eqn:E; [| discriminate].
        intros [= <- _]. apply dict_of_pairs_keys.
        exact (IHmembers _ _ _ _ E I). }
      destruct (n =? 91).
      { destruct (Json.uncons (Json.skip_ws s')) as [[m r]|]; [| discriminate].
        destruct (m =? 93); [intros [= <- _]; exact I |].
        destruct (Json.scan_items fuel (Json.skip_ws s') [])
          as [[items r']|] eqn:E; [| discriminate].
        intros [= <- _]. exact (IHitems _ _ _ _ E I). }
      apply scan_atom_scalar.
    + intros s acc l rest. rewrite scan_items_step.
      destruct (Json.scan_once fuel s) as [[v r]|] eqn:E; [| discriminate].
      destruct (Json.uncons (Json.skip_ws r)) as [[m r']|]; [| discriminate].
      pose proof (IHonce _ _ _ E) as Hv.
      destruct (m =? 93).
      { intros [= <- _] Hacc. now apply all_items_app. }
      destruct (m =? 44); [| discriminate].
      intros H Hacc. apply (IHitems _ _ _ _ H). now apply all_items_app.
    + intros s acc p rest. rewrite scan_members_step_any.
      destruct (Json.uncons s) as [[q s']|]; [| discriminate].
      destruct (q =? 34); [| discriminate].
      destruct (Json.string_body s') as [[key r]|]; [| discriminate].
      destruct (Json.uncons (Json.skip_ws r)) as [[c r']|]; [| discriminate].
      destruct (c =? 58); [| discriminate].
      destruct (Json.scan_once fuel (Json.skip_ws r')) as [[v r'']|] eqn:E;
        [| discriminate].
      pose proof (IHonce _ _ _ E) as Hv.
      destruct (Json.uncons (Json.skip_ws r'')) as [[m r3]|]; [| discriminate].
      destruct (m =? 125).
      { intros [= <- _] Hacc. now apply all_members_app. }
      destruct (m =? 44); [| discriminate].
      intros H Hacc. apply (IHmembers _ _ _ _ H). now apply all_members_app.
Qed.

(** What [loads] returns has no key twice in a dict. *)
Lemma loads_distinct_keys : forall (text : string) (v : json),
  Json.loads text = Some v -> distinct_keys v.
Proof.
  intros text v. unfold Json.loads.
  destruct (Json.scan_once (S (String.length text)) (Json.skip_ws text))
    as [[v' rest]|] eqn:E; [| discriminate].
  destruct (Json.skip_ws rest); [| discriminate].
  intros [= <-].
  exact (proj1 (scanned_distinct_keys _) _ _ _ E).
Qed.


(** * The properties on concrete runs

    The library parameters are instantiated with [Json.loads],
    [Json.iterencode] and [fromisoformat_naive]. *)

(** The two records of the specification's scenario. *)
Definition record_A : dict :=
  [("start_time", JStr "2025-01-01T09:00:00");
   ("end_time", JStr "2025-01-01T10:30:00");
   ("elapsed", JInt 5400); ("comment", JStr "A")].

Definition record_B : dict :=
  [("start_time", JStr "2025-01-02T09:00:00");
   ("end_time", JStr "2025-01-02T09:15:00");
   ("elapsed", JInt 900); ("comment", JStr "B")].

(** A data file holding them, written by hand on two lines. *)
Definition scenario_text : string :=
  quoted "[{'start_time': '2025-01-01T09:00:00', 'end_time': '2025-01-01T10:30:00', 'elapsed': 5400, 'comment': 'A'},
 {'start_time': '2025-01-02T09:00:00', 'end_time': '2025-01-02T09:15:00', 'elapsed': 900, 'comment': 'B'}]".

Definition scenario_app : app := init (Some scenario_text).

Example scenario_loads :
  load_records Json.loads scenario_app = Ok (JList [JDict record_A; JDict record_B]).
Proof. vm_compute. reflexivity. Qed.

(** C3 as stated fails: with the end date before the start date the
    export of the scenario's records reports that no records were found,
    which is the failure of an empty selection, not a failure of the
    range. *)
Lemma export_reversed_range_finds_no_records :
  strptime_date "2025-01-02" = Some (mkDate 2025 1 2)
  /\ strptime_date "2025-01-01" = Some (mkDate 2025 1 1)
  /\ date_lt (mkDate 2025 1 1) (mkDate 2025 1 2) = true
  /\ export_data_to_excel Json.loads fromisoformat_naive
       "2025-01-02" "2025-01-01" scenario_app
     = Raise (ValueError "No records found in the specified date range.")
  /\ raised (export_data_to_excel Json.loads fromisoformat_naive
               "2025-01-02" "2025-01-01" scenario_app)
     <> Some InvalidDateRange.
Proof.
  repeat split; try (vm_compute; reflexivity).
  vm_compute. discriminate.
Qed.

Lemma export_rows_reversed_range_witness :
  export_rows fromisoformat_naive (JList [JDict record_A; JDict record_B])
    "2025-01-02" "2025-01-01"
  = Raise (ValueError "No records found in the specified date range.")
  /\ raised (export_rows fromisoformat_naive
               (JList [JDict record_A; JDict record_B])
               "2025-01-02" "2025-01-01")
     = Some NoRecordsInRange.
Proof.
  apply (proj2 (export_rows_reversed_range fromisoformat_naive
                  (JList [JDict record_A; JDict record_B])
                  "2025-01-02" "2025-01-01" (mkDate 2025 1 2) (mkDate 2025 1 1)
                  eq_refl eq_refl eq_refl)
           [JDict record_A; JDict record_B] eq_refl eq_refl).
Defined.

(** C4 as stated fails: one step into saving the two records over a file
    that held the first one, the file is empty, which is neither what it
    held nor the new text; three steps in, it holds the start of the new
    text, which does not load. *)
Lemma save_records_interrupted :
  let old := Some (Json.dumps (JList [JDict record_A])) in
  let ops := save_records_ops Json.iterencode
               (JList [JDict record_A; JDict record_B]) in
  run_ops (firstn 1 ops) old = Some ""
  /\ run_ops (firstn 1 ops) old <> old
  /\ run_ops (firstn 1 ops) old <> run_ops ops old
  /\ run_ops (firstn 3 ops) old <> old
  /\ run_ops (firstn 3 ops) old <> run_ops ops old
  /\ match run_ops (firstn 3 ops) old with
     | Some text => Json.loads text
     | None => None
     end = None.
Proof.
  cbv zeta. repeat split; try (vm_compute; reflexivity); vm_compute; discriminate.
Qed.

(** A session paused at the very clock reading it was started at. *)
Definition paused_at_once : app :=
  state_of (pause_timer 1000%float
              (state_of (start_timer noon 1000%float (init None)))).

(** The failing input of C5 reached through the handlers: started and
    paused at once, the session is refused by [stop_timer]. *)
Lemma stop_timer_refuses_session_paused_at_zero_witness :
  Paused paused_at_once
  /\ stop_timer Json.loads Json.iterencode 2000%float (Some "x") one_pm
       paused_at_once
     = Returned paused_at_once
         [showwarning "Warning" "No active or paused session to stop."]
  /\ signalled (stop_timer Json.loads Json.iterencode 2000%float (Some "x")
                  one_pm paused_at_once)
     = Some NoActiveSession
  /\ (forall t0 : float,
        signalled (stop_timer Json.loads Json.iterencode 2000%float (Some "x")
                     one_pm
                     (set_timer true (Some t0) (Some noon) 0%float
                        paused_at_once))
        <> Some NoActiveSession).
Proof.
  exact (stop_timer_refuses_session_paused_at_zero Json.loads Json.iterencode
           2000%float (Some "x") one_pm paused_at_once noon
           eq_refl eq_refl eq_refl).
Defined.

Example paused_at_once_keeps_no_file :
  data_file paused_at_once = None
  /\ start_time_dt paused_at_once = Some noon
  /\ elapsed_time paused_at_once = 0%float.
Proof. repeat split. Qed.

(** Stopping the session paused after 90 seconds, with no data file yet:
    the file is created with the one record, and the timer is cleared. *)
Example stop_timer_finalizes_run :
  stop_timer Json.loads Json.iterencode 2000%float (Some "x") one_pm
    paused_session
  = Returned
      (stopped Json.iterencode [] noon one_pm 90%float "x" paused_session)
      [showinfo "Session Recorded" "Your work session has been saved."]
  /\ cleared (stopped Json.iterencode [] noon one_pm 90%float "x"
                paused_session).
Proof.
  apply (proj1 (stop_timer_finalizes Json.loads Json.iterencode 2000%float
                  (Some "x") one_pm paused_session noon []
                  eq_refl eq_refl (fun H => False_ind _ (diff_false_true H)))).
  right. reflexivity.
Defined.

Example stop_timer_writes :
  data_file (stopped Json.iterencode [] noon one_pm 90%float "x" paused_session)
  = Some (quoted "[
    {
        'start_time': '2025-01-01T12:00:00',
        'end_time': '2025-01-01T13:00:00',
        'elapsed': 90.0,
        'comment': 'x'
    }
]").
Proof. vm_compute. reflexivity. Qed.

(** A record whose start time is a text that is no time. *)
Definition record_undated : dict :=
  [("start_time", JStr "yesterday"); ("end_time", JStr "today");
   ("elapsed", JInt 60); ("comment", JStr "old")].


(** A record whose start time is [null], and a data file that holds it
    between the two records of the scenario. *)
Definition record_null : json :=
  JDict [("start_time", JNull); ("elapsed", JInt 1)].

Definition legacy_text : string :=
  quoted "[{'start_time': '2025-01-01T09:00:00', 'end_time': '2025-01-01T10:30:00', 'elapsed': 5400, 'comment': 'A'},
 {'start_time': null, 'elapsed': 1},
 {'start_time': '2025-01-02T09:00:00', 'end_time': '2025-01-02T09:15:00', 'elapsed': 900, 'comment': 'B'}]".


(** The records of the scenario as the program stores them: the seconds
    are floats. *)
Definition stored_A : dict :=
  [("start_time", JStr "2025-01-01T09:00:00");
   ("end_time", JStr "2025-01-01T10:30:00");
   ("elapsed", JFloat 5400); ("comment", JStr "A")].

Definition stored_B : dict :=
  [("start_time", JStr "2025-01-02T09:00:00");
   ("end_time", JStr "2025-01-02T09:15:00");
   ("elapsed", JFloat 900); ("comment", JStr "B")].


(** Two short sessions, of 0.1 and of 0.2 seconds as binary64 has
    them. *)
Definition tenth : dict :=
  [("start_time", JStr "2025-01-01T09:00:00");
   ("end_time", JStr "2025-01-01T09:00:00");
   ("elapsed", JFloat 0x1.999999999999ap-4); ("comment", JStr "")].

Definition fifth : dict :=
  [("start_time", JStr "2025-01-01T09:00:01");
   ("end_time", JStr "2025-01-01T09:00:01");
   ("elapsed", JFloat 0x1.999999999999ap-3); ("comment", JStr "")].



Example save_of_load_rewrites_text :
  data_file (save_records Json.iterencode
               (JList [JDict record_A; JDict record_B]) scenario_app)
  <> data_file scenario_app.
Proof. vm_compute. discriminate. Qed.

(** ** Runs for the further properties *)

(** A timer started at noon, still running. *)
Definition running_session : app :=
  state_of (start_timer noon 1000%float (init None)).

Lemma pause_timer_twice_witness :
  let st1 := state_of (pause_timer 1090%float running_session) in
  pause_timer 1090%float running_session = Returned st1 []
  /\ timer_running st1 = false
  /\ elapsed_time st1 = (elapsed_time running_session + (1090 - 1000))%float
  /\ pause_timer 1200%float st1
     = Returned st1 [showwarning "Warning" "No timer is running to pause."]
  /\ signalled (pause_timer 1200%float st1) = Some NotRunning.
Proof.
  exact (pause_timer_twice 1090%float 1200%float 1000%float running_session
           eq_refl eq_refl).
Defined.

Lemma resume_pause_accumulates_witness :
  let st' := resume_pause_cycles [(2000, 2030); (3000, 3600)]%float
               paused_session in
  timer_running st' = false
  /\ elapsed_time st'
     = fold_left (fun acc seg => (acc + (snd seg - fst seg))%float)
         [(2000, 2030); (3000, 3600)]%float (elapsed_time paused_session)
  /\ start_time_dt st' = start_time_dt paused_session
  /\ data_file st' = data_file paused_session
  /\ record_objects st' = record_objects paused_session
  /\ edit_window_records st' = edit_window_records paused_session.
Proof.
  exact (resume_pause_accumulates [(2000, 2030); (3000, 3600)]%float
           paused_session eq_refl).
Defined.

Example resume_pause_accumulates_value :
  elapsed_time (resume_pause_cycles [(2000, 2030); (3000, 3600)]%float
                  paused_session) = 720%float.
Proof. vm_compute. reflexivity. Qed.

Lemma current_elapsed_is_what_pause_commits_witness :
  current_elapsed 1090%float running_session
  = Ok (elapsed_time (state_of (pause_timer 1090%float running_session)))
  /\ current_elapsed 5000%float paused_session
     = Ok (elapsed_time paused_session).
Proof.
  split.
  - exact (proj1 (current_elapsed_is_what_pause_commits 1090%float
                    running_session) 1000%float eq_refl eq_refl).
  - exact (proj2 (current_elapsed_is_what_pause_commits 5000%float
                    paused_session) eq_refl).
Defined.

(** A data file that holds an object, not a list. *)
Definition object_file_app : app := init (Some "{}").

(** Saving a session over the scenario's file when the file system fails
    after twelve characters of the new text. *)
Definition interrupted_app : app :=
  state_of (save_time_record_on Json.loads Json.iterencode (Some (Some 12%nat))
              (Some noon) one_pm 90%float "x" scenario_app).

Lemma save_time_record_failures_witness :
  set_data_file (data_file scenario_app) interrupted_app = scenario_app
  /\ data_file interrupted_app
     = Some ("[" ++ String (ascii_of_nat 10) "    {"
             ++ String (ascii_of_nat 10) "    ")%string
  /\ match data_file interrupted_app with
     | Some text => Json.loads text
     | None => None
     end = None
  /\ save_time_record_on Json.loads Json.iterencode (Some None)
       (Some noon) one_pm 90%float "x" object_file_app
     = Raised AttributeError object_file_app.
Proof.
  destruct (save_time_record_failures Json.loads Json.iterencode
              (Some (Some 12%nat)) (Some noon) one_pm 90%float "x"
              scenario_app interrupted_app OSError
              ltac:(vm_compute; reflexivity)) as (H1 & _ & _).
  split; [exact H1 | repeat split; vm_compute; reflexivity].
Defined.


(** A running timer over a data file that is not JSON. *)
Definition broken_file_app : app :=
  state_of (start_timer noon 1000%float (init (Some "not json"))).

Lemma stop_timer_failure_keeps_session_witness :
  stop_timer Json.loads Json.iterencode 1090%float None one_pm broken_file_app
  = Raised JSONDecodeError
      (set_timer false (start_time broken_file_app)
         (start_time_dt broken_file_app)
         (committed 1090%float broken_file_app) broken_file_app)
  /\ data_file (state_of (stop_timer Json.loads Json.iterencode 1090%float
                            None one_pm broken_file_app))
     = data_file broken_file_app.
Proof.
  apply (stop_timer_failure_keeps_session Json.loads Json.iterencode
           1090%float None one_pm broken_file_app JSONDecodeError).
  - vm_compute. reflexivity.
  - discriminate.
  - left. reflexivity.
Defined.

Lemma stop_timer_then_stop_or_start_witness :
  let st' := state_of (stop_timer Json.loads Json.iterencode 2000%float
                         (Some "x") one_pm paused_session) in
  stop_timer Json.loads Json.iterencode 2500%float None one_pm st'
  = Returned st'
      [showwarning "Warning" "No active or paused session to stop."]
  /\ start_timer one_pm 2500%float st'
     = Returned (set_timer true (Some 2500%float) (Some one_pm) 0%float st') [].
Proof.
  apply (stop_timer_then_stop_or_start Json.loads Json.iterencode 2000%float
           2500%float (Some "x") None one_pm one_pm paused_session noon []).
  - reflexivity.
  - reflexivity.
  - discriminate.
  - right. reflexivity.
Defined.

(** The edit window opened on the scenario's file. *)
Definition edit_app : app :=
  mkApp false None None 0%float (Some scenario_text)
    [record_A; record_B] [0; 1]%nat.


(** Editing the first record of the scenario to its own times: the edit
    is saved, with the seconds counted from the start to the end. And the
    example of the specification, an end one hour before the start, is
    refused. *)
Lemma save_changes_validates_witness :
  (exists (st' : app) (n : nat) (elapsed : float),
      save_changes Json.iterencode 0 "2025-01-01 09:00:00"
        "2025-01-01 10:30:00" "x" edit_app
      = Returned st' [showinfo "Success" "Record updated."]
      /\ Nat.iter n next_second (mkDatetime 2025 1 1 9 0 0 0)
         = mkDatetime 2025 1 1 10 30 0 0
      /\ float_units elapsed = Some (Z.of_nat n * 2 ^ 1074)
      /\ (mkDatetime 2025 1 1 10 30 0 0 = mkDatetime 2025 1 1 9 0 0 0 ->
          n = 0%nat /\ elapsed = 0%float)
      /\ data_file st'
         = Some (joined (Json.iterencode (listed_records st')))
      /\ ((0 < List.length (record_objects edit_app))%nat ->
          let d := nth 0 (record_objects st') [] in
          dict_lookup "start_time" d = Some (JStr "2025-01-01T09:00:00")
          /\ dict_lookup "end_time" d = Some (JStr "2025-01-01T10:30:00")
          /\ dict_lookup "elapsed" d = Some (JFloat elapsed)
          /\ dict_lookup "comment" d = Some (JStr "x")))
  /\ save_changes Json.iterencode 0 "2025-01-01 10:00:00"
       "2025-01-01 09:00:00" "x" edit_app
     = Returned edit_app
         [showerror "Error" "End time cannot be before start time."].
Proof.
  split.
  - exact (proj1 (proj2 (proj2 (save_changes_validates Json.iterencode 0
                                  "2025-01-01 09:00:00" "2025-01-01 10:30:00"
                                  "x" edit_app)
                           (mkDatetime 2025 1 1 9 0 0 0)
                           (mkDatetime 2025 1 1 10 30 0 0) eq_refl eq_refl))
             eq_refl).
  - exact (proj1 (proj2 (save_changes_validates Json.iterencode 0
                           "2025-01-01 10:00:00" "2025-01-01 09:00:00" "x"
                           edit_app)
                    (mkDatetime 2025 1 1 10 0 0 0)
                    (mkDatetime 2025 1 1 9 0 0 0) eq_refl eq_refl)
             eq_refl).
Defined.

(** The same edit by computation: 5400 steps of one second, and 5400.0
    stored. *)
Example save_changes_stores_seconds :
  Nat.iter (Z.to_nat 5400) next_second (mkDatetime 2025 1 1 9 0 0 0)
  = mkDatetime 2025 1 1 10 30 0 0
  /\ float_units 5400%float = Some (5400 * 2 ^ 1074)
  /\ nth 0 (record_objects
              (state_of (save_changes Json.iterencode 0 "2025-01-01 09:00:00"
                           "2025-01-01 10:30:00" "x" edit_app))) []
     = [("start_time", JStr "2025-01-01T09:00:00");
        ("end_time", JStr "2025-01-01T10:30:00");
        ("elapsed", JFloat 5400); ("comment", JStr "x")].
Proof. repeat split; vm_compute; reflexivity. Qed.

Definition nine : datetime := mkDatetime 2025 1 2 9 0 0 0.
Definition ten : datetime := mkDatetime 2025 1 2 10 0 0 0.

Lemma save_changes_touches_one_record_witness :
  exists st' : app,
    save_changes Json.iterencode 1 "2025-01-02 09:00:00" "2025-01-02 10:00:00"
      "longer" edit_app
    = Returned st' [showinfo "Success" "Record updated."]
    /\ nth 0 (record_objects st') [] = record_A
    /\ edit_window_records st' = [0; 1]%nat
    /\ nth_error (listed st') 1
       = Some (JDict (edited (isoformat nine) (isoformat ten)
                        (timedelta_total_seconds (datetime_sub ten nine))
                        "longer" record_B)).
Proof.
  eexists. split; [reflexivity |].
  pose proof (save_changes_touches_one_record Json.iterencode 1
                "2025-01-02 09:00:00" "2025-01-02 10:00:00" "longer"
                edit_app _ _ nine ten eq_refl eq_refl eq_refl eq_refl) as H.
  cbv zeta in H. destruct H as (H1 & _ & H3 & H4 & _).
  split; [exact (H1 0%nat ltac:(discriminate)) | split; [exact H3 |]].
  exact (H4 1%nat 1%nat eq_refl ltac:(simpl; lia)).
Defined.

Example save_changes_recomputes_elapsed :
  timedelta_total_seconds (datetime_sub ten nine) = 3600%float
  /\ dict_lookup "elapsed" record_B = Some (JInt 900).
Proof. split; vm_compute; reflexivity. Qed.

Lemma save_changes_after_delete_is_lost_witness :
  let st1 := state_of (delete_selected_record Json.iterencode 1 edit_app) in
  let st2 := state_of (save_changes Json.iterencode 1 "2025-01-02 09:00:00"
                         "2025-01-02 10:00:00" "longer" st1) in
  listed st1 = remove_at 1 (listed edit_app)
  /\ listed st2 = listed st1
  /\ data_file st2 = data_file st1
  /\ signalled (save_changes Json.iterencode 1 "2025-01-02 09:00:00"
                  "2025-01-02 10:00:00" "longer" st1) = None.
Proof.
  apply (save_changes_after_delete_is_lost Json.iterencode 1 1
           "2025-01-02 09:00:00" "2025-01-02 10:00:00" "longer" edit_app
           nine ten).
  - repeat constructor; simpl; intuition discriminate.
  - reflexivity.
  - reflexivity.
  - reflexivity.
  - reflexivity.
Defined.

Lemma export_failures_in_order_witness :
  export_data_to_excel Json.loads fromisoformat_naive "2025-01-01" "never"
    broken_file_app = Raise JSONDecodeError
  /\ export_data_to_excel Json.loads fromisoformat_naive "2025-01-01" "never"
       object_file_app
     = Raise (ValueError "Dates must be in YYYY-MM-DD format.").
Proof.
  split.
  - apply (proj1 (export_failures_in_order Json.loads fromisoformat_naive
                    "2025-01-01" "never" broken_file_app)).
    vm_compute. reflexivity.
  - apply (proj2 (export_failures_in_order Json.loads fromisoformat_naive
                    "2025-01-01" "never" object_file_app) (JDict [])).
    + vm_compute. reflexivity.
    + right. vm_compute. reflexivity.
Defined.

Lemma filter_loop_stops_on_ill_typed_item_witness :
  filter_loop fromisoformat_naive (mkDate 2025 1 1) (mkDate 2025 1 1)
    ([JDict record_A] ++ record_null :: [JDict record_B]) []
  = Raise TypeError.
Proof.
  exact (filter_loop_stops_on_ill_typed_item fromisoformat_naive
           (mkDate 2025 1 1) (mkDate 2025 1 1) [JDict record_A]
           [JDict record_B] record_null [] eq_refl eq_refl).
Defined.

Lemma filter_loop_monotone_witness :
  exists narrow wide : list json,
    filter_loop fromisoformat_naive (mkDate 2025 1 2) (mkDate 2025 1 2)
      [JDict record_A; JDict record_B] [] = Ok narrow
    /\ filter_loop fromisoformat_naive (mkDate 2025 1 1) (mkDate 2025 1 31)
         [JDict record_A; JDict record_B] [] = Ok wide
    /\ incl narrow wide
    /\ incl wide [JDict record_A; JDict record_B].
Proof.
  exact (filter_loop_monotone fromisoformat_naive (mkDate 2025 1 2)
           (mkDate 2025 1 2) (mkDate 2025 1 1) (mkDate 2025 1 31)
           [JDict record_A; JDict record_B] eq_refl eq_refl eq_refl).
Defined.

Lemma sheet_rows_shape_witness :
  exists rows : list (list json),
    sheet_rows [JDict record_A; JDict record_B] = Ok rows
    /\ List.length rows = 6%nat
    /\ Forall (fun row => List.length row = 4%nat) rows.
Proof.
  eexists. split; [vm_compute; reflexivity |].
  pose proof (sheet_rows_shape [JDict record_A; JDict record_B] _
                ltac:(vm_compute; reflexivity)) as (H1 & H2 & _).
  split; [exact H1 | exact H2].
Defined.

(** A record with a start time and nothing else. *)
Definition record_bare : dict := [("start_time", JStr "2025-01-01T09:00:00")].

Lemma sheet_rows_missing_elapsed_witness :
  sheet_rows ([JDict record_A] ++ JDict record_bare :: [JDict record_B])
  = Raise (KeyError "elapsed")
  /\ exists cells : list json,
       nth_error [row_of record_A; row_of record_bare; row_of record_B] 1
       = Some cells
       /\ nth_error cells 2 = Some (JStr "").
Proof.
  exact (sheet_rows_missing_elapsed [JDict record_A] [JDict record_B]
           record_bare
           [row_of record_A; row_of record_bare; row_of record_B]
           (PInt 5400) eq_refl eq_refl eq_refl).
Defined.

(** A session that took eight hours by the clock and a little under seven
    on the timer. *)
Definition morning : datetime := mkDatetime 2025 3 4 8 59 58 250000.
Definition evening : datetime := mkDatetime 2025 3 4 17 0 1 0.

Lemma save_changes_accepts_nonnegative_spans_witness :
  (datetime_lt evening (whole_second morning) = false ->
     0 <= datetime_sub evening (whole_second morning)
     /\ datetime_sub evening (whole_second morning) mod 1000000 = 0
     /\ (datetime_sub evening (whole_second morning) = 0 ->
         evening = whole_second morning))
  /\ (datetime_lt evening (whole_second morning) = true ->
      datetime_sub evening (whole_second morning) < 0).
Proof.
  exact (save_changes_accepts_nonnegative_spans "2025-03-04 08:59:58"
           "2025-03-04 17:00:01" (whole_second morning) evening
           eq_refl eq_refl).
Defined.

Lemma display_parses_back_witness :
  strptime_datetime (strftime_display false morning)
  = Some (whole_second morning).
Proof.
  exact (display_parses_back false morning eq_refl ltac:(simpl; lia)).
Defined.

Example display_text :
  strftime_display false morning = "2025-03-04 08:59:58"
  /\ isoformat morning = "2025-03-04T08:59:58.250000".
Proof. split; vm_compute; reflexivity. Qed.

Lemma iso_to_display_round_trip_witness :
  (exists text : string,
      iso_to_display fromisoformat_naive true
        (JStr "2025-03-04T08:59:58.250000") = JStr text
      /\ strptime_datetime text = Some (whole_second morning))
  /\ iso_to_display fromisoformat_naive true (JStr "yesterday")
     = JStr "yesterday"
  /\ iso_to_display fromisoformat_naive true JNull = JNull.
Proof.
  destruct (iso_to_display_round_trip fromisoformat_naive true
              (JStr "2025-03-04T08:59:58.250000")) as (H1 & _ & _).
  destruct (iso_to_display_round_trip fromisoformat_naive true
              (JStr "yesterday")) as (_ & H2 & _).
  destruct (iso_to_display_round_trip fromisoformat_naive true JNull)
    as (_ & _ & H3).
  split; [| split].
  - exact (H1 "2025-03-04T08:59:58.250000" morning eq_refl
             ltac:(vm_compute; reflexivity) eq_refl ltac:(simpl; lia)).
  - exact (H2 "yesterday" eq_refl ltac:(vm_compute; reflexivity)).
  - apply H3. intros s; discriminate.
Defined.
